(** * obsidian-whisper-plugin: the audio-processing pipeline

    A shallow embedding of [AudioProcessor] (the timestamp-progress version
    and its older percent-progress sibling) and of the part of [WhisperPlugin]
    that calls it, with the properties of the pipeline proved about it.

    Conventions of the embedding.
    - A JavaScript string is a [string]; its characters are the code units
      0..255.
    - A JavaScript number that holds a time or a duration is an exact rational
      [Q].  The times handled here have millisecond resolution and stay below
      10^6 seconds, where the rounding of IEEE doubles (below 10^-10) cannot
      move a value across a whole second or a half percent.
    - [Math.floor] is [Qfloor], [Math.round x] is [Qfloor (x + 1/2)], and
      [a % b] keeps the sign of [a].
    - Node's [path] module is the POSIX one (the plugin runs on macOS). *)

From Stdlib Require Import ZArith QArith Qround Lqa String Ascii List Lia DecimalString Sorted.
From stdpp Require Import base option list gmap sets strings.

Local Open Scope string_scope.

(** ** JavaScript strings *)

Module JsString.

Definition code (c : ascii) : N := N_of_ascii c.

(** [\d] *)
Definition is_digit (c : ascii) : bool :=
  (48 <=? code c)%N && (code c <=? 57)%N.

(** [\s] on the code units 0..255: TAB, LF, VT, FF, CR, SPACE, NBSP. *)
Definition is_space (c : ascii) : bool :=
  ((9 <=? code c)%N && (code c <=? 13)%N) || (code c =? 32)%N || (code c =? 160)%N.

Definition digit_val (c : ascii) : Z := Z.of_N (code c) - 48.

Definition digit_chars : list ascii :=
  ["0"; "1"; "2"; "3"; "4"; "5"; "6"; "7"; "8"; "9"]%char.

(** [parseInt(s, 10)] on the digit prefix of [s], most significant digit
    first.  (JavaScript gives NaN when [s] has no leading digit; every call
    in [AudioProcessor] passes a regex group made of digits.) *)
Fixpoint parseInt_from (acc : Z) (s : string) : Z :=
  match s with
  | EmptyString => acc
  | String c r => if is_digit c then parseInt_from (10 * acc + digit_val c) r else acc
  end.

Definition parseInt (s : string) : Z := parseInt_from 0 s.

(** [n.toString()] of an integer. *)
Definition toString (n : Z) : string := NilZero.string_of_int (Z.to_int n).

Fixpoint repeat_char (c : ascii) (n : nat) : string :=
  match n with
  | O => EmptyString
  | S k => String c (repeat_char c k)
  end.

(** [s.padStart(n, c)] for a one-character filler. *)
Definition padStart (n : nat) (c : ascii) (s : string) : string :=
  repeat_char c (n - String.length s) +:+ s.

(** [s.startsWith(p)] *)
Fixpoint startsWith (p s : string) : bool :=
  match p, s with
  | EmptyString, _ => true
  | String a p', String b s' => Ascii.eqb a b && startsWith p' s'
  | String _ _, EmptyString => false
  end.

(** [s.includes(p)] *)
Fixpoint includes (p s : string) : bool :=
  startsWith p s ||
  match s with
  | EmptyString => false
  | String _ s' => includes p s'
  end.

Fixpoint trimStart (s : string) : string :=
  match s with
  | EmptyString => EmptyString
  | String c r => if is_space c then trimStart r else s
  end.

Definition rev (s : string) : string :=
  string_of_list_ascii (List.rev (list_ascii_of_string s)).

Definition trimEnd (s : string) : string := rev (trimStart (rev s)).

(** [s.trim()] *)
Definition trim (s : string) : string := trimEnd (trimStart s).

(** [s.split('\n')]: never empty; the last element is the text after the
    last line feed. *)
Fixpoint split_lines (s : string) : list string :=
  match s with
  | EmptyString => [EmptyString]
  | String c r =>
      if Ascii.eqb c "010"%char then EmptyString :: split_lines r
      else match split_lines r with
           | l :: ls => String c l :: ls
           | [] => [String c EmptyString]
           end
  end.

End JsString.

(** ** JavaScript numbers

    Numbers are the exact rationals.  The code's doubles agree with them on
    the integers below 2^53 and on the comparisons, sums and differences
    that stay there.  A quotient or a product is rounded to 53 bits by the
    code and not here: a [Math.round] of a value that the code's rounding
    moves across a half ([2.3 / 4 * 100]) can differ by one. *)

Module JsNumber.

Local Open Scope Q_scope.

(** [Math.floor] *)
Definition floor (x : Q) : Z := Qfloor x.

(** [Math.round]: to the nearest integer, halves upward. *)
Definition round (x : Q) : Z := Qfloor (x + (1 # 2)).

(** Truncation toward zero. *)
Definition trunc (x : Q) : Z := Z.quot (Qnum x) (Zpos (Qden x)).

(** [a % b]: the remainder has the sign of [a]. *)
Definition rem (a b : Q) : Q := a - b * inject_Z (trunc (a / b)).

Definition gtb (a b : Q) : bool := negb (Qle_bool a b).

(** Truthiness of a number: anything but zero (and NaN). *)
Definition truthy (x : Q) : bool := negb (Qeq_bool x 0).

End JsNumber.

(** ** Regular expressions of [AudioProcessor]

    The two regular expressions of the class, written as backtracking
    matchers: a matcher consumes a prefix of the text and yields its captures
    and the rest of the text. *)

Module Regex.
Import JsString.

(** [\d{n}] *)
Fixpoint take_digits (n : nat) (s : string) : option (string * string) :=
  match n with
  | O => Some ("", s)
  | S k =>
      match s with
      | String c r =>
          if is_digit c
          then '(d, rest) ← take_digits k r; Some (String c d, rest)
          else None
      | EmptyString => None
      end
  end.

(** A literal. *)
Fixpoint expect (p : string) (s : string) : option string :=
  match p with
  | EmptyString => Some s
  | String a p' =>
      match s with
      | String b s' => if Ascii.eqb a b then expect p' s' else None
      | EmptyString => None
      end
  end.

(** [(?:(\d{2}):)?]: greedy, so the hour group is tried first and given up
    when the continuation [k] fails with it. *)
Definition opt_hours {R} (s : string) (k : option string -> string -> option R)
  : option R :=
  let with_hours :=
    '(h, s1) ← take_digits 2 s;
    s2 ← expect ":" s1;
    k (Some h) s2 in
  match with_hours with
  | Some r => Some r
  | None => k None s
  end.

(** The groups of [/^(?:(\d{2}):)?(\d{2}):(\d{2})\.(\d{3})$/]. *)
Record ts_groups := TsGroups {
  g_hours : option string;
  g_minutes : string;
  g_seconds : string;
  g_millis : string
}.

Definition timestamp_match (s : string) : option ts_groups :=
  opt_hours s (fun h s0 =>
    '(m, s1) ← take_digits 2 s0;
    s2 ← expect ":" s1;
    '(sec, s3) ← take_digits 2 s2;
    s4 ← expect "." s3;
    '(ms, s5) ← take_digits 3 s4;
    if String.eqb s5 "" then Some (TsGroups h m sec ms) else None).

(** The groups 1..6 of
    [/\[(?:(\d{2}):)?(\d{2}):(\d{2}\.\d{3})\s*-->\s*(?:(\d{2}):)?(\d{2}):(\d{2}\.\d{3})\]/]. *)
Record range_groups := RangeGroups {
  m1 : option string;
  m2 : string;
  m3 : string;
  m4 : option string;
  m5 : string;
  m6 : string
}.

(** [(\d{2}):(\d{2}\.\d{3})] *)
Definition min_sec (s : string) : option (string * string * string) :=
  '(m, s1) ← take_digits 2 s;
  s2 ← expect ":" s1;
  '(sec, s3) ← take_digits 2 s2;
  s4 ← expect "." s3;
  '(ms, s5) ← take_digits 3 s4;
  Some (m, sec +:+ "." +:+ ms, s5).

(** [\s*] before a literal that does not start with white space takes all
    the white space there is. *)
Definition skip_spaces (s : string) : string := trimStart s.

(** The range pattern at the start of [s]. *)
Definition range_at (s : string) : option range_groups :=
  s0 ← expect "[" s;
  opt_hours s0 (fun g1 s1 =>
    '(g2, g3, s2) ← min_sec s1;
    s3 ← expect "-->" (skip_spaces s2);
    opt_hours (skip_spaces s3) (fun g4 s4 =>
      '(g5, g6, s5) ← min_sec s4;
      _ ← expect "]" s5;
      Some (RangeGroups g1 g2 g3 g4 g5 g6))).

(** [line.match(re)] without the [g] flag: the leftmost match. *)
Fixpoint range_match (line : string) : option range_groups :=
  match range_at line with
  | Some g => Some g
  | None =>
      match line with
      | String _ r => range_match r
      | EmptyString => None
      end
  end.

End Regex.

(** ** Node's [path] module (POSIX flavour)

    The functions of [path] that [AudioProcessor] and [WhisperPlugin] call,
    after the documented behaviour of Node's [path.posix]. *)

Module NodePath.
Import JsString.

Definition slash : ascii := "/"%char.
Definition is_slash (c : ascii) : bool := Ascii.eqb c slash.

Definition chars (s : string) : list ascii := list_ascii_of_string s.
Definition str (l : list ascii) : string := string_of_list_ascii l.

(** [path.isAbsolute] *)
Definition isAbsolute (p : string) : bool :=
  match p with
  | String c _ => is_slash c
  | EmptyString => false
  end.

(** The segments between slashes, empty ones included. *)
Fixpoint segments_from (cur : list ascii) (l : list ascii) : list string :=
  match l with
  | [] => [str (List.rev cur)]
  | c :: r =>
      if is_slash c then str (List.rev cur) :: segments_from [] r
      else segments_from (c :: cur) r
  end.

Definition segments (p : string) : list string := segments_from [] (chars p).

Fixpoint join_segments (l : list string) : string :=
  match l with
  | [] => ""
  | [x] => x
  | x :: r => x +:+ "/" +:+ join_segments r
  end.

(** One step of [normalizeString]: [acc] holds the kept segments, last one
    first. *)
Definition normalize_step (allowAboveRoot : bool) (acc : list string) (seg : string)
  : list string :=
  if String.eqb seg "" || String.eqb seg "." then acc
  else if String.eqb seg ".." then
    match acc with
    | last :: rest =>
        if String.eqb last ".." then (if allowAboveRoot then seg :: acc else acc)
        else rest
    | [] => if allowAboveRoot then [seg] else []
    end
  else seg :: acc.

Definition normalizeString (p : string) (allowAboveRoot : bool) : string :=
  join_segments (List.rev (fold_left (normalize_step allowAboveRoot) (segments p) [])).

Definition ends_with_slash (p : string) : bool :=
  match List.rev (chars p) with
  | c :: _ => is_slash c
  | [] => false
  end.

(** [path.normalize] *)
Definition normalize (p : string) : string :=
  if String.eqb p "" then "."
  else
    let abs := isAbsolute p in
    let trailing := ends_with_slash p in
    let body := normalizeString p (negb abs) in
    if String.eqb body "" then
      (if abs then "/" else if trailing then "./" else ".")
    else
      let body := if trailing then body +:+ "/" else body in
      if abs then "/" +:+ body else body.

(** [path.join]: the non-empty arguments joined by a slash, normalized. *)
Definition join (args : list string) : string :=
  let joined := join_segments (List.filter (fun a => negb (String.eqb a "")) args) in
  if String.eqb joined "" then "." else normalize joined.

Fixpoint drop_while {A} (f : A -> bool) (l : list A) : list A :=
  match l with
  | [] => []
  | x :: r => if f x then drop_while f r else l
  end.

Fixpoint take_while {A} (f : A -> bool) (l : list A) : list A :=
  match l with
  | [] => []
  | x :: r => if f x then x :: take_while f r else []
  end.

(** [path.dirname]: scanning from the end down to index 1, trailing slashes
    are skipped, then the last component, up to the slash before it. *)
Definition dirname (p : string) : string :=
  match chars p with
  | [] => "."
  | c0 :: tail =>
      let hasRoot := is_slash c0 in
      let scan := drop_while (fun c => negb (is_slash c))
                    (drop_while is_slash (List.rev tail)) in
      match scan with
      | [] => if hasRoot then "/" else "."
      | _ :: before =>
          if hasRoot && Nat.eqb (List.length before) 0 then "//"
          else str (c0 :: List.rev before)
      end
  end.

(** [path.resolve] of one argument; [cwd] is [process.cwd()], an absolute
    path. *)
Definition resolve (cwd : string) (p : string) : string :=
  let resolved := if String.eqb p "" then "" else p +:+ "/" in
  let '(resolved, abs) :=
    if isAbsolute p then (resolved, true)
    else if String.eqb cwd "" then (resolved, false)
    else (cwd +:+ "/" +:+ resolved, isAbsolute cwd) in
  let body := normalizeString resolved (negb abs) in
  if abs then "/" +:+ body
  else if String.eqb body "" then "." else body.

(** The last component of a path, trailing slashes dropped, and those
    trailing slashes. *)
Definition last_component (p : string) : string :=
  str (List.rev (take_while (fun c => negb (is_slash c))
                   (drop_while is_slash (List.rev (chars p))))).

Definition trailing_slashes (p : string) : string :=
  str (take_while is_slash (List.rev (chars p))).

Fixpoint last_dot_from (i : nat) (best : option nat) (l : list ascii) : option nat :=
  match l with
  | [] => best
  | c :: r => last_dot_from (S i) (if Ascii.eqb c "."%char then Some i else best) r
  end.

(** [path.extname]: from the last dot of the last component, unless that
    dot starts the component or the component is [..]. *)
Definition extname (p : string) : string :=
  let base := last_component p in
  match last_dot_from 0 None (chars base) with
  | None => ""
  | Some i =>
      if Nat.eqb i 0 || String.eqb base ".." then ""
      else String.substring i (String.length base - i) base
  end.

Definition endsWith (suffix s : string) : bool :=
  startsWith (rev suffix) (rev s).

(** [path.basename(p, suffix)] *)
Definition basename (p suffix : string) : string :=
  let base := last_component p in
  if negb (String.eqb suffix "") && (String.length suffix <=? String.length p)%nat then
    if String.eqb suffix p then ""
    else if endsWith suffix base then
      (if String.eqb suffix base then base
       else String.substring 0 (String.length base - String.length suffix) base)
    else if endsWith base suffix then base +:+ trailing_slashes p
    else base
  else base.

End NodePath.

(** ** [AudioProcessor]: time formatting, timestamp parsing, progress *)

Module Progress.
Import JsString.
Local Open Scope Q_scope.

(** [formatTime(timeInSeconds)]; for times below 2^53 the floors the code
    takes of its doubles are the floors of the exact values. *)
Definition formatTime (timeInSeconds : Q) : string :=
  let hours := JsNumber.floor (timeInSeconds / 3600) in
  let minutes := JsNumber.floor (JsNumber.rem timeInSeconds 3600 / 60) in
  let seconds := JsNumber.floor (JsNumber.rem timeInSeconds 60) in
  if (0 <? hours)%Z
  then toString hours +:+ ":" +:+ padStart 2 "0" (toString minutes)
         +:+ ":" +:+ padStart 2 "0" (toString seconds)
  else toString minutes +:+ ":" +:+ padStart 2 "0" (toString seconds).

(** [parseTimestamp(timestamp)]: 0 when the text is not [[HH:]MM:SS.mmm]. *)
Definition parseTimestamp (timestamp : string) : Q :=
  match Regex.timestamp_match timestamp with
  | None => 0
  | Some g =>
      let hours := match Regex.g_hours g with
                   | Some h => parseInt h
                   | None => 0%Z
                   end in
      let minutes := parseInt (Regex.g_minutes g) in
      let seconds := parseInt (Regex.g_seconds g) in
      let milliseconds := parseInt (Regex.g_millis g) in
      inject_Z hours * 3600 + inject_Z minutes * 60 + inject_Z seconds
        + inject_Z milliseconds / 1000
  end.

(** What the stdout handler passes to [onProgressUpdate]. *)
Inductive progress_msg :=
| TranscriptionProgress (currentTime totalDuration : Q) (progress : Z)
    (** [`${formatTime(currentTime)} / ${formatTime(totalDuration)} (${progress}%)`] *)
| Transcribing.
    (** the fixed text "transcribing..." *)

Definition progress_text (currentTime totalDuration : Q) (progress : Z) : string :=
  formatTime currentTime +:+ " / " +:+ formatTime totalDuration
    +:+ " (" +:+ toString progress +:+ "%)".

(** The variables of [runTranscription] that its stdout handler updates. *)
Record closure := Closure {
  transcription : string;
  lastProgressUpdate : Q;
  buffer : string
}.

Definition initial : closure := Closure "" 0 "".

(** [endTimeStr]: groups 4, 5, 6 when group 4 took part in the match,
    groups 2, 3 otherwise. *)
Definition endTimeStr (g : Regex.range_groups) : string :=
  match Regex.m4 g with
  | Some h => h +:+ ":" +:+ Regex.m5 g +:+ ":" +:+ Regex.m6 g
  | None => Regex.m2 g +:+ ":" +:+ Regex.m3 g
  end.

(** [totalDuration && currentTime > lastProgressUpdate] *)
Definition applies (totalDuration : option Q) (currentTime last : Q) : bool :=
  match totalDuration with
  | Some d => JsNumber.truthy d && JsNumber.gtb currentTime last
  | None => false
  end.

(** [Math.min(Math.round((currentTime / totalDuration) * 100), 100)] *)
Definition percent (currentTime totalDuration : Q) : Z :=
  Z.min (JsNumber.round (currentTime / totalDuration * 100)) 100.

(** The body of the handler from [endTimeStr] on. *)
Definition on_end_time (totalDuration : option Q) (c : closure) (endTime : string)
  : closure * list progress_msg :=
  let currentTime := parseTimestamp endTime in
  if applies totalDuration currentTime (lastProgressUpdate c) then
    let d := default 0 totalDuration in
    (Closure (transcription c) currentTime (buffer c),
     [TranscriptionProgress currentTime d (percent currentTime d)])
  else (c, [Transcribing]).

(** One iteration of [for (const line of lines)]. *)
Definition on_line (totalDuration : option Q) (c : closure) (line : string)
  : closure * list progress_msg :=
  let c := Closure (transcription c +:+ line +:+ String "010" "")
                   (lastProgressUpdate c) (buffer c) in
  match Regex.range_match line with
  | Some g => on_end_time totalDuration c (endTimeStr g)
  | None => (c, [])
  end.

Fixpoint on_lines (totalDuration : option Q) (c : closure) (lines : list string)
  : closure * list progress_msg :=
  match lines with
  | [] => (c, [])
  | line :: rest =>
      let '(c1, out1) := on_line totalDuration c line in
      let '(c2, out2) := on_lines totalDuration c1 rest in
      (c2, (out1 ++ out2)%list)
  end.

(** The ['data'] handler of the recognizer's standard output; [output] is
    [data.toString()], the text decoded from the bytes of one read. *)
Definition on_stdout_data (totalDuration : option Q) (c : closure) (output : string)
  : closure * list progress_msg :=
  let lines := split_lines (buffer c +:+ output) in
  let complete := removelast lines in
  let c := Closure (transcription c) (lastProgressUpdate c) (List.last lines "") in
  on_lines totalDuration c complete.

(** The handler run on the chunks the recognizer writes, in order. *)
Fixpoint on_stdout (totalDuration : option Q) (c : closure) (chunks : list string)
  : closure * list progress_msg :=
  match chunks with
  | [] => (c, [])
  | output :: rest =>
      let '(c1, out1) := on_stdout_data totalDuration c output in
      let '(c2, out2) := on_stdout totalDuration c1 rest in
      (c2, (out1 ++ out2)%list)
  end.

(** The elapsed values that were applied as progress, oldest first. *)
Fixpoint applied (out : list progress_msg) : list Q :=
  match out with
  | [] => []
  | TranscriptionProgress t _ _ :: rest => t :: applied rest
  | Transcribing :: rest => applied rest
  end.

(** The percent as the specification words it:
    [round(min(elapsed/total, 1.0) * 100)]. *)
Definition percent_spec (elapsed total : Q) : Z :=
  let r := elapsed / total in
  JsNumber.round ((if Qle_bool r 1 then r else 1) * 100).

(** [l] is a strictly increasing run of values above [a] that ends at or
    below [b]. *)
Definition steps_up (a : Q) (l : list Q) (b : Q) : Prop :=
  StronglySorted Qlt l /\ Forall (fun t => a < t) l /\
  Forall (fun t => t <= b) l /\ a <= b.

(** A percent update that carries a positive time, the total
    duration, and the percent computed from the two. *)
Definition well_formed_update (d : Q) (m : progress_msg) : Prop :=
  match m with
  | TranscriptionProgress t d' p => d' = d /\ p = percent t d /\ 0 < t
  | Transcribing => True
  end.

Fixpoint percents (out : list progress_msg) : list Z :=
  match out with
  | [] => []
  | TranscriptionProgress _ _ p :: rest => p :: percents rest
  | Transcribing :: rest => percents rest
  end.

End Progress.

(** ** The world around [AudioProcessor] *)

Module World.

(** A running external process: an ffmpeg command (known by the file it
    writes) or a child process started by [spawn]. *)
Inductive process :=
| Ffmpeg (output : string)
| Child (command : string) (args : list string).

Inductive error :=
| WriteStreamError (path : string)
| FfmpegError (output : string)
| VaultPathUnavailable
| MkdirError (dir : string)
| SourceFileNotFound (path : string)
| CopyFileError (src dst : string)
| Mp3SaveFailed
| MlxWhisperNotFound (path : string)
| PythonNotFound (path : string)
| ResultFileNotFound
| ResultReadFailed (path : string)
| TranscriptionFailed (msg : string)
| ReadFileError (path : string)
| UnlinkError (path : string)
| KillError.

(** Calls of [onProgressUpdate]. *)
Inductive notice :=
| Converting (format : string) (percent : Z)
| Mp3Saved (path : string)
| Recognizing (m : Progress.progress_msg)
| TranscriptionComplete.

(** Calls of [onError]. *)
Inductive error_notice :=
| SaveFailed (e : error)
| TranscriptionError (output : string).

(** Calls of [console.error]. *)
Inductive console_error :=
| FfmpegCancelFailed (e : error)
| WhisperCancelFailed (e : error)
| FfmpegFailed (format : string) (e : error)
| Mp3SaveError (e : error)
| TempFileDeleteError (e : error)
| AudioProcessingFailed (e : error)
| FfprobeError
| TranscriptionErrorOutput (output : string)
| OutputUnlinkError (e : error).

(** The disk: regular files with their contents, and directories, both by
    absolute normalized path. *)
Record fs := Fs {
  files : gmap string string;
  dirs : gset string
}.

Record state := State {
  disk : fs;
  currentChildProcess : option process;
  currentFfmpegCommand : option process;
  spawned : list process;
  signalled : list process;
  progress : list notice;
  errors : list error_notice;
  console : list console_error
}.

Definition set_disk (d : fs) (s : state) : state :=
  State d (currentChildProcess s) (currentFfmpegCommand s) (spawned s) (signalled s)
        (progress s) (errors s) (console s).
Definition set_child (p : option process) (s : state) : state :=
  State (disk s) p (currentFfmpegCommand s) (spawned s) (signalled s)
        (progress s) (errors s) (console s).
Definition set_ffmpeg (p : option process) (s : state) : state :=
  State (disk s) (currentChildProcess s) p (spawned s) (signalled s)
        (progress s) (errors s) (console s).
Definition add_spawned (p : process) (s : state) : state :=
  State (disk s) (currentChildProcess s) (currentFfmpegCommand s) (spawned s ++ [p])
        (signalled s) (progress s) (errors s) (console s).
Definition add_signalled (p : process) (s : state) : state :=
  State (disk s) (currentChildProcess s) (currentFfmpegCommand s) (spawned s)
        (signalled s ++ [p]) (progress s) (errors s) (console s).
Definition add_progress (l : list notice) (s : state) : state :=
  State (disk s) (currentChildProcess s) (currentFfmpegCommand s) (spawned s)
        (signalled s) (progress s ++ l) (errors s) (console s).
Definition add_errors (l : list error_notice) (s : state) : state :=
  State (disk s) (currentChildProcess s) (currentFfmpegCommand s) (spawned s)
        (signalled s) (progress s) (errors s ++ l) (console s).
Definition add_console (l : list console_error) (s : state) : state :=
  State (disk s) (currentChildProcess s) (currentFfmpegCommand s) (spawned s)
        (signalled s) (progress s) (errors s) (console s ++ l).

(** How a promise (or a synchronous call) ends. *)
Inductive outcome (A : Type) :=
| Resolved (a : A)
| Rejected (e : error).
Arguments Resolved {A} a.
Arguments Rejected {A} e.

(** Where a promise stands once nothing more happens: settled with an
    outcome, or [Pending] for ever because nothing is left that would settle
    it.  An outcome is read as the promise settled with it. *)
Inductive promise (A : Type) :=
| Settled (o : outcome A)
| Pending.
Arguments Settled {A} o.
Arguments Pending {A}.

Module Reading.
Coercion Settled : outcome >-> promise.
End Reading.
Import Reading.

(** Computations over the state that may throw, or never come back. *)
Definition M (A : Type) : Type := state -> state * promise A.

Definition ret {A} (a : A) : M A := fun s => (s, Settled (Resolved a)).
Definition throw {A} (e : error) : M A := fun s => (s, Settled (Rejected e)).
Definition pending {A} : M A := fun s => (s, Pending).
Definition bind {A B} (m : M A) (k : A -> M B) : M B :=
  fun s => match m s with
           | (s1, Settled (Resolved a)) => k a s1
           | (s1, Settled (Rejected e)) => (s1, Settled (Rejected e))
           | (s1, Pending) => (s1, Pending)
           end.
Definition try_catch {A} (m : M A) (handler : error -> M A) : M A :=
  fun s => match m s with
           | (s1, Settled (Resolved a)) => (s1, Settled (Resolved a))
           | (s1, Settled (Rejected e)) => handler e s1
           | (s1, Pending) => (s1, Pending)
           end.
Definition get : M state := fun s => (s, Settled (Resolved s)).
Definition modify (f : state -> state) : M unit :=
  fun s => (f s, Settled (Resolved tt)).

#[global] Instance M_ret : MRet M := @ret.
#[global] Instance M_bind : MBind M := fun A B k m => bind m k.

(** What the class does not control.  A run of the recognizer: the reads
    its two streams deliver to their handlers (each as [data.toString()]
    gives it), its exit code, the disk it leaves, and whether it had closed
    before the answer of [ffprobe], that is before [runTranscription]
    attached its handlers. *)
Record recognizer_run := RecognizerRun {
  stdout : list string;
  stderr : list string;
  exit_code : option Z;
  disk_after : fs;
  closed_early : bool
}.

Record ffmpeg_run := FfmpegRun {
  percents : list (option Q);
  ended : bool;
  ffmpeg_disk_after : fs
}.

Record externals := Externals {
  cwd : string;
  home : string;
  iso_now : string;
  ffmpeg : string -> string -> string -> fs -> ffmpeg_run;
  ffprobe : string -> fs -> option Q;
  recognizer : string -> list string -> fs -> recognizer_run;
  kill_throws : process -> bool
}.

End World.

Import World.Reading.

(** ** Node's [fs] module on the modelled disk

    Paths are looked up by their absolute normalized form.  A regular file
    needs its parent directory; the root directory always exists. *)

Module NodeFs.
Import World.

Section WithCwd.
Variable cwd : string.

Definition canon (p : string) : string := NodePath.resolve cwd p.

Definition is_dir (d : fs) (p : string) : bool :=
  String.eqb p "/" || bool_decide (p ∈ dirs d).

Definition is_file (d : fs) (p : string) : bool :=
  bool_decide (is_Some (files d !! p)).

(** [fs.existsSync] *)
Definition existsSync (d : fs) (p : string) : bool :=
  is_file d (canon p) || is_dir d (canon p).

(** The ancestors of an absolute normalized path, the path included. *)
Fixpoint prefixes_from (acc : string) (segs : list string) : list string :=
  match segs with
  | [] => []
  | seg :: rest =>
      let here := acc +:+ "/" +:+ seg in
      here :: prefixes_from here rest
  end.

Definition ancestors (p : string) : list string :=
  prefixes_from "" (List.filter (fun seg => negb (String.eqb seg ""))
                                (NodePath.segments p)).

(** [fs.promises.mkdir(p, { recursive: true })]: fails when a regular file
    is in the way. *)
Definition mkdir_p (d : fs) (p : string) : option fs :=
  let ps := ancestors (canon p) in
  if existsb (is_file d) ps then None
  else Some (Fs (files d) (list_to_set ps ∪ dirs d)).

(** Writing a whole file: [createWriteStream] followed by [write] and
    [end]. *)
Definition write_file (d : fs) (p : string) (data : string) : option fs :=
  let q := canon p in
  if is_dir d (NodePath.dirname q) && negb (is_dir d q)
  then Some (Fs (<[q := data]> (files d)) (dirs d))
  else None.

(** [fs.readFileSync] and [fs.promises.readFile] *)
Definition read_file (d : fs) (p : string) : option string :=
  files d !! canon p.

(** [fs.promises.copyFile] *)
Definition copy_file (d : fs) (src dst : string) : option fs :=
  data ← read_file d src;
  write_file d dst data.

(** [fs.unlinkSync] and [fs.promises.unlink] *)
Definition unlink (d : fs) (p : string) : option fs :=
  if is_file d (canon p)
  then Some (Fs (delete (canon p) (files d)) (dirs d))
  else None.

End WithCwd.

End NodeFs.

(** ** The class [AudioProcessor] (timestamp-progress version) *)

Module AudioProcessor.
Import JsString World.

Record settings := Settings {
  language : string;
  modelSize : string;
  audioDir : string
}.

(** The fields the constructor sets. *)
Record processor := Processor {
  tempDir : string;
  venvPath : string;
  mlxWhisperPath : string
}.

(** [constructor(tempDir, onProgressUpdate, onError)]; [home] is
    [process.env.HOME || '']. *)
Definition new (home tempDir : string) : processor :=
  let venvPath := NodePath.join [home; "Documents"; "obsidian"; "whisper-env"] in
  Processor tempDir venvPath (NodePath.join [venvPath; "bin"; "mlx_whisper"]).

(** [s.replace(pat, by)] for a text pattern: the first occurrence only. *)
Fixpoint replace_first (pat by_ s : string) : string :=
  match Regex.expect pat s with
  | Some rest => by_ +:+ rest
  | None =>
      match s with
      | String c r => String c (replace_first pat by_ r)
      | EmptyString => EmptyString
      end
  end.

(** [s.replace(/[:.]/g, '')] *)
Fixpoint remove_colons_dots (s : string) : string :=
  match s with
  | EmptyString => EmptyString
  | String c r =>
      if Ascii.eqb c ":" || Ascii.eqb c "."
      then remove_colons_dots r
      else String c (remove_colons_dots r)
  end.

(** The text after the first [Error: ] up to the end of its line: group 1
    of [/Error: (.*?)$/m]. *)
Fixpoint until_line_end (s : string) : string :=
  match s with
  | EmptyString => EmptyString
  | String c r =>
      if Ascii.eqb c "010" || Ascii.eqb c "013" then EmptyString
      else String c (until_line_end r)
  end.

Fixpoint error_line (s : string) : option string :=
  match Regex.expect "Error: " s with
  | Some rest => Some (until_line_end rest)
  | None =>
      match s with
      | String _ r => error_line r
      | EmptyString => None
      end
  end.

(** [errorMsg] of the ['close'] handler. *)
Definition errorMsg (transcription : string) : string :=
  if includes "Error:" transcription then
    match error_line transcription with
    | Some m => if String.eqb m "" then "Unknown error" else m
    | None => "Unknown error"
    end
  else transcription.

Section Methods.
Variable ext : externals.
Variable this : processor.

Definition lift_fs {A} (f : fs -> option (fs * A)) (e : error) : M A :=
  fun s => match f (disk s) with
           | Some (d, a) => (set_disk d s, Settled (Resolved a))
           | None => (s, Settled (Rejected e))
           end.

Definition existsSync (p : string) : M bool :=
  fun s => (s, Settled (Resolved (NodeFs.existsSync (cwd ext) (disk s) p))).

Definition fs_step (f : fs -> option fs) (e : error) : M unit :=
  lift_fs (fun d => d' ← f d; Some (d', tt)) e.

Definition readFile (p : string) (e : error) : M string :=
  lift_fs (fun d => data ← NodeFs.read_file (cwd ext) d p; Some (d, data)) e.

Definition unlinkSync (p : string) : M unit :=
  fs_step (fun d => NodeFs.unlink (cwd ext) d p) (UnlinkError p).

Definition onProgressUpdate (n : notice) : M unit := modify (add_progress [n]).
Definition onError (n : error_notice) : M unit := modify (add_errors [n]).
Definition console_error (c : console_error) : M unit := modify (add_console [c]).

(** [proc.kill('SIGTERM')] *)
Definition kill (p : process) : M unit :=
  if kill_throws ext p then throw KillError
  else modify (add_signalled p).

(** [cancelProcessing()] *)
Definition cancelProcessing : M unit :=
  s ← get;
  _ ← match currentFfmpegCommand s with
      | Some p =>
          try_catch (_ ← kill p; modify (set_ffmpeg None))
                    (fun e => console_error (FfmpegCancelFailed e))
      | None => ret tt
      end;
  s ← get;
  match currentChildProcess s with
  | Some p =>
      try_catch (_ ← kill p; modify (set_child None))
                (fun e => console_error (WhisperCancelFailed e))
  | None => ret tt
  end.

(** A conversion up to its [await]: the promise executor builds the
    ffmpeg command, stores it in [currentFfmpegCommand] and starts it. *)
Definition conversion_start (output : string) : M unit :=
  modify (set_ffmpeg (Some (Ffmpeg output))).

(** [Math.round(progress.percent || 0)] *)
Definition shown_percent (p : option Q) : Z :=
  match p with
  | Some q => if JsNumber.truthy q then JsNumber.round q else 0
  | None => 0
  end.

(** The events of a started conversion, to its end: ['progress'] calls,
    then ['end'] (the stored command is dropped, the promise resolves) or
    ['error'] (the promise rejects). *)
Definition conversion_finish (input format output : string) : M unit :=
  s ← get;
  let run := ffmpeg ext input format output (disk s) in
  _ ← modify (set_disk (ffmpeg_disk_after run));
  _ ← modify (add_progress (map (fun p => Converting format (shown_percent p))
                                (World.percents run)));
  if ended run then modify (set_ffmpeg None)
  else
    _ ← console_error (FfmpegFailed format (FfmpegError output));
    throw (FfmpegError output).

Definition mp3_path (filename : string) : string :=
  NodePath.join [tempDir this; filename +:+ ".mp3"].

Definition wav_path (inputPath : string) : string :=
  replace_first ".webm" "_converted.wav" inputPath.

(** [Promise.all([convertToMp3(...), convertToWav(...)])]: both commands
    are started before either is awaited; here they then run to their end
    one after the other, mp3 first. *)
Definition convert_both (tempFilePath filename : string) : M (string * string) :=
  let tempMp3Path := mp3_path filename in
  let wavFilePath := wav_path tempFilePath in
  _ ← conversion_start tempMp3Path;
  _ ← conversion_start wavFilePath;
  _ ← conversion_finish tempFilePath "mp3" tempMp3Path;
  _ ← conversion_finish tempFilePath "wav" wavFilePath;
  ret (tempMp3Path, wavFilePath).

Definition venvPython : string :=
  NodePath.join [venvPath this; "bin"; "python3"].

Definition outputPath (audioPath : string) : string :=
  let outputName := NodePath.basename audioPath (NodePath.extname audioPath) in
  NodePath.join [tempDir this; outputName +:+ ".txt"].

(** [command] of [runTranscription] *)
Definition command (audioPath : string) (st : settings) : list string :=
  [ mlxWhisperPath this;
    audioPath;
    "--model"; "mlx-community/whisper-large-v3-turbo";
    "--language"; language st;
    "--output-format"; "txt";
    "--output-dir"; tempDir this;
    "--condition-on-previous-text"; "False" ].

(** The ['data'] handler of the standard error stream. *)
Definition on_stderr_data (output : string) : M unit :=
  if includes "Error" output || includes "error" output then
    _ ← console_error (TranscriptionErrorOutput output);
    onError (TranscriptionError output)
  else ret tt.

Fixpoint on_stderr (chunks : list string) : M unit :=
  match chunks with
  | [] => ret tt
  | output :: rest => _ ← on_stderr_data output; on_stderr rest
  end.

(** The ['close'] handler with exit code 0 and the output file present:
    the file is read, the promise resolves with its trimmed text, the file
    is unlinked (not awaited; a failure goes to [console.error]).  A
    failing read rejects instead. *)
Definition read_result (audioPath : string) : M (outcome string) :=
  try_catch
    (result ← readFile (outputPath audioPath) (ReadFileError (outputPath audioPath));
     let textContent := trim result in
     _ ← onProgressUpdate TranscriptionComplete;
     _ ← try_catch (unlinkSync (outputPath audioPath))
                   (fun e => console_error (OutputUnlinkError e));
     ret (Resolved textContent))
    (fun _ => ret (Rejected (ResultReadFailed (outputPath audioPath)))).

(** How the ['close'] handler settles the promise. *)
Definition settle (audioPath : string) (code : option Z) (transcription : string)
  : M (outcome string) :=
  if bool_decide (code = Some 0%Z) then
    ex ← existsSync (outputPath audioPath);
    if ex : bool then read_result audioPath
    else ret (Rejected ResultFileNotFound)
  else ret (Rejected (TranscriptionFailed (errorMsg transcription))).

(** The ['close'] handler. *)
Definition on_close (audioPath : string) (code : option Z) (transcription : string)
  : M string :=
  r ← settle audioPath code transcription;
  _ ← modify (set_child None);
  match r with
  | Resolved text => ret text
  | Rejected e => throw e
  end.

(** [runTranscription(audioPath, settings)].  The handlers of the two
    streams and of ['close'] are attached in [getDuration.then], once
    [ffprobe] has answered: a process that has closed by then is never heard
    of again, the promise stays pending and the stored handle stays. *)
Definition runTranscription (audioPath : string) (st : settings) : M string :=
  ex ← existsSync (mlxWhisperPath this);
  if negb ex then throw (MlxWhisperNotFound (mlxWhisperPath this))
  else
    ex ← existsSync venvPython;
    if negb ex then throw (PythonNotFound venvPython)
    else
      let child := Child venvPython (command audioPath st) in
      _ ← modify (add_spawned child);
      _ ← modify (set_child (Some child));
      s ← get;
      let probed := ffprobe ext audioPath (disk s) in
      let totalDuration :=
        match probed with
        | Some d => if JsNumber.truthy d then Some d else None
        | None => None
        end in
      _ ← (if probed is None then console_error FfprobeError else ret tt);
      let run := recognizer ext venvPython (command audioPath st) (disk s) in
      _ ← modify (set_disk (disk_after run));
      if closed_early run then pending
      else
        let '(c, out) :=
          Progress.on_stdout totalDuration Progress.initial (stdout run) in
        _ ← modify (add_progress (map Recognizing out));
        _ ← on_stderr (stderr run);
        on_close audioPath (exit_code run) (Progress.transcription c).

(** [transcribeExternalFile(filePath, settings)] *)
Definition transcribeExternalFile (filePath : string) (st : settings) : M string :=
  runTranscription filePath st.

(** [vaultBasePath] and [absoluteAudioDir] of [processAudioBlob] *)
Definition vaultBasePath (pluginDir : string) : string :=
  NodePath.resolve (cwd ext) (NodePath.dirname pluginDir).

Definition absoluteAudioDir (st : settings) (pluginDir : string) : string :=
  if NodePath.isAbsolute (audioDir st) then audioDir st
  else NodePath.join [vaultBasePath pluginDir; audioDir st].

(** The inner [try] block of [processAudioBlob]: the archive copy. *)
Definition save_mp3 (st : settings) (pluginDir filename tempMp3Path : string) : M unit :=
  try_catch
    (if String.eqb (vaultBasePath pluginDir) "" then throw VaultPathUnavailable
     else
       let dir := absoluteAudioDir st pluginDir in
       _ ← fs_step (fun d => NodeFs.mkdir_p (cwd ext) d dir) (MkdirError dir);
       let finalMp3Path := NodePath.join [dir; filename +:+ ".mp3"] in
       ex ← existsSync tempMp3Path;
       if negb ex then throw (SourceFileNotFound tempMp3Path)
       else
         _ ← fs_step (fun d => NodeFs.copy_file (cwd ext) d tempMp3Path finalMp3Path)
                     (CopyFileError tempMp3Path finalMp3Path);
         ex ← existsSync finalMp3Path;
         if negb ex then throw Mp3SaveFailed
         else onProgressUpdate (Mp3Saved finalMp3Path))
    (fun e =>
       _ ← console_error (Mp3SaveError e);
       _ ← onError (SaveFailed e);
       throw e).

Definition recording_name : string :=
  "Recording " +:+ String.substring 0 15 (remove_colons_dots (iso_now ext)).

(** The deletion of the three temporary files, in its own [try]. *)
Definition cleanup (tempFilePath wavPath tempMp3Path : string) : M unit :=
  try_catch
    (_ ← unlinkSync tempFilePath;
     _ ← unlinkSync wavPath;
     unlinkSync tempMp3Path)
    (fun e => console_error (TempFileDeleteError e)).

(** [processAudioBlob] from its start to the read-back of the mp3: the
    recording is written, converted twice, the mp3 is copied to the audio
    directory, the wav is transcribed, the mp3 is read. *)
Definition up_to_read_back (audioBlob : string) (st : settings) (pluginDir : string)
  : M (string * string * string * string * string) :=
  let filename := recording_name in
  let tempFilePath := NodePath.join [tempDir this; filename +:+ ".webm"] in
  _ ← fs_step (fun d => NodeFs.write_file (cwd ext) d tempFilePath audioBlob)
              (WriteStreamError tempFilePath);
  '(tempMp3Path, wavPath) ← convert_both tempFilePath filename;
  _ ← save_mp3 st pluginDir filename tempMp3Path;
  transcription ← runTranscription wavPath st;
  mp3Buffer ← readFile tempMp3Path (ReadFileError tempMp3Path);
  ret (tempFilePath, wavPath, tempMp3Path, transcription, mp3Buffer).

(** [processAudioBlob(audioBlob, settings, pluginDir)]; [audioBlob] is the
    recorded bytes, the result is the transcription and the mp3 bytes. *)
Definition processAudioBlob (audioBlob : string) (st : settings) (pluginDir : string)
  : M (string * string) :=
  try_catch
    ('(tempFilePath, wavPath, tempMp3Path, transcription, mp3Buffer) ←
       up_to_read_back audioBlob st pluginDir;
     _ ← cleanup tempFilePath wavPath tempMp3Path;
     ret (transcription, mp3Buffer))
    (fun e =>
       _ ← console_error (AudioProcessingFailed e);
       throw e).

End Methods.

End AudioProcessor.

(** ** The older [AudioProcessor] (percent-progress version)

    Its [runTranscription] differs in the recognizer command line. *)

Module AudioProcessorLegacy.
Import AudioProcessor.

Definition command (this : processor) (audioPath : string) (st : settings) : list string :=
  [ mlxWhisperPath this;
    audioPath;
    "--model"; "mlx-community/whisper-" +:+ modelSize st +:+ "-v3-turbo";
    "--language"; language st;
    "--output-format"; "txt";
    "--output-dir"; tempDir this;
    "--verbose"; "False" ].

End AudioProcessorLegacy.

(** ** [WhisperPlugin] (main.ts) *)

Module WhisperPlugin.
Import World.

(** [processAudio(audioBlob)] up to the result of the processor: the
    directory it passes as [pluginDir] is
    [this.app.vault.adapter.getBasePath()], the base path of the vault.
    (Storing the mp3 in the vault and inserting the text in the editor
    follow, through the Obsidian API.) *)
Definition processAudio (ext : externals) (processor : AudioProcessor.processor)
    (basePath : string) (st : AudioProcessor.settings) (audioBlob : string)
  : M (string * string) :=
  let pluginDir := basePath in
  AudioProcessor.processAudioBlob ext processor audioBlob st pluginDir.

(** The directory the mp3 is copied to in that call. *)
Definition archive_dir (ext : externals) (basePath : string)
    (st : AudioProcessor.settings) : string :=
  let pluginDir := basePath in
  AudioProcessor.absoluteAudioDir ext st pluginDir.

End WhisperPlugin.

(** ** Example worlds

    A machine with the recognizer installed under [/Users/me], the scratch
    directory [/tmp/obsidian-whisper] and a vault at [/vault]; ffmpeg writes
    its output file, the audio lasts 10 seconds, and the recognizer prints one
    timestamped line. *)

Module Example.
Import World AudioProcessor.

Definition tmp : string := "/tmp/obsidian-whisper".
Definition this : processor := AudioProcessor.new "/Users/me" tmp.

Definition raw_path : string := "/tmp/obsidian-whisper/Recording 2025-01-02T0304.webm".
Definition wav_file : string :=
  "/tmp/obsidian-whisper/Recording 2025-01-02T0304_converted.wav".
Definition mp3_file : string := "/tmp/obsidian-whisper/Recording 2025-01-02T0304.mp3".
Definition txt_file : string :=
  "/tmp/obsidian-whisper/Recording 2025-01-02T0304_converted.txt".

Definition installed : fs :=
  Fs {[ mlxWhisperPath this := "mlx_whisper"; venvPython this := "python3" ]}
     {[ "/tmp"; tmp; "/vault" ]}.

(** The same machine without the interpreter. *)
Definition no_python : fs :=
  Fs {[ mlxWhisperPath this := "mlx_whisper" ]} {[ "/tmp"; tmp; "/vault" ]}.

Definition line : string := "[00:01.500 --> 00:04.200]  hello world".

Definition ffmpeg_writes (input format output : string) (d : fs) : ffmpeg_run :=
  FfmpegRun [Some (50 # 1)%Q; None] true (Fs (<[output := format]> (files d)) (dirs d)).

(** A recognizer that writes its text file and exits with code 0. *)
Definition recognizer_ok (python : string) (args : list string) (d : fs)
  : recognizer_run :=
  RecognizerRun [line +:+ String "010" ""] [] (Some 0%Z)
    (Fs (<[txt_file := "  hello world  "]> (files d)) (dirs d)) false.

(** A recognizer that exits with code 0 and writes nothing. *)
Definition recognizer_silent (python : string) (args : list string) (d : fs)
  : recognizer_run :=
  RecognizerRun [line +:+ String "010" ""] [] (Some 0%Z) d false.

(** A run of the recognizer during which the temporary mp3 disappears. *)
Definition recognizer_mp3_lost (python : string) (args : list string) (d : fs)
  : recognizer_run :=
  RecognizerRun [line +:+ String "010" ""] [] (Some 0%Z)
    (Fs (<[txt_file := "  hello world  "]> (delete mp3_file (files d))) (dirs d)) false.

(** A run of the recognizer during which the recording disappears. *)
Definition recognizer_raw_lost (python : string) (args : list string) (d : fs)
  : recognizer_run :=
  RecognizerRun [line +:+ String "010" ""] [] (Some 0%Z)
    (Fs (<[txt_file := "  hello world  "]> (delete raw_path (files d))) (dirs d)) false.

Definition machine (r : string -> list string -> fs -> recognizer_run) : externals :=
  Externals "/" "/Users/me" "2025-01-02T03:04:05.678Z"
    ffmpeg_writes (fun _ _ => Some 10%Q) r (fun _ => false).

Definition start (d : fs) : state := State d None None [] [] [] [] [].

Definition settings_en_small : settings := Settings "en" "small" "04_assets/audio".

End Example.

(** ** Timestamp texts

    The texts of the form [[HH:]MM:SS.mmm], given by their digits, and the
    numbers they denote. *)

Module TimestampText.
Import JsString.

Definition text2 (a b : ascii) : string := String a (String b "").
Definition text3 (a b c : ascii) : string := String a (String b (String c "")).

Definition value2 (a b : ascii) : Z := 10 * digit_val a + digit_val b.
Definition value3 (a b c : ascii) : Z :=
  100 * digit_val a + 10 * digit_val b + digit_val c.

(** [MM:SS.mmm] *)
Definition short_text (m1 m2 s1 s2 k1 k2 k3 : ascii) : string :=
  text2 m1 m2 +:+ ":" +:+ text2 s1 s2 +:+ "." +:+ text3 k1 k2 k3.

(** [HH:MM:SS.mmm] *)
Definition long_text (h1 h2 m1 m2 s1 s2 k1 k2 k3 : ascii) : string :=
  text2 h1 h2 +:+ ":" +:+ short_text m1 m2 s1 s2 k1 k2 k3.

(** [hours*3600 + minutes*60 + seconds + millis/1000] *)
Definition seconds_of (h m s ms : Z) : Q :=
  (inject_Z h * 3600 + inject_Z m * 60 + inject_Z s + inject_Z ms / 1000)%Q.

(** A two-digit field as [formatTime] shows it in the leading position:
    without its leading zero. *)
Definition unpadded (a b : ascii) : string :=
  if Ascii.eqb a "0" then String b "" else text2 a b.

(** The display form the specification expects back from [formatTime]: the
    timestamp cut to whole seconds, [[H:]MM:SS], minutes and seconds as
    they are written in the text. *)
Definition whole_seconds_display (x : string) : option string :=
  match Regex.timestamp_match x with
  | Some g =>
      let hours := match Regex.g_hours g with
                   | Some h => toString (parseInt h) +:+ ":"
                   | None => ""
                   end in
      Some (hours +:+ Regex.g_minutes g +:+ ":" +:+ Regex.g_seconds g)
  | None => None
  end.

End TimestampText.

(** ** The output stream seen by the stdout handler *)

Module Stream.
Import Progress.

(** The closure with another line buffer. *)
Definition set_buffer (b : string) (c : closure) : closure :=
  Closure (transcription c) (lastProgressUpdate c) b.

(** The lines as the handler appends them to the transcript: each followed
    by a line feed. *)
Fixpoint lines_text (lines : list string) : string :=
  match lines with
  | [] => ""
  | l :: rest => l +:+ String "010" "" +:+ lines_text rest
  end.

(** The reads of a stream put together. *)
Fixpoint text_of (chunks : list string) : string :=
  match chunks with
  | [] => ""
  | output :: rest => output +:+ text_of rest
  end.

End Stream.

(** ** Variations of a world, and kinds of errors *)

Module Variation.
Import World.

(** The same world with other text on the recognizer's standard error. *)
Definition with_stderr (chunks : list string) (ext : externals) : externals :=
  Externals (cwd ext) (home ext) (iso_now ext) (ffmpeg ext) (ffprobe ext)
    (fun python args d =>
       let r := recognizer ext python args d in
       RecognizerRun (stdout r) chunks (exit_code r) (disk_after r) (closed_early r))
    (kill_throws ext).

(** The errors of the steps of [processAudioBlob] that come before the
    recognizer is started: writing the recording, the two conversions, the
    archive copy. *)
Definition before_recognition (e : error) : bool :=
  match e with
  | WriteStreamError _ | FfmpegError _ | VaultPathUnavailable | MkdirError _
  | SourceFileNotFound _ | CopyFileError _ _ | Mp3SaveFailed => true
  | _ => false
  end.

(** The errors of the archive copy. *)
Definition archive_error (e : error) : bool :=
  match e with
  | VaultPathUnavailable | MkdirError _ | SourceFileNotFound _
  | CopyFileError _ _ | Mp3SaveFailed => true
  | _ => false
  end.

(** The two errors of the dependency check of [runTranscription]. *)
Definition missing_dependency (e : error) : bool :=
  match e with
  | MlxWhisperNotFound _ | PythonNotFound _ => true
  | _ => false
  end.

End Variation.

(** ** Example worlds where the recognizer fails *)

Module Failing.
Import World AudioProcessor.

(** A recognizer that prints an error line, leaves a text file all the
    same, and exits with code 1. *)
Definition recognizer_fails (python : string) (args : list string) (d : fs)
  : recognizer_run :=
  RecognizerRun ["loading" +:+ String "010" "Error: model not found" +:+ String "010" ""]
    ["Error: model not found"] (Some 1%Z)
    (Fs (<[Example.txt_file := "partial"]> (files d)) (dirs d)) false.

(** A recognizer killed by a signal (no exit code) right after it printed an
    error without a line feed. *)
Definition recognizer_killed (python : string) (args : list string) (d : fs)
  : recognizer_run :=
  RecognizerRun ["Error: out of memory"] [] None d false.

(** A recognizer that writes its text file and exits with code 0 so fast
    that it has closed before [ffprobe] answers. *)
Definition recognizer_early (python : string) (args : list string) (d : fs)
  : recognizer_run :=
  RecognizerRun [Example.line +:+ String "010" ""] [] (Some 0%Z)
    (Fs (<[Example.txt_file := "  hello world  "]> (files d)) (dirs d)) true.

(** A recognizer that fails at once, with an error on both streams, and has
    closed before [ffprobe] answers. *)
Definition recognizer_crash_early (python : string) (args : list string) (d : fs)
  : recognizer_run :=
  RecognizerRun ["Error: model not found" +:+ String "010" ""]
    ["Error: model not found"] (Some 1%Z) d true.

(** ffmpeg failing on the wav conversion only. *)
Definition ffmpeg_wav_fails (input format output : string) (d : fs) : ffmpeg_run :=
  if String.eqb format "wav" then FfmpegRun [] false d
  else Example.ffmpeg_writes input format output d.

Definition machine_wav_fails : externals :=
  Externals "/" "/Users/me" "2025-01-02T03:04:05.678Z"
    ffmpeg_wav_fails (fun _ _ => Some 10%Q) Example.recognizer_ok (fun _ => false).

(** A disk where a regular file sits where the audio directory should be
    made. *)
Definition file_in_the_way : fs :=
  Fs (<["/04_assets" := "not a directory"]> (files Example.installed))
     (dirs Example.installed).

End Failing.

(** ** The shape of a timestamp *)

Module TimestampShape.
Import JsString TimestampText.

(** The texts [MM:SS.mmm] and [HH:MM:SS.mmm] made of decimal digits. *)
Inductive timestamp_text : string -> Prop :=
| short_timestamp (m1 m2 s1 s2 k1 k2 k3 : ascii) :
    forallb is_digit [m1; m2; s1; s2; k1; k2; k3] = true ->
    timestamp_text (short_text m1 m2 s1 s2 k1 k2 k3)
| long_timestamp (h1 h2 m1 m2 s1 s2 k1 k2 k3 : ascii) :
    forallb is_digit [h1; h2; m1; m2; s1; s2; k1; k2; k3] = true ->
    timestamp_text (long_text h1 h2 m1 m2 s1 s2 k1 k2 k3).

(** The nine digits of a timestamp. *)
Record stamp := Stamp {
  h1 : ascii; h2 : ascii; m1 : ascii; m2 : ascii;
  s1 : ascii; s2 : ascii; k1 : ascii; k2 : ascii; k3 : ascii
}.

Definition all_digits (a : stamp) : bool :=
  forallb is_digit [h1 a; h2 a; m1 a; m2 a; s1 a; s2 a; k1 a; k2 a; k3 a].

(** Written without and with its hours. *)
Definition short_of (a : stamp) : string :=
  short_text (m1 a) (m2 a) (s1 a) (s2 a) (k1 a) (k2 a) (k3 a).
Definition long_of (a : stamp) : string :=
  long_text (h1 a) (h2 a) (m1 a) (m2 a) (s1 a) (s2 a) (k1 a) (k2 a) (k3 a).

(** A line that starts with a range [[start --> end]]. *)
Definition range_line (start end_ rest : string) : string :=
  "[" +:+ start +:+ " --> " +:+ end_ +:+ "]" +:+ rest.

End TimestampShape.

(** ** The handlers of the older runner

    The older [runTranscription] reads a percentage from the recognizer's
    output with a pattern, once per read, and shows it as it is written. *)

Module LegacyHandlers.
Import JsString.

(** The calls a handler makes. *)
Inductive call :=
| ProgressUpdate (percent : string)
| ConsoleError (output : string)
| OnError (output : string).

(** The longest run of digits at the start of a text, and what follows. *)
Fixpoint span_digits (s : string) : string * string :=
  match s with
  | String c r =>
      if is_digit c then let '(d, rest) := span_digits r in (String c d, rest)
      else ("", s)
  | EmptyString => ("", "")
  end.

(** [(\d+)%] at the start of a text: the run of digits is taken whole, a
    shorter run is followed by a digit and not by [%]. *)
Definition percent_at (s : string) : option string :=
  let '(d, rest) := span_digits s in
  match d with
  | EmptyString => None
  | String _ _ => if startsWith "%" rest then Some d else None
  end.

(** [output.match(/(\d+)%/)]: group 1 of the leftmost match. *)
Fixpoint percent_match (s : string) : option string :=
  match percent_at s with
  | Some d => Some d
  | None =>
      match s with
      | String _ r => percent_match r
      | EmptyString => None
      end
  end.

(** [output.match(/Progress: (\d+)%/)]: group 1 of the leftmost match. *)
Fixpoint progress_match (s : string) : option string :=
  match Regex.expect "Progress: " s ≫= percent_at with
  | Some d => Some d
  | None =>
      match s with
      | String _ r => progress_match r
      | EmptyString => None
      end
  end.

(** The ['data'] handler of the standard output: the calls it makes and the
    new value of [transcription]. *)
Definition on_stdout_data (transcription output : string) : list call * string :=
  (match progress_match output with
   | Some d => [ProgressUpdate d]
   | None => []
   end,
   transcription +:+ output).

(** The ['data'] handler of the standard error. *)
Definition on_stderr_data (output : string) : list call :=
  if includes "%" output then
    match percent_match output with
    | Some d => [ProgressUpdate d]
    | None => []
    end
  else if includes "Error" output || includes "error" output then
    [ConsoleError output; OnError output]
  else [].

(** A text of digits only. *)
Fixpoint digits_only (s : string) : bool :=
  match s with
  | String c r => is_digit c && digits_only r
  | EmptyString => true
  end.

End LegacyHandlers.

(** ** The plugin class [WhisperPlugin]

    The plugin's own state: its two flags, what it shows, and what it hands
    to Obsidian.  The text of the status bar is not part of it (the plugin
    and the processor's listener both write it).  The notices are all those
    the plugin raises: its own, and those of the [onError] callback it gives
    to the processor ([new Notice(error)]). *)

Module Plugin.
Import World.

(** The notices of the plugin, by what they say; [OnError] is the notice
    of the callback given to the processor, with what the processor
    reports. *)
Inductive plugin_notice :=
| RecordingStarted
| RecordingStartFailed
| MicrophoneDenied
| RecordingStopped
| TranscriptionCancelled
| TranscriptionStarted
| TranscriptionDone
| AudioProcessingError
| OnError (n : error_notice).

(** What the [try] block of [processAudio] and [transcribeExternalFile]
    can fail with. *)
Inductive failure :=
| ProcessorError (e : error)
| CreateBinaryError (path : string).

Inductive plugin_log :=
| RecordingStartError
| PathConverted (filePath realFilePath : string)
| PathConversionError
| ProcessingError (e : failure).

(** The answers of Obsidian, the browser and the system at the time of a
    call. *)
Record host := Host {
  tmpdir : string;                                 (* [os.tmpdir()] *)
  getBasePath : string;                            (* [vault.adapter.getBasePath()] *)
  now : string;                                    (* [new Date().toISOString()] *)
  getUserMedia : bool;                             (* the microphone is granted *)
  isTypeSupported : bool;                          (* [MediaRecorder.isTypeSupported] *)
  getAbstractFileByPath : string -> option bool;   (* [None]: the call throws *)
  createBinary : string -> string -> bool;         (* the file is created *)
  activeMarkdownView : bool                        (* [getActiveViewOfType] finds one *)
}.

Record plugin := Plugin {
  settings : AudioProcessor.settings;  (* the settings loaded by [loadSettings] *)
  audioProcessor : AudioProcessor.processor;
  mediaRecorder : bool;  (* [mediaRecorder] is not [null] *)
  recorderStops : nat;  (* calls of [mediaRecorder.stop()] *)
  isRecording : bool;
  isProcessing : bool;
  ribbonRecording : bool;  (* the ribbon icon has the class [whisper-recording] *)
  statusBarShown : bool;  (* [statusBarItem] is visible *)
  cancelButtonShown : bool;  (* [cancelButton] is visible *)
  notices : list plugin_notice;  (* [new Notice(...)] of the plugin, oldest first *)
  logged : list plugin_log;  (* [console.error] and [console.log] of the plugin *)
  created : list (string * string);  (* [vault.createBinary]: path and bytes *)
  inserted : list string;  (* [editor.replaceRange]: the texts put at the cursor *)
  processorState : state  (* the processor's side: disk, processes, its reports *)
}.

Definition set_mediaRecorder (b : bool) (p : plugin) : plugin :=
  Plugin (settings p) (audioProcessor p) b (recorderStops p) (isRecording p)
    (isProcessing p) (ribbonRecording p) (statusBarShown p) (cancelButtonShown p)
    (notices p) (logged p) (created p) (inserted p) (processorState p).

Definition add_recorderStop (p : plugin) : plugin :=
  Plugin (settings p) (audioProcessor p) (mediaRecorder p) (S (recorderStops p))
    (isRecording p) (isProcessing p) (ribbonRecording p) (statusBarShown p)
    (cancelButtonShown p) (notices p) (logged p) (created p) (inserted p)
    (processorState p).

Definition set_isRecording (b : bool) (p : plugin) : plugin :=
  Plugin (settings p) (audioProcessor p) (mediaRecorder p) (recorderStops p) b
    (isProcessing p) (ribbonRecording p) (statusBarShown p) (cancelButtonShown p)
    (notices p) (logged p) (created p) (inserted p) (processorState p).

Definition set_isProcessing (b : bool) (p : plugin) : plugin :=
  Plugin (settings p) (audioProcessor p) (mediaRecorder p) (recorderStops p)
    (isRecording p) b (ribbonRecording p) (statusBarShown p) (cancelButtonShown p)
    (notices p) (logged p) (created p) (inserted p) (processorState p).

Definition set_ribbonRecording (b : bool) (p : plugin) : plugin :=
  Plugin (settings p) (audioProcessor p) (mediaRecorder p) (recorderStops p)
    (isRecording p) (isProcessing p) b (statusBarShown p) (cancelButtonShown p)
    (notices p) (logged p) (created p) (inserted p) (processorState p).

Definition set_statusBarShown (b : bool) (p : plugin) : plugin :=
  Plugin (settings p) (audioProcessor p) (mediaRecorder p) (recorderStops p)
    (isRecording p) (isProcessing p) (ribbonRecording p) b (cancelButtonShown p)
    (notices p) (logged p) (created p) (inserted p) (processorState p).

Definition set_cancelButtonShown (b : bool) (p : plugin) : plugin :=
  Plugin (settings p) (audioProcessor p) (mediaRecorder p) (recorderStops p)
    (isRecording p) (isProcessing p) (ribbonRecording p) (statusBarShown p) b
    (notices p) (logged p) (created p) (inserted p) (processorState p).

Definition add_notices (l : list plugin_notice) (p : plugin) : plugin :=
  Plugin (settings p) (audioProcessor p) (mediaRecorder p) (recorderStops p)
    (isRecording p) (isProcessing p) (ribbonRecording p) (statusBarShown p)
    (cancelButtonShown p) (notices p ++ l)%list (logged p) (created p) (inserted p)
    (processorState p).

Definition add_logged (l : list plugin_log) (p : plugin) : plugin :=
  Plugin (settings p) (audioProcessor p) (mediaRecorder p) (recorderStops p)
    (isRecording p) (isProcessing p) (ribbonRecording p) (statusBarShown p)
    (cancelButtonShown p) (notices p) (logged p ++ l)%list (created p) (inserted p)
    (processorState p).

Definition add_created (f : string * string) (p : plugin) : plugin :=
  Plugin (settings p) (audioProcessor p) (mediaRecorder p) (recorderStops p)
    (isRecording p) (isProcessing p) (ribbonRecording p) (statusBarShown p)
    (cancelButtonShown p) (notices p) (logged p) (created p ++ [f])%list (inserted p)
    (processorState p).

Definition add_inserted (text : string) (p : plugin) : plugin :=
  Plugin (settings p) (audioProcessor p) (mediaRecorder p) (recorderStops p)
    (isRecording p) (isProcessing p) (ribbonRecording p) (statusBarShown p)
    (cancelButtonShown p) (notices p) (logged p) (created p) (inserted p ++ [text])%list
    (processorState p).

Definition set_processorState (w : state) (p : plugin) : plugin :=
  Plugin (settings p) (audioProcessor p) (mediaRecorder p) (recorderStops p)
    (isRecording p) (isProcessing p) (ribbonRecording p) (statusBarShown p)
    (cancelButtonShown p) (notices p) (logged p) (created p) (inserted p) w.

(** The calls of [onError] the processor made on its way from one state to
    another: those after the ones already there. *)
Definition reported (old new : state) : list error_notice :=
  skipn (length (errors old)) (errors new).

(** The processor has moved on to state [w]: each [onError] call it made on
    the way has raised its notice. *)
Definition heard (w : state) (p : plugin) : plugin :=
  add_notices (map OnError (reported (processorState p) w)) (set_processorState w p).

Section Methods.
Variable ext : externals.

(** [fs.existsSync(dir)] followed by [fs.mkdirSync(dir, { recursive: true })]
    when it is not there. *)
Definition ensure_dir (d : fs) (dir : string) : option fs :=
  if NodeFs.existsSync (cwd ext) d dir then Some d
  else NodeFs.mkdir_p (cwd ext) d dir.

(** [onload()], after the settings are loaded: the two directories are
    made, the processor is built, both status bar items are hidden.  [None]
    when a directory cannot be made. *)
Definition onload (h : host) (st : AudioProcessor.settings) (w : state) : option plugin :=
  let tempDir := NodePath.join [tmpdir h; "obsidian-whisper"] in
  let scriptsDir := NodePath.join [getBasePath h; "scripts"] in
  d1 ← ensure_dir (disk w) scriptsDir;
  d2 ← ensure_dir d1 tempDir;
  Some (Plugin st (AudioProcessor.new (home ext) tempDir) false 0 false false false
          false false [] [] [] [] (set_disk d2 w)).

(** [startRecording()]; a refused microphone and an unsupported type both
    end in the [catch]. *)
Definition startRecording (h : host) (p : plugin) : plugin :=
  if getUserMedia h && isTypeSupported h then
    add_notices [RecordingStarted]
      (set_statusBarShown true
         (set_ribbonRecording true
            (set_isRecording true (set_mediaRecorder true p))))
  else
    add_notices [RecordingStartFailed; MicrophoneDenied]
      (add_logged [RecordingStartError] p).

(** [stopRecording()] *)
Definition stopRecording (p : plugin) : plugin :=
  if mediaRecorder p && isRecording p then
    add_notices [RecordingStopped]
      (set_cancelButtonShown true
         (set_isProcessing true
            (set_ribbonRecording false
               (set_isRecording false (add_recorderStop p)))))
  else p.

(** [cancelTranscription()]; an exception of [cancelProcessing] would leave
    the rest undone.  [cancelProcessing] makes no call of [onError]. *)
Definition cancelTranscription (p : plugin) : plugin :=
  if negb (isProcessing p) then p
  else
    let r := AudioProcessor.cancelProcessing ext (processorState p) in
    match snd r with
    | Settled (Resolved _) =>
        add_notices [TranscriptionCancelled]
          (set_cancelButtonShown false
             (set_statusBarShown false
                (set_isProcessing false (set_processorState (fst r) p))))
    | _ => set_processorState (fst r) p
    end.

(** The [catch] and the [finally] of [processAudio] and
    [transcribeExternalFile]. *)
Definition failed (e : failure) (p : plugin) : plugin :=
  add_notices [AudioProcessingError] (add_logged [ProcessingError e] p).

Definition finally (p : plugin) : plugin :=
  set_isProcessing false (set_cancelButtonShown false (set_statusBarShown false p)).

(** The file name [processAudio] makes from its own reading of the clock. *)
Definition filename (h : host) : string :=
  "Recording " +:+ String.substring 0 15 (AudioProcessor.remove_colons_dots (now h))
  +:+ ".mp3".

(** The text put in the note: a line feed, the embed of the file, a line
    feed, the transcription. *)
Definition embed (name transcription : string) : string :=
  String "010" ("![[" +:+ name +:+ "]]" +:+ String "010" transcription).

(** [processAudio] from the moment [processAudioBlob] settles with [o].
    [path.sep] is [/], so splitting the joined path at it and joining with
    [/] gives the joined path. *)
Definition processAudio_settles (h : host) (o : outcome (string * string))
    (p : plugin) : plugin :=
  finally
    match o with
    | Resolved (transcription, mp3Buffer) =>
        let normalizedPath :=
          NodePath.join [AudioProcessor.audioDir (settings p); filename h] in
        if createBinary h normalizedPath mp3Buffer then
          let p1 := add_created (normalizedPath, mp3Buffer) p in
          if activeMarkdownView h then
            add_notices [TranscriptionDone]
              (add_inserted (embed (filename h) transcription) p1)
          else p1
        else failed (CreateBinaryError normalizedPath) p
    | Rejected e => failed (ProcessorError e) p
    end.

(** [processAudio(audioBlob)]; while the promise of the processor is
    pending, the [await] does not return and nothing of the rest runs. *)
Definition processAudio (h : host) (audioBlob : string) (p : plugin) : plugin :=
  let r := WhisperPlugin.processAudio ext (audioProcessor p) (getBasePath h)
             (settings p) audioBlob (processorState p) in
  match snd r with
  | Settled o => processAudio_settles h o (heard (fst r) p)
  | Pending => heard (fst r) p
  end.

(** [transcribeExternalFile(filePath)] up to the call of the processor: the
    state, and the path handed to the processor. *)
Definition transcribe_begins (h : host) (filePath : string) (p : plugin)
  : plugin * string :=
  let p1 := add_notices [TranscriptionStarted]
              (set_cancelButtonShown true
                 (set_isProcessing true (set_statusBarShown true p))) in
  match getAbstractFileByPath h filePath with
  | Some true =>
      let realFilePath := NodePath.join [getBasePath h; filePath] in
      (add_logged [PathConverted filePath realFilePath] p1, realFilePath)
  | Some false => (p1, filePath)
  | None => (add_logged [PathConversionError] p1, filePath)
  end.

(** [transcribeExternalFile] from the moment the processor settles with
    [o]. *)
Definition transcribe_settles (h : host) (o : outcome string) (p : plugin) : plugin :=
  finally
    match o with
    | Resolved result =>
        if activeMarkdownView h then
          add_notices [TranscriptionDone] (add_inserted (JsString.trim result) p)
        else p
    | Rejected e => failed (ProcessorError e) p
    end.

(** [transcribeExternalFile(filePath)]; while the promise of the processor
    is pending, the [await] does not return and nothing of the rest runs. *)
Definition transcribeExternalFile (h : host) (filePath : string) (p : plugin) : plugin :=
  let b := transcribe_begins h filePath p in
  let r := AudioProcessor.transcribeExternalFile ext (audioProcessor (fst b)) (snd b)
             (settings (fst b)) (processorState (fst b)) in
  match snd r with
  | Settled o => transcribe_settles h o (heard (fst r) (fst b))
  | Pending => heard (fst r) (fst b)
  end.

(** [onunload()] *)
Definition onunload (p : plugin) : plugin :=
  if isRecording p then stopRecording p else p.

(** What happens to a loaded plugin, one thing at a time.  The processor
    works while other things happen: [ProcessorReports w] is the moment it
    has come to state [w], the notices of its [onError] calls up to there
    raised.  When its promise settles, the processor's state is [w] and the
    outcome is [o], and the notices of the [onError] calls made on the way
    to [w] have been raised. *)
Inductive event :=
| StartRecording
| StopRecording
| CancelTranscription
| ProcessAudioSettles (w : state) (o : outcome (string * string))
| TranscribeBegins (filePath : string)
| TranscribeSettles (w : state) (o : outcome string)
| ProcessorReports (w : state)
| Unload.

Definition step (h : host) (ev : event) (p : plugin) : plugin :=
  match ev with
  | StartRecording => startRecording h p
  | StopRecording => stopRecording p
  | CancelTranscription => cancelTranscription p
  | ProcessAudioSettles w o => processAudio_settles h o (heard w p)
  | TranscribeBegins filePath => fst (transcribe_begins h filePath p)
  | TranscribeSettles w o => transcribe_settles h o (heard w p)
  | ProcessorReports w => heard w p
  | Unload => onunload p
  end.

(** Events in order, each with the host's answers at its time. *)
Fixpoint run (evs : list (host * event)) (p : plugin) : plugin :=
  match evs with
  | [] => p
  | (h, ev) :: rest => run rest (step h ev p)
  end.

End Methods.

End Plugin.

(** ** An example host

    Obsidian with the vault at [/vault] and a note open, a granted
    microphone; the plugin is loaded on the example machine. *)

Module PluginExample.
Import World Plugin.

Definition desk : host :=
  Host "/tmp" "/vault" "2025-01-02T03:04:09.000Z" true true
    (fun _ => Some false) (fun _ _ => true) true.

(** The same with no note open. *)
Definition no_note : host :=
  Host "/tmp" "/vault" "2025-01-02T03:04:09.000Z" true true
    (fun _ => Some false) (fun _ _ => true) false.

Definition machine : externals := Example.machine Example.recognizer_ok.

Definition loaded : option plugin :=
  onload machine desk Example.settings_en_small (Example.start Example.installed).

(** A recording is stopped and a second one started while the first is
    being processed. *)
Definition second_recording : list (host * event) :=
  [(desk, StartRecording); (desk, StopRecording); (desk, StartRecording)].

(** The disk once the plugin's scripts directory is made, and the plugin as
    [onload] leaves it. *)
Definition with_scripts : fs :=
  Fs (files Example.installed) ({[ "/vault/scripts" ]} ∪ dirs Example.installed).

Definition loaded_plugin : plugin :=
  Plugin Example.settings_en_small Example.this false 0 false false false false false
    [] [] [] [] (Example.start with_scripts).

(** The plugin after a recording was started and stopped. *)
Definition processing : plugin :=
  run machine [(desk, StartRecording); (desk, StopRecording)] loaded_plugin.

(** The plugin with a second recording running. *)
Definition recording_again : plugin := run machine second_recording loaded_plugin.

End PluginExample.

(** ** Temporary files and the programs around them *)

Module Scratch.
Import World.

(** The external programs leave the file at [q] alone: whatever ffmpeg or
    the recognizer is run on, a file that is at [q] before is there after. *)
Definition left_alone (ext : externals) (q : string) : Prop :=
  (forall input format output d,
      NodeFs.is_file d q = true ->
      NodeFs.is_file (ffmpeg_disk_after (ffmpeg ext input format output d)) q = true) /\
  (forall python args d,
      NodeFs.is_file d q = true ->
      NodeFs.is_file (disk_after (recognizer ext python args d)) q = true).

(** This conversion, when it ends, has written its output file. *)
Definition produces (ext : externals) (input format output : string) : Prop :=
  forall d,
    ended (ffmpeg ext input format output d) = true ->
    NodeFs.is_file (ffmpeg_disk_after (ffmpeg ext input format output d))
      (NodeFs.canon (cwd ext) output) = true.

End Scratch.

(** ** Reads as bytes

    What a stream hands to a ['data'] handler is a buffer of bytes, and the
    handler starts with [data.toString()], which decodes the bytes of that
    one read as UTF-8.  A byte below 128 is the character of the same code,
    whatever comes before or after it.  Other bytes belong to characters of
    several bytes, which a read may cut in two (each part then decodes to a
    replacement character) and which the strings of this model do not hold:
    the decoding is given for the reads whose bytes are all below 128 and is
    [None] for the others. *)

Module Buffer.
Import JsString.

Definition ascii_only (data : string) : bool :=
  forallb (fun c => (code c <? 128)%N) (list_ascii_of_string data).

(** [data.toString()] *)
Definition toString (data : string) : option string :=
  if ascii_only data then Some data else None.

(** The reads of a stream, each decoded on its own. *)
Definition toStrings (reads : list string) : option (list string) :=
  mapM toString reads.

End Buffer.

(** * Properties *)

(** ** Digits and decimal texts *)

Section Digits.
Import JsString TimestampText.

Lemma is_digit_cases (c : ascii) : is_digit c = true -> In c digit_chars.
Proof.
  destruct c as [[] [] [] [] [] [] [] []]; vm_compute; intros H;
    try discriminate H; repeat (first [left; reflexivity | right]).
Qed.

Lemma digit_val_range (c : ascii) : is_digit c = true -> (0 <= digit_val c <= 9)%Z.
Proof.
  intros H. apply is_digit_cases in H. unfold digit_chars in H. simpl in H.
  repeat (destruct H as [<- | H]; [vm_compute; split; discriminate |]).
  destruct H.
Qed.

Lemma parseInt_text2 (a b : ascii) :
  is_digit a = true -> is_digit b = true -> parseInt (text2 a b) = value2 a b.
Proof.
  intros Ha Hb. unfold parseInt, text2, value2. cbn [parseInt_from].
  rewrite Ha, Hb. lia.
Qed.

Lemma parseInt_text3 (a b c : ascii) :
  is_digit a = true -> is_digit b = true -> is_digit c = true ->
  parseInt (text3 a b c) = value3 a b c.
Proof.
  intros Ha Hb Hc. unfold parseInt, text3, value3. cbn [parseInt_from].
  rewrite Ha, Hb, Hc. lia.
Qed.

Ltac digit_pairs Ha Hb :=
  apply is_digit_cases in Ha; apply is_digit_cases in Hb;
  unfold digit_chars in Ha, Hb; simpl in Ha, Hb;
  repeat (destruct Ha as [<- | Ha]; [| try (exfalso; exact Ha)]);
  repeat (destruct Hb as [<- | Hb]; [| try (exfalso; exact Hb)]);
  vm_compute; reflexivity.

Lemma pad2_value2 (a b : ascii) :
  is_digit a = true -> is_digit b = true ->
  padStart 2 "0" (toString (value2 a b)) = text2 a b.
Proof. intros Ha Hb. digit_pairs Ha Hb. Qed.

Lemma toString_value2 (a b : ascii) :
  is_digit a = true -> is_digit b = true ->
  toString (value2 a b) = unpadded a b.
Proof. intros Ha Hb. digit_pairs Ha Hb. Qed.

Lemma value2_range (a b : ascii) :
  is_digit a = true -> is_digit b = true -> (0 <= value2 a b <= 99)%Z.
Proof.
  intros Ha%digit_val_range Hb%digit_val_range. unfold value2. lia.
Qed.

Lemma value3_range (a b c : ascii) :
  is_digit a = true -> is_digit b = true -> is_digit c = true ->
  (0 <= value3 a b c <= 999)%Z.
Proof.
  intros Ha%digit_val_range Hb%digit_val_range Hc%digit_val_range.
  unfold value3. lia.
Qed.

End Digits.

(** ** Rational arithmetic of the time computations *)

Section Rationals.
Local Open Scope Q_scope.

Lemma floor_unique (x : Q) (z : Z) :
  inject_Z z <= x -> x < inject_Z (z + 1) -> Qfloor x = z.
Proof.
  intros Hl Hu.
  pose proof (Qfloor_le x) as H1. pose proof (Qlt_floor x) as H2.
  assert (z < Qfloor x + 1)%Z by (rewrite Zlt_Qlt; eapply Qle_lt_trans; eauto).
  assert (Qfloor x < z + 1)%Z by (rewrite Zlt_Qlt; eapply Qle_lt_trans; eauto).
  lia.
Qed.

Lemma trunc_nonneg (x : Q) : 0 <= x -> JsNumber.trunc x = Qfloor x.
Proof.
  destruct x as [n d]. unfold Qle, JsNumber.trunc, Qfloor. simpl. intros H.
  apply Z.quot_div_nonneg; lia.
Qed.

Lemma bounds_to_Q (z lo hi : Z) :
  (lo <= z <= hi)%Z -> inject_Z lo <= inject_Z z /\ inject_Z z <= inject_Z hi.
Proof. intros [? ?]; split; rewrite <- Zle_Qle; assumption. Qed.

Lemma gtb_lt (a b : Q) : JsNumber.gtb a b = true -> b < a.
Proof.
  unfold JsNumber.gtb. intros H. apply Qnot_le_lt. intros Hle.
  apply Qle_bool_iff in Hle. rewrite Hle in H. discriminate.
Qed.

Lemma gtb_false_le (a b : Q) : JsNumber.gtb a b = false -> a <= b.
Proof.
  unfold JsNumber.gtb. intros H. apply Qle_bool_iff.
  destruct (Qle_bool a b); [reflexivity | discriminate].
Qed.

End Rationals.

Ltac q_consts :=
  unfold Qdiv in *;
  change (/ 3600)%Q with (1 # 3600)%Q in *;
  change (/ 1000)%Q with (1 # 1000)%Q in *;
  change (/ 60)%Q with (1 # 60)%Q in *;
  change (inject_Z 0) with 0%Q in *;
  change (inject_Z 1) with 1%Q in *;
  change (inject_Z 59) with 59%Q in *;
  change (inject_Z 999) with 999%Q in *.

(** ** [parseTimestamp] and [formatTime] *)

Section Timestamps.
Import JsString TimestampText Progress.
Local Open Scope Q_scope.

Lemma timestamp_match_short (m1 m2 s1 s2 k1 k2 k3 : ascii) :
  is_digit m1 = true -> is_digit m2 = true ->
  is_digit s1 = true -> is_digit s2 = true ->
  is_digit k1 = true -> is_digit k2 = true -> is_digit k3 = true ->
  Regex.timestamp_match (short_text m1 m2 s1 s2 k1 k2 k3)
  = Some (Regex.TsGroups None (text2 m1 m2) (text2 s1 s2) (text3 k1 k2 k3)).
Proof.
  intros Hm1 Hm2 Hs1 Hs2 Hk1 Hk2 Hk3.
  unfold Regex.timestamp_match, Regex.opt_hours, short_text, text2, text3.
  cbv [String.append]. cbn -[is_digit]. rewrite Hm1, Hm2. cbn -[is_digit]. rewrite Hs1, Hs2. cbn -[is_digit].
  rewrite Hk1, Hk2, Hk3. cbn -[is_digit]. reflexivity.
Qed.

Lemma timestamp_match_long (h1 h2 m1 m2 s1 s2 k1 k2 k3 : ascii) :
  is_digit h1 = true -> is_digit h2 = true ->
  is_digit m1 = true -> is_digit m2 = true ->
  is_digit s1 = true -> is_digit s2 = true ->
  is_digit k1 = true -> is_digit k2 = true -> is_digit k3 = true ->
  Regex.timestamp_match (long_text h1 h2 m1 m2 s1 s2 k1 k2 k3)
  = Some (Regex.TsGroups (Some (text2 h1 h2)) (text2 m1 m2) (text2 s1 s2)
                         (text3 k1 k2 k3)).
Proof.
  intros Hh1 Hh2 Hm1 Hm2 Hs1 Hs2 Hk1 Hk2 Hk3.
  unfold Regex.timestamp_match, Regex.opt_hours, long_text, short_text, text2, text3.
  cbv [String.append]. cbn -[is_digit]. rewrite Hh1, Hh2. cbn -[is_digit]. rewrite Hm1, Hm2. cbn -[is_digit]. rewrite Hs1, Hs2. cbn -[is_digit].
  rewrite Hk1, Hk2, Hk3. cbn -[is_digit]. reflexivity.
Qed.

Lemma parseTimestamp_short (m1 m2 s1 s2 k1 k2 k3 : ascii) :
  is_digit m1 = true -> is_digit m2 = true ->
  is_digit s1 = true -> is_digit s2 = true ->
  is_digit k1 = true -> is_digit k2 = true -> is_digit k3 = true ->
  parseTimestamp (short_text m1 m2 s1 s2 k1 k2 k3)
  = seconds_of 0 (value2 m1 m2) (value2 s1 s2) (value3 k1 k2 k3).
Proof.
  intros Hm1 Hm2 Hs1 Hs2 Hk1 Hk2 Hk3. unfold parseTimestamp.
  rewrite timestamp_match_short by assumption. cbn [Regex.g_hours Regex.g_minutes
    Regex.g_seconds Regex.g_millis].
  rewrite !parseInt_text2, parseInt_text3 by assumption. reflexivity.
Qed.

Lemma parseTimestamp_long (h1 h2 m1 m2 s1 s2 k1 k2 k3 : ascii) :
  is_digit h1 = true -> is_digit h2 = true ->
  is_digit m1 = true -> is_digit m2 = true ->
  is_digit s1 = true -> is_digit s2 = true ->
  is_digit k1 = true -> is_digit k2 = true -> is_digit k3 = true ->
  parseTimestamp (long_text h1 h2 m1 m2 s1 s2 k1 k2 k3)
  = seconds_of (value2 h1 h2) (value2 m1 m2) (value2 s1 s2) (value3 k1 k2 k3).
Proof.
  intros Hh1 Hh2 Hm1 Hm2 Hs1 Hs2 Hk1 Hk2 Hk3. unfold parseTimestamp.
  rewrite timestamp_match_long by assumption. cbn [Regex.g_hours Regex.g_minutes
    Regex.g_seconds Regex.g_millis].
  rewrite !parseInt_text2, parseInt_text3 by assumption. reflexivity.
Qed.

(** The three fields [formatTime] computes from a time made of in-range
    fields are those fields. *)
Lemma formatTime_fields (h m s ms : Z) :
  (0 <= h)%Z -> (0 <= m < 60)%Z -> (0 <= s < 60)%Z -> (0 <= ms < 1000)%Z ->
  let t := seconds_of h m s ms in
  JsNumber.floor (t / 3600) = h /\
  JsNumber.floor (JsNumber.rem t 3600 / 60) = m /\
  JsNumber.floor (JsNumber.rem t 60) = s.
Proof.
  intros Hh Hm Hs Hms t.
  assert (Hm' : (0 <= m <= 59)%Z) by lia. apply bounds_to_Q in Hm'.
  assert (Hs' : (0 <= s <= 59)%Z) by lia. apply bounds_to_Q in Hs'.
  assert (Hk' : (0 <= ms <= 999)%Z) by lia. apply bounds_to_Q in Hk'.
  rewrite Zle_Qle in Hh.
  assert (E1 : Qfloor (t / 3600) = h).
  { subst t; unfold seconds_of.
    apply floor_unique; [| rewrite inject_Z_plus]; q_consts; lra. }
  assert (E2 : Qfloor (t / 60) = (60 * h + m)%Z).
  { subst t; unfold seconds_of.
    apply floor_unique; [| rewrite inject_Z_plus]; rewrite inject_Z_plus, inject_Z_mult;
      change (inject_Z 60) with 60; q_consts; lra. }
  assert (N1 : 0 <= t / 3600) by (subst t; unfold seconds_of; q_consts; lra).
  assert (N2 : 0 <= t / 60) by (subst t; unfold seconds_of; q_consts; lra).
  unfold JsNumber.floor, JsNumber.rem.
  rewrite (trunc_nonneg _ N1), (trunc_nonneg _ N2), E1, E2.
  split; [reflexivity |]. split.
  - subst t; unfold seconds_of.
    apply floor_unique; [| rewrite inject_Z_plus]; q_consts; lra.
  - subst t; unfold seconds_of.
    apply floor_unique; [| rewrite inject_Z_plus]; rewrite inject_Z_plus, inject_Z_mult;
      change (inject_Z 60) with 60; q_consts; lra.
Qed.

Lemma formatTime_seconds_of (h m s ms : Z) :
  (0 <= h)%Z -> (0 <= m < 60)%Z -> (0 <= s < 60)%Z -> (0 <= ms < 1000)%Z ->
  formatTime (seconds_of h m s ms)
  = if (0 <? h)%Z
    then toString h +:+ ":" +:+ padStart 2 "0" (toString m)
           +:+ ":" +:+ padStart 2 "0" (toString s)
    else toString m +:+ ":" +:+ padStart 2 "0" (toString s).
Proof.
  intros Hh Hm Hs Hms.
  destruct (formatTime_fields h m s ms Hh Hm Hs Hms) as (E1 & E2 & E3).
  unfold formatTime. cbv zeta in E1, E2, E3. rewrite E1, E2, E3. reflexivity.
Qed.

End Timestamps.

(** C4 (as amended).  For every text [[HH:]MM:SS.mmm], hours written or
    not, [parseTimestamp] returns exactly
    [hours*3600 + minutes*60 + seconds + millis/1000]; and when minutes and
    seconds are below 60, [formatTime] of that value is [H:MM:SS] when the
    hours are positive and [M:SS] otherwise, where the leading field ([H],
    respectively [M]) is written without a leading zero and the other fields
    are the two digits of the text. *)
Theorem parseTimestamp_value_and_display
    (h1 h2 m1 m2 s1 s2 k1 k2 k3 : ascii) :
  JsString.is_digit h1 = true -> JsString.is_digit h2 = true ->
  JsString.is_digit m1 = true -> JsString.is_digit m2 = true ->
  JsString.is_digit s1 = true -> JsString.is_digit s2 = true ->
  JsString.is_digit k1 = true -> JsString.is_digit k2 = true ->
  JsString.is_digit k3 = true ->
  let h := TimestampText.value2 h1 h2 in
  let m := TimestampText.value2 m1 m2 in
  let s := TimestampText.value2 s1 s2 in
  let ms := TimestampText.value3 k1 k2 k3 in
  let short := TimestampText.short_text m1 m2 s1 s2 k1 k2 k3 in
  let long := TimestampText.long_text h1 h2 m1 m2 s1 s2 k1 k2 k3 in
  Progress.parseTimestamp short = TimestampText.seconds_of 0 m s ms /\
  Progress.parseTimestamp long = TimestampText.seconds_of h m s ms /\
  ((m < 60)%Z -> (s < 60)%Z ->
   Progress.formatTime (Progress.parseTimestamp short)
   = TimestampText.unpadded m1 m2 +:+ ":" +:+ TimestampText.text2 s1 s2 /\
   Progress.formatTime (Progress.parseTimestamp long)
   = if (0 <? h)%Z
     then TimestampText.unpadded h1 h2 +:+ ":" +:+ TimestampText.text2 m1 m2
            +:+ ":" +:+ TimestampText.text2 s1 s2
     else TimestampText.unpadded m1 m2 +:+ ":" +:+ TimestampText.text2 s1 s2).
Proof.
  intros Hh1 Hh2 Hm1 Hm2 Hs1 Hs2 Hk1 Hk2 Hk3 h m s ms short long.
  assert (Es : Progress.parseTimestamp short = TimestampText.seconds_of 0 m s ms)
    by (apply parseTimestamp_short; assumption).
  assert (El : Progress.parseTimestamp long = TimestampText.seconds_of h m s ms)
    by (apply parseTimestamp_long; assumption).
  split; [exact Es |]. split; [exact El |].
  intros Hm Hs.
  pose proof (value2_range h1 h2 Hh1 Hh2) as Rh.
  pose proof (value2_range m1 m2 Hm1 Hm2) as Rm.
  pose proof (value2_range s1 s2 Hs1 Hs2) as Rs.
  pose proof (value3_range k1 k2 k3 Hk1 Hk2 Hk3) as Rk.
  fold h in Rh. fold m in Rm. fold s in Rs. fold ms in Rk.
  rewrite Es, El.
  rewrite !formatTime_seconds_of by lia.
  change (0 <? 0)%Z with false. cbv iota.
  subst h m s.
  rewrite !pad2_value2, !toString_value2 by assumption.
  split; reflexivity.
Qed.

Lemma parseTimestamp_value_and_display_witness :
  Progress.parseTimestamp "02:03.500" = TimestampText.seconds_of 0 2 3 500 /\
  Progress.parseTimestamp "01:02:03.500" = TimestampText.seconds_of 1 2 3 500 /\
  Progress.formatTime (Progress.parseTimestamp "02:03.500") = "2:03" /\
  Progress.formatTime (Progress.parseTimestamp "01:02:03.500") = "1:02:03".
Proof.
  destruct (parseTimestamp_value_and_display "0" "1" "0" "2" "0" "3" "5" "0" "0"
              eq_refl eq_refl eq_refl eq_refl eq_refl eq_refl eq_refl eq_refl eq_refl)
    as (A & B & C).
  destruct (C eq_refl eq_refl) as (D & E).
  exact (conj A (conj B (conj D E))).
Defined.

(** C4 (as stated) fails: the text [00:04.200], cut to whole seconds, is
    [00:04], and [formatTime] of its parsed value is [0:04]; the text
    [00:75:30.000] matches the format too, and [formatTime] of its parsed
    value is [1:15:30]. *)
Lemma formatTime_differs_from_truncated_text :
  TimestampText.whole_seconds_display "00:04.200" = Some "00:04" /\
  Progress.formatTime (Progress.parseTimestamp "00:04.200") = "0:04" /\
  Some (Progress.formatTime (Progress.parseTimestamp "00:04.200"))
  <> TimestampText.whole_seconds_display "00:04.200" /\
  TimestampText.whole_seconds_display "00:75:30.000" = Some "0:75:30" /\
  Progress.formatTime (Progress.parseTimestamp "00:75:30.000") = "1:15:30".
Proof.
  repeat split; try (vm_compute; reflexivity).
  vm_compute. discriminate.
Qed.

(** ** Progress of the transcription *)

Section ProgressFacts.
Import Progress.
Local Open Scope Q_scope.

Lemma steps_up_nil (a : Q) : steps_up a [] a.
Proof.
  repeat split; try constructor. apply Qle_refl.
Qed.

Lemma steps_up_one (a t : Q) : a < t -> steps_up a [t] t.
Proof.
  intros H. repeat split.
  - repeat constructor.
  - repeat constructor. exact H.
  - repeat constructor. apply Qle_refl.
  - apply Qlt_le_weak, H.
Qed.

Lemma StronglySorted_app_Qlt (l1 l2 : list Q) (b : Q) :
  StronglySorted Qlt l1 -> StronglySorted Qlt l2 ->
  Forall (fun t => t <= b) l1 -> Forall (fun t => b < t) l2 ->
  StronglySorted Qlt (l1 ++ l2).
Proof.
  intros S1 S2 F1 F2. induction S1 as [| x l1 S1 IH Hx]; simpl; [exact S2 |].
  inversion F1 as [| ? ? Hxb F1' ]; subst.
  constructor; [apply IH, F1' |].
  apply Forall_app; split; [exact Hx |].
  eapply Forall_impl; [exact F2 |]. intros t Ht. cbv beta in Ht.
  eapply Qle_lt_trans; eassumption.
Qed.

Lemma steps_up_app (a b c : Q) (l1 l2 : list Q) :
  steps_up a l1 b -> steps_up b l2 c -> steps_up a (l1 ++ l2) c.
Proof.
  intros (S1 & A1 & B1 & L1) (S2 & A2 & B2 & L2). repeat split.
  - eapply StronglySorted_app_Qlt; eassumption.
  - apply Forall_app; split; [exact A1 |].
    eapply Forall_impl; [exact A2 |]. intros t Ht. cbv beta in Ht.
    eapply Qle_lt_trans; eassumption.
  - apply Forall_app; split; [| exact B2].
    eapply Forall_impl; [exact B1 |]. intros t Ht. cbv beta in Ht.
    eapply Qle_trans; eassumption.
  - eapply Qle_trans; eassumption.
Qed.

Lemma applied_app (l1 l2 : list progress_msg) :
  applied (l1 ++ l2) = (applied l1 ++ applied l2)%list.
Proof.
  induction l1 as [| [t d p |] l1 IH]; simpl; [reflexivity | |];
    rewrite IH; reflexivity.
Qed.

Lemma applies_lt (total : option Q) (t last : Q) :
  applies total t last = true -> last < t.
Proof.
  unfold applies. destruct total as [d |]; [| discriminate].
  intros H. apply andb_prop in H as [_ H]. apply gtb_lt, H.
Qed.

(** What the handler does with one end time: either it applies a value
    strictly above the last applied one, or it applies nothing. *)
Lemma on_end_time_cases (total : option Q) (c : closure) (endTime : string) :
  (exists d p,
      lastProgressUpdate c < parseTimestamp endTime /\
      on_end_time total c endTime
      = (Closure (transcription c) (parseTimestamp endTime) (buffer c),
         [TranscriptionProgress (parseTimestamp endTime) d p])) \/
  (applies total (parseTimestamp endTime) (lastProgressUpdate c) = false /\
   on_end_time total c endTime = (c, [Transcribing])).
Proof.
  unfold on_end_time.
  destruct (applies total (parseTimestamp endTime) (lastProgressUpdate c)) eqn:E.
  - left. eexists _, _. split; [apply applies_lt in E; exact E | reflexivity].
  - right. split; reflexivity.
Qed.

Lemma on_end_time_steps (total : option Q) (c : closure) (endTime : string) :
  steps_up (lastProgressUpdate c)
           (applied (snd (on_end_time total c endTime)))
           (lastProgressUpdate (fst (on_end_time total c endTime))).
Proof.
  destruct (on_end_time_cases total c endTime) as [(d & p & Hlt & ->) | (_ & ->)];
    simpl.
  - apply steps_up_one, Hlt.
  - apply steps_up_nil.
Qed.

Lemma on_line_steps (total : option Q) (c : closure) (line : string) :
  steps_up (lastProgressUpdate c)
           (applied (snd (on_line total c line)))
           (lastProgressUpdate (fst (on_line total c line))).
Proof.
  unfold on_line. destruct (Regex.range_match line) as [g |].
  - apply (on_end_time_steps total
             (Closure (transcription c +:+ line +:+ String "010" "")
                      (lastProgressUpdate c) (buffer c))).
  - simpl. apply steps_up_nil.
Qed.

Lemma on_lines_steps (total : option Q) (lines : list string) (c : closure) :
  steps_up (lastProgressUpdate c)
           (applied (snd (on_lines total c lines)))
           (lastProgressUpdate (fst (on_lines total c lines))).
Proof.
  revert c. induction lines as [| line rest IH]; intros c; simpl.
  - apply steps_up_nil.
  - pose proof (on_line_steps total c line) as H1.
    destruct (on_line total c line) as [c1 out1]. simpl in H1.
    specialize (IH c1).
    destruct (on_lines total c1 rest) as [c2 out2]. simpl in IH |- *.
    rewrite applied_app. eapply steps_up_app; eassumption.
Qed.

Lemma on_stdout_data_steps (total : option Q) (c : closure) (output : string) :
  steps_up (lastProgressUpdate c)
           (applied (snd (on_stdout_data total c output)))
           (lastProgressUpdate (fst (on_stdout_data total c output))).
Proof.
  unfold on_stdout_data.
  apply (on_lines_steps total _
           (Closure (transcription c) (lastProgressUpdate c) _)).
Qed.

Lemma on_stdout_steps (total : option Q) (chunks : list string) (c : closure) :
  steps_up (lastProgressUpdate c)
           (applied (snd (on_stdout total c chunks)))
           (lastProgressUpdate (fst (on_stdout total c chunks))).
Proof.
  revert c. induction chunks as [| output rest IH]; intros c; simpl.
  - apply steps_up_nil.
  - pose proof (on_stdout_data_steps total c output) as H1.
    destruct (on_stdout_data total c output) as [c1 out1]. simpl in H1.
    specialize (IH c1).
    destruct (on_stdout total c1 rest) as [c2 out2]. simpl in IH |- *.
    rewrite applied_app. eapply steps_up_app; eassumption.
Qed.

(** [lastProgressUpdate] never decreases along a run. *)
Lemma lastProgressUpdate_never_decreases
    (total : option Q) (chunks : list string) (c : closure) :
  lastProgressUpdate c <= lastProgressUpdate (fst (on_stdout total c chunks)).
Proof. apply (on_stdout_steps total chunks c). Qed.

End ProgressFacts.

(** C5.  Whatever the recognizer writes, the stdout handler applies a newly
    parsed time as progress only when it is strictly greater than the last
    applied one; so the applied times, in order, are strictly increasing
    (each is greater than all applied before it) and all lie above the value
    the handler started from. *)
Theorem progress_never_regresses
    (total : option Q) (c : Progress.closure) (endTime : string)
    (chunks : list string) :
  (forall t,
      In t (Progress.applied (snd (Progress.on_end_time total c endTime))) ->
      (Progress.lastProgressUpdate c < t)%Q /\
      Progress.lastProgressUpdate (fst (Progress.on_end_time total c endTime)) = t) /\
  StronglySorted Qlt (Progress.applied (snd (Progress.on_stdout total c chunks))) /\
  Forall (fun t => (Progress.lastProgressUpdate c < t)%Q)
         (Progress.applied (snd (Progress.on_stdout total c chunks))).
Proof.
  split.
  - intros t Hin.
    destruct (on_end_time_cases total c endTime) as [(d & p & Hlt & E) | (_ & E)];
      rewrite E in Hin |- *; simpl in Hin |- *.
    + destruct Hin as [<- | []]. split; [exact Hlt | reflexivity].
    + destruct Hin.
  - destruct (on_stdout_steps total chunks c) as (S & A & _ & _).
    split; assumption.
Qed.

(** C10.  [parseTimestamp] returns 0 on every text that is not
    [[HH:]MM:SS.mmm]; and at any point of a run of the stdout handler, an end
    time that does not parse yields no percent update: the handler only shows
    the fixed "transcribing" text and leaves its variables as they are. *)
Theorem unparseable_timestamp_no_percent
    (total : option Q) (chunks : list string) (s : string) :
  Regex.timestamp_match s = None ->
  Progress.parseTimestamp s = 0%Q /\
  let c := fst (Progress.on_stdout total Progress.initial chunks) in
  Progress.on_end_time total c s = (c, [Progress.Transcribing]).
Proof.
  intros Hno.
  assert (E : Progress.parseTimestamp s = 0%Q)
    by (unfold Progress.parseTimestamp; rewrite Hno; reflexivity).
  split; [exact E |]. intros c.
  destruct (on_stdout_steps total chunks Progress.initial) as (_ & _ & _ & Hle).
  fold c in Hle. simpl in Hle.
  unfold Progress.on_end_time. rewrite E.
  assert (A : Progress.applies total 0 (Progress.lastProgressUpdate c) = false).
  { unfold Progress.applies. destruct total as [d |]; [| reflexivity].
    unfold JsNumber.gtb. apply Qle_bool_iff in Hle. rewrite Hle.
    apply andb_false_r. }
  rewrite A. reflexivity.
Qed.

Lemma unparseable_timestamp_no_percent_witness :
  Regex.timestamp_match "4.200" = None /\
  Progress.parseTimestamp "4.200" = 0%Q /\
  let c := fst (Progress.on_stdout (Some 10%Q) Progress.initial
                  ["[00:01.500 --> 00:04.200] hi" +:+ String "010" ""]) in
  Progress.on_end_time (Some 10%Q) c "4.200" = (c, [Progress.Transcribing]).
Proof.
  exact (conj eq_refl
           (unparseable_timestamp_no_percent (Some 10%Q)
              ["[00:01.500 --> 00:04.200] hi" +:+ String "010" ""] "4.200" eq_refl)).
Defined.

(** ** The percent shown *)

Section Percent.
Import Progress.
Local Open Scope Q_scope.

(** The percent the handler computes is the one the specification words:
    [min(round(r * 100), 100) = round(min(r, 1) * 100)]. *)
Lemma percent_is_percent_spec (elapsed total : Q) :
  percent elapsed total = percent_spec elapsed total.
Proof.
  unfold percent, percent_spec, JsNumber.round. cbv zeta.
  set (r := elapsed / total).
  destruct (Qle_bool r 1) eqn:E.
  - apply Qle_bool_iff in E.
    assert (H : (Qfloor (r * 100 + (1 # 2)) <= Qfloor (201 # 2))%Z)
      by (apply Qfloor_resp_le; lra).
    change (Qfloor (201 # 2)) with 100%Z in H. lia.
  - assert (H1 : 1 < r).
    { apply Qnot_le_lt. intros Hle. apply Qle_bool_iff in Hle. congruence. }
    assert (H : (Qfloor (201 # 2) <= Qfloor (r * 100 + (1 # 2)))%Z)
      by (apply Qfloor_resp_le; lra).
    change (Qfloor (201 # 2)) with 100%Z in H.
    change (Qfloor (1 * 100 + (1 # 2))) with 100%Z. lia.
Qed.

(** With a positive total duration the percent lies in [0, 100], also when
    the elapsed time exceeds the total. *)
Lemma percent_range (elapsed total : Q) :
  0 <= elapsed -> 0 < total -> (0 <= percent elapsed total <= 100)%Z.
Proof.
  intros He Ht. unfold percent, JsNumber.round.
  assert (Hr : 0 <= elapsed / total).
  { unfold Qdiv. apply Qmult_le_0_compat; [exact He |].
    apply Qlt_le_weak, Qinv_lt_0_compat, Ht. }
  assert (H : (Qfloor (1 # 2) <= Qfloor (elapsed / total * 100 + (1 # 2)))%Z)
    by (apply Qfloor_resp_le; lra).
  change (Qfloor (1 # 2)) with 0%Z in H. lia.
Qed.

Lemma on_end_time_updates (d : Q) (c : closure) (endTime : string) :
  0 <= lastProgressUpdate c ->
  Forall (well_formed_update d) (snd (on_end_time (Some d) c endTime)).
Proof.
  intros H0. unfold on_end_time.
  destruct (applies (Some d) (parseTimestamp endTime) (lastProgressUpdate c)) eqn:E;
    simpl; repeat constructor.
  apply applies_lt in E. eapply Qle_lt_trans; eassumption.
Qed.

Lemma on_lines_updates (d : Q) (lines : list string) (c : closure) :
  0 <= lastProgressUpdate c ->
  Forall (well_formed_update d) (snd (on_lines (Some d) c lines)).
Proof.
  revert c. induction lines as [| line rest IH]; intros c H0; simpl; [constructor |].
  pose proof (on_line_steps (Some d) c line) as (_ & _ & _ & Hle).
  assert (H1 : Forall (well_formed_update d) (snd (on_line (Some d) c line))).
  { unfold on_line. destruct (Regex.range_match line); [| constructor].
    apply on_end_time_updates. exact H0. }
  destruct (on_line (Some d) c line) as [c1 out1]. simpl in Hle, H1.
  specialize (IH c1 (Qle_trans _ _ _ H0 Hle)).
  destruct (on_lines (Some d) c1 rest) as [c2 out2]. simpl in IH |- *.
  apply Forall_app; split; assumption.
Qed.

Lemma on_stdout_updates (d : Q) (chunks : list string) (c : closure) :
  0 <= lastProgressUpdate c ->
  Forall (well_formed_update d) (snd (on_stdout (Some d) c chunks)).
Proof.
  revert c. induction chunks as [| output rest IH]; intros c H0; simpl; [constructor |].
  pose proof (on_stdout_data_steps (Some d) c output) as (_ & _ & _ & Hle).
  assert (H1 : Forall (well_formed_update d) (snd (on_stdout_data (Some d) c output)))
    by (unfold on_stdout_data; apply on_lines_updates; exact H0).
  destruct (on_stdout_data (Some d) c output) as [c1 out1]. simpl in Hle, H1.
  specialize (IH c1 (Qle_trans _ _ _ H0 Hle)).
  destruct (on_stdout (Some d) c1 rest) as [c2 out2]. simpl in IH |- *.
  apply Forall_app; split; assumption.
Qed.

(** Every percent a run reports, with a positive total duration, is
    [percent_spec] of the applied time and lies in [0, 100]. *)
Lemma reported_percents_in_range (d : Q) (chunks : list string) :
  0 < d ->
  Forall (fun p => (0 <= p <= 100)%Z)
         (percents (snd (on_stdout (Some d) initial chunks))).
Proof.
  intros Hd.
  pose proof (on_stdout_updates d chunks initial (Qle_refl 0)) as H.
  induction H as [| [t d' p |] out Hm _ IH]; simpl; [constructor | | exact IH].
  destruct Hm as (-> & -> & Ht). constructor; [| exact IH].
  apply percent_range; [apply Qlt_le_weak, Ht | exact Hd].
Qed.


End Percent.

(** C6 fails on its scenario.  On the line
    [[00:01.500 --> 00:04.200]  hello world], with a total duration of 10
    seconds, the handler appends the line to the transcript, but takes the
    start of the range, [00:01.500], as the end time (the end hour group took
    no part in the match, and it then reads groups 2 and 3) and reports 15
    percent; the end of the range, [00:04.200], gives the 42 percent the
    scenario expects. *)
Theorem scenario_line_reports_start_time :
  let line := "[00:01.500 --> 00:04.200]  hello world" in
  let '(c, out) :=
    Progress.on_stdout (Some 10%Q) Progress.initial [line +:+ String "010" ""] in
  Progress.transcription c = line +:+ String "010" "" /\
  option_map Progress.endTimeStr (Regex.range_match line) = Some "00:01.500" /\
  Progress.percents out = [15%Z] /\
  Progress.progress_text (3 # 2) 10 15 = "0:01 / 0:10 (15%)" /\
  Progress.percent (Progress.parseTimestamp "00:04.200") 10 = 42%Z.
Proof.
  vm_compute. repeat split.
Qed.

(** ** The transcription runner *)

Ltac monad_unfold :=
  unfold mbind, World.M_bind, mret, World.M_ret, World.bind, World.ret, World.throw,
    World.pending, World.try_catch, World.modify, World.get in *.

Section Runner.
Import World AudioProcessor.
Variable ext : externals.
Variable this : processor.

Lemma runTranscription_no_mlx (audioPath : string) (st : settings) (s : state) :
  NodeFs.existsSync (cwd ext) (disk s) (mlxWhisperPath this) = false ->
  runTranscription ext this audioPath st s
  = (s, Settled (Rejected (MlxWhisperNotFound (mlxWhisperPath this)))).
Proof.
  intros H. unfold runTranscription, existsSync. monad_unfold.
  rewrite H. reflexivity.
Qed.

Lemma runTranscription_no_python (audioPath : string) (st : settings) (s : state) :
  NodeFs.existsSync (cwd ext) (disk s) (mlxWhisperPath this) = true ->
  NodeFs.existsSync (cwd ext) (disk s) (venvPython this) = false ->
  runTranscription ext this audioPath st s
  = (s, Settled (Rejected (PythonNotFound (venvPython this)))).
Proof.
  intros H1 H2. unfold runTranscription, existsSync. monad_unfold.
  rewrite H1. cbn [negb]. rewrite H2. reflexivity.
Qed.

Lemma on_stderr_keeps_disk (chunks : list string) (s : state) :
  snd (on_stderr chunks s) = Resolved tt /\
  disk (fst (on_stderr chunks s)) = disk s.
Proof.
  revert s. induction chunks as [| output rest IH]; intros s; simpl.
  - split; reflexivity.
  - unfold on_stderr_data, console_error, onError. monad_unfold.
    destruct (JsString.includes "Error" output || JsString.includes "error" output);
      (split; [apply IH | etransitivity; [apply IH | reflexivity]]).
Qed.

(** With both dependencies on disk, the runner spawns the recognizer; when
    the recognizer is still there as the handlers are attached, the promise
    settles in the ['close'] handler, which sees the disk the recognizer
    left. *)
Lemma runTranscription_reaches_close (audioPath : string) (st : settings) (s : state) :
  NodeFs.existsSync (cwd ext) (disk s) (mlxWhisperPath this) = true ->
  NodeFs.existsSync (cwd ext) (disk s) (venvPython this) = true ->
  let run := recognizer ext (venvPython this) (command this audioPath st) (disk s) in
  closed_early run = false ->
  exists (s2 : state) (transcription : string),
    disk s2 = disk_after run /\
    runTranscription ext this audioPath st s
    = on_close ext this audioPath (exit_code run) transcription s2.
Proof.
  intros H1 H2 run Hc. unfold runTranscription, existsSync. monad_unfold.
  rewrite H1. cbn [negb]. rewrite H2. cbn [negb].
  cbn [disk add_spawned set_child]. fold run. rewrite Hc.
  set (total := match ffprobe ext audioPath (disk s) with
                | Some d => if JsNumber.truthy d then Some d else None
                | None => None
                end).
  destruct (Progress.on_stdout total Progress.initial (stdout run)) as [c out].
  clearbody total.
  destruct (ffprobe ext audioPath (disk s)) as [d |];
    unfold console_error; monad_unfold;
    match goal with
    | |- context [on_stderr (stderr run) ?s1] =>
        pose proof (on_stderr_keeps_disk (stderr run) s1) as [E D];
        destruct (on_stderr (stderr run) s1) as [s2 r]
    end;
    simpl in E, D; subst r;
    exists s2, (Progress.transcription c); (split; [exact D | reflexivity]).
Qed.

Lemma read_file_exists (d : fs) (p content : string) :
  NodeFs.read_file (cwd ext) d p = Some content ->
  NodeFs.existsSync (cwd ext) d p = true.
Proof.
  unfold NodeFs.read_file, NodeFs.existsSync, NodeFs.is_file. intros H.
  rewrite H. rewrite bool_decide_eq_true_2 by eauto. reflexivity.
Qed.

(** Exit code 0 with the output file present: the promise resolves with the
    trimmed text of the file, whatever was accumulated from the standard
    output. *)
Lemma on_close_zero_present
    (audioPath transcription content : string) (s : state) :
  NodeFs.read_file (cwd ext) (disk s) (outputPath this audioPath) = Some content ->
  snd (on_close ext this audioPath (Some 0%Z) transcription s)
  = Resolved (JsString.trim content).
Proof.
  intros H. pose proof (read_file_exists _ _ _ H) as Hex.
  unfold on_close, settle, read_result, existsSync, readFile, lift_fs,
    onProgressUpdate, unlinkSync, fs_step, lift_fs, console_error.
  monad_unfold.
  rewrite bool_decide_eq_true_2 by reflexivity.
  rewrite Hex, H. cbn [mbind option_bind disk set_disk add_progress].
  destruct (NodeFs.unlink (cwd ext) (disk s) (outputPath this audioPath));
    reflexivity.
Qed.

(** Exit code 0 with nothing at the output path: the promise rejects. *)
Lemma on_close_zero_absent (audioPath transcription : string) (s : state) :
  NodeFs.existsSync (cwd ext) (disk s) (outputPath this audioPath) = false ->
  on_close ext this audioPath (Some 0%Z) transcription s
  = (set_child None s, Settled (Rejected ResultFileNotFound)).
Proof.
  intros H. unfold on_close, settle, existsSync. monad_unfold.
  rewrite bool_decide_eq_true_2 by reflexivity.
  rewrite H. reflexivity.
Qed.

(** A recognizer that has closed before the handlers are attached: the
    process was spawned and its handle stored, the disk is as it left it,
    the probe's failure (if any) was logged, and nothing else ever happens;
    the promise stays pending. *)
Lemma runTranscription_closed_early (audioPath : string) (st : settings) (s : state) :
  NodeFs.existsSync (cwd ext) (disk s) (mlxWhisperPath this) = true ->
  NodeFs.existsSync (cwd ext) (disk s) (venvPython this) = true ->
  let run := recognizer ext (venvPython this) (command this audioPath st) (disk s) in
  let child := Child (venvPython this) (command this audioPath st) in
  closed_early run = true ->
  runTranscription ext this audioPath st s
  = (set_disk (disk_after run)
       ((if ffprobe ext audioPath (disk s) is None
         then add_console [FfprobeError] else id)
          (set_child (Some child) (add_spawned child s))),
     Pending).
Proof.
  intros H1 H2 run child Hc. unfold runTranscription, existsSync. monad_unfold.
  rewrite H1. cbn [negb]. rewrite H2. cbn [negb].
  cbn [disk add_spawned set_child]. fold run. fold child.
  destruct (ffprobe ext audioPath (disk s)) as [d |];
    unfold console_error; monad_unfold; rewrite Hc; reflexivity.
Qed.

End Runner.

(** C9.  When the recognizer executable or its interpreter is not on disk,
    [runTranscription] rejects with the matching "not found" error and
    leaves the whole state as it was: nothing is spawned and no child process
    handle is stored. *)
Theorem missing_dependency_fails_before_spawn
    (ext : World.externals) (this : AudioProcessor.processor)
    (audioPath : string) (st : AudioProcessor.settings) (s : World.state) :
  NodeFs.existsSync (World.cwd ext) (World.disk s) (AudioProcessor.mlxWhisperPath this) = false
  \/ NodeFs.existsSync (World.cwd ext) (World.disk s) (AudioProcessor.venvPython this) = false ->
  let r := AudioProcessor.runTranscription ext this audioPath st s in
  fst r = s /\
  World.spawned (fst r) = World.spawned s /\
  World.currentChildProcess (fst r) = World.currentChildProcess s /\
  (snd r = World.Rejected (World.MlxWhisperNotFound (AudioProcessor.mlxWhisperPath this))
   \/ snd r = World.Rejected (World.PythonNotFound (AudioProcessor.venvPython this))).
Proof.
  intros H r.
  destruct (NodeFs.existsSync (World.cwd ext) (World.disk s)
              (AudioProcessor.mlxWhisperPath this)) eqn:E1.
  - destruct H as [H | H]; [discriminate H |].
    subst r. rewrite (runTranscription_no_python ext this audioPath st s E1 H).
    simpl. repeat split; try reflexivity. right; reflexivity.
  - subst r. rewrite (runTranscription_no_mlx ext this audioPath st s E1).
    simpl. repeat split; try reflexivity. left; reflexivity.
Qed.

Lemma missing_dependency_fails_before_spawn_witness :
  let s := Example.start Example.no_python in
  let r := AudioProcessor.runTranscription (Example.machine Example.recognizer_ok)
             Example.this Example.wav_file Example.settings_en_small s in
  fst r = s /\
  World.spawned (fst r) = World.spawned s /\
  World.currentChildProcess (fst r) = World.currentChildProcess s /\
  (snd r = World.Rejected
             (World.MlxWhisperNotFound (AudioProcessor.mlxWhisperPath Example.this))
   \/ snd r = World.Rejected
                (World.PythonNotFound (AudioProcessor.venvPython Example.this))).
Proof.
  apply (missing_dependency_fails_before_spawn (Example.machine Example.recognizer_ok)
           Example.this Example.wav_file Example.settings_en_small
           (Example.start Example.no_python)).
  right. vm_compute. reflexivity.
Defined.

(** C7.  When both dependencies are installed and the recognizer exits with
    code 0, what [transcribeExternalFile] does depends on whether the
    recognizer is still there when the handlers are attached.  When it is,
    the promise resolves with the trimmed contents of the text file named
    after the base name of the input, in the scratch directory, whatever the
    recognizer printed; and when nothing is at that path it rejects with the
    "result file not found" error instead of resolving.  When the recognizer
    has already closed by the time [ffprobe] answers, the ['close'] event
    is missed: the promise neither resolves nor rejects, the stored handle
    stays, and the text file is left on disk, unread. *)
Theorem exit_zero_reads_result_file
    (ext : World.externals) (this : AudioProcessor.processor)
    (filePath : string) (st : AudioProcessor.settings) (s : World.state) :
  NodeFs.existsSync (World.cwd ext) (World.disk s) (AudioProcessor.mlxWhisperPath this) = true ->
  NodeFs.existsSync (World.cwd ext) (World.disk s) (AudioProcessor.venvPython this) = true ->
  let run := World.recognizer ext (AudioProcessor.venvPython this)
               (AudioProcessor.command this filePath st) (World.disk s) in
  World.exit_code run = Some 0%Z ->
  let out := NodePath.join
               [AudioProcessor.tempDir this;
                NodePath.basename filePath (NodePath.extname filePath) +:+ ".txt"] in
  let r := AudioProcessor.transcribeExternalFile ext this filePath st s in
  (World.closed_early run = false ->
   (forall content,
       NodeFs.read_file (World.cwd ext) (World.disk_after run) out = Some content ->
       snd r = World.Resolved (JsString.trim content)) /\
   (NodeFs.existsSync (World.cwd ext) (World.disk_after run) out = false ->
    snd r = World.Rejected World.ResultFileNotFound)) /\
  (World.closed_early run = true ->
   snd r = World.Pending /\
   World.currentChildProcess (fst r)
   = Some (World.Child (AudioProcessor.venvPython this)
             (AudioProcessor.command this filePath st)) /\
   World.disk (fst r) = World.disk_after run).
Proof.
  intros H1 H2 run Hcode out r. subst r.
  unfold AudioProcessor.transcribeExternalFile. split; intros Hc.
  - destruct (runTranscription_reaches_close ext this filePath st s H1 H2 Hc)
      as (s2 & transcription & D & E).
    fold run in D, E. rewrite Hcode in E. rewrite E. split.
    + intros content Hread. apply on_close_zero_present. rewrite D. exact Hread.
    + intros Habsent. rewrite on_close_zero_absent by (rewrite D; exact Habsent).
      reflexivity.
  - rewrite (runTranscription_closed_early ext this filePath st s H1 H2 Hc).
    fold run. cbn [fst snd].
    destruct (World.ffprobe ext filePath (World.disk s)); repeat split.
Qed.

Lemma exit_zero_reads_result_file_witness :
  (snd (AudioProcessor.transcribeExternalFile (Example.machine Example.recognizer_ok)
          Example.this Example.wav_file Example.settings_en_small
          (Example.start Example.installed))
   = World.Resolved "hello world" /\
   snd (AudioProcessor.transcribeExternalFile (Example.machine Example.recognizer_silent)
          Example.this Example.wav_file Example.settings_en_small
          (Example.start Example.installed))
   = World.Rejected World.ResultFileNotFound) /\
  let r := AudioProcessor.transcribeExternalFile (Example.machine Failing.recognizer_early)
             Example.this Example.wav_file Example.settings_en_small
             (Example.start Example.installed) in
  snd r = World.Pending /\
  World.currentChildProcess (fst r)
  = Some (World.Child (AudioProcessor.venvPython Example.this)
            (AudioProcessor.command Example.this Example.wav_file
               Example.settings_en_small)) /\
  NodeFs.read_file "/" (World.disk (fst r)) Example.txt_file = Some "  hello world  ".
Proof.
  split; [split |].
  - refine (proj1 (proj1 (exit_zero_reads_result_file
                            (Example.machine Example.recognizer_ok)
                            Example.this Example.wav_file Example.settings_en_small
                            (Example.start Example.installed) _ _ _) _)
              "  hello world  " _);
      vm_compute; reflexivity.
  - refine (proj2 (proj1 (exit_zero_reads_result_file
                            (Example.machine Example.recognizer_silent)
                            Example.this Example.wav_file Example.settings_en_small
                            (Example.start Example.installed) _ _ _) _) _);
      vm_compute; reflexivity.
  - intros r.
    destruct (proj2 (exit_zero_reads_result_file
                       (Example.machine Failing.recognizer_early)
                       Example.this Example.wav_file Example.settings_en_small
                       (Example.start Example.installed)
                       ltac:(vm_compute; reflexivity) ltac:(vm_compute; reflexivity)
                       ltac:(vm_compute; reflexivity))
                ltac:(vm_compute; reflexivity)) as (P & C & D).
    split; [exact P |]. split; [exact C |].
    fold r in D. rewrite D. vm_compute. reflexivity.
Defined.

(** ** Temporary files *)

Section Cleanup.
Import World AudioProcessor.
Variable ext : externals.

Lemma unlink_file (d : fs) (p : string) :
  NodeFs.is_file d (NodeFs.canon (cwd ext) p) = true ->
  NodeFs.unlink (cwd ext) d p
  = Some (Fs (delete (NodeFs.canon (cwd ext) p) (files d)) (dirs d)).
Proof. intros H. unfold NodeFs.unlink. rewrite H. reflexivity. Qed.

Lemma is_file_delete_same (d : fs) (q : string) :
  NodeFs.is_file (Fs (delete q (files d)) (dirs d)) q = false.
Proof.
  unfold NodeFs.is_file. cbn [files]. apply bool_decide_eq_false_2.
  rewrite lookup_delete_eq. intros [x Hx]. discriminate Hx.
Qed.

Lemma is_file_delete_other (d : fs) (q q' : string) :
  q <> q' ->
  NodeFs.is_file (Fs (delete q (files d)) (dirs d)) q' = NodeFs.is_file d q'.
Proof.
  intros Hne. unfold NodeFs.is_file. cbn [files].
  rewrite lookup_delete_ne by exact Hne. reflexivity.
Qed.

(** The deletion never throws: it ends normally, and either it logged
    nothing or it logged the one unlink that failed. *)
Lemma cleanup_outcome (a b c : string) (s : state) :
  snd (cleanup ext a b c s) = Resolved tt /\
  (console (fst (cleanup ext a b c s)) = console s \/
   exists p, console (fst (cleanup ext a b c s))
             = (console s ++ [TempFileDeleteError (UnlinkError p)])%list).
Proof.
  unfold cleanup, unlinkSync, fs_step, lift_fs, console_error. monad_unfold.
  destruct (NodeFs.unlink (cwd ext) (disk s) a) as [d1 |]; cbn;
    [| split; [reflexivity | right; eexists; reflexivity]].
  destruct (NodeFs.unlink (cwd ext) d1 b) as [d2 |]; cbn;
    [| split; [reflexivity | right; eexists; reflexivity]].
  destruct (NodeFs.unlink (cwd ext) d2 c) as [d3 |]; cbn;
    [| split; [reflexivity | right; eexists; reflexivity]].
  split; [reflexivity | left; reflexivity].
Qed.

(** With the three files on disk, under three different paths, the
    deletion removes all three and logs nothing. *)
Lemma cleanup_deletes_all (a b c : string) (s : state) :
  let qa := NodeFs.canon (cwd ext) a in
  let qb := NodeFs.canon (cwd ext) b in
  let qc := NodeFs.canon (cwd ext) c in
  qa <> qb -> qa <> qc -> qb <> qc ->
  NodeFs.is_file (disk s) qa = true ->
  NodeFs.is_file (disk s) qb = true ->
  NodeFs.is_file (disk s) qc = true ->
  let s2 := fst (cleanup ext a b c s) in
  NodeFs.is_file (disk s2) qa = false /\
  NodeFs.is_file (disk s2) qb = false /\
  NodeFs.is_file (disk s2) qc = false /\
  console s2 = console s.
Proof.
  intros qa qb qc Hab Hac Hbc Fa Fb Fc s2. subst s2.
  unfold cleanup, unlinkSync, fs_step, lift_fs, console_error. monad_unfold.
  rewrite (unlink_file _ _ Fa). cbn [mbind option_bind disk set_disk].
  fold qa. set (d1 := Fs (delete qa (files (disk s))) (dirs (disk s))).
  assert (Fb1 : NodeFs.is_file d1 qb = true)
    by (subst d1; rewrite is_file_delete_other by exact Hab; exact Fb).
  rewrite (unlink_file _ _ Fb1). cbn [mbind option_bind disk set_disk].
  fold qb. set (d2 := Fs (delete qb (files d1)) (dirs d1)).
  assert (Fc2 : NodeFs.is_file d2 qc = true).
  { subst d2. rewrite is_file_delete_other by exact Hbc.
    subst d1. rewrite is_file_delete_other by exact Hac. exact Fc. }
  rewrite (unlink_file _ _ Fc2). cbn [mbind option_bind disk set_disk fst console].
  fold qc. repeat split.
  - rewrite is_file_delete_other by (intros E; apply Hac; symmetry; exact E).
    subst d2. rewrite is_file_delete_other by (intros E; apply Hab; symmetry; exact E).
    subst d1. apply is_file_delete_same.
  - rewrite is_file_delete_other by (intros E; apply Hbc; symmetry; exact E).
    subst d2. apply is_file_delete_same.
  - apply is_file_delete_same.
Qed.

End Cleanup.

(** What a run leaves of the temporary files when it does not get as far as
    deleting them. *)

Section Kept.
Import World AudioProcessor.
Variable ext : externals.
Variable this : processor.

Lemma is_file_insert (d : fs) (k v q : string) :
  NodeFs.is_file d q = true ->
  NodeFs.is_file (Fs (<[k := v]> (files d)) (dirs d)) q = true.
Proof.
  unfold NodeFs.is_file. cbn [files]. intros H.
  apply bool_decide_eq_true_1 in H. apply bool_decide_eq_true_2.
  destruct (decide (k = q)) as [-> | Hne].
  - rewrite lookup_insert_eq. eauto.
  - rewrite lookup_insert_ne by exact Hne. exact H.
Qed.

Lemma is_file_inserted (d : fs) (k v : string) :
  NodeFs.is_file (Fs (<[k := v]> (files d)) (dirs d)) k = true.
Proof.
  unfold NodeFs.is_file. cbn [files]. apply bool_decide_eq_true_2.
  rewrite lookup_insert_eq. eauto.
Qed.

Lemma write_file_keeps (d d' : fs) (p data q : string) :
  NodeFs.write_file (cwd ext) d p data = Some d' ->
  NodeFs.is_file d' (NodeFs.canon (cwd ext) p) = true /\
  (NodeFs.is_file d q = true -> NodeFs.is_file d' q = true).
Proof.
  unfold NodeFs.write_file.
  destruct (NodeFs.is_dir d _ && negb (NodeFs.is_dir d _)); [| discriminate].
  intros [= <-]. split; [apply is_file_inserted | apply is_file_insert].
Qed.

Lemma mkdir_p_keeps (d d' : fs) (p q : string) :
  NodeFs.mkdir_p (cwd ext) d p = Some d' ->
  NodeFs.is_file d' q = NodeFs.is_file d q.
Proof.
  unfold NodeFs.mkdir_p.
  destruct (existsb _ _); [discriminate |]. intros [= <-]. reflexivity.
Qed.

Lemma copy_file_keeps (d d' : fs) (src dst q : string) :
  NodeFs.copy_file (cwd ext) d src dst = Some d' ->
  NodeFs.is_file d q = true -> NodeFs.is_file d' q = true.
Proof.
  unfold NodeFs.copy_file. intros H. apply bind_Some in H.
  destruct H as (data & _ & H). exact (proj2 (write_file_keeps _ _ _ _ q H)).
Qed.

Variable q : string.
Hypothesis Hq : Scratch.left_alone ext q.

Lemma conversion_finish_keeps (input format output : string) (s : state) :
  NodeFs.is_file (disk s) q = true ->
  NodeFs.is_file (disk (fst (conversion_finish ext input format output s))) q = true.
Proof.
  intros H. unfold conversion_finish, console_error. monad_unfold.
  cbn [disk set_disk add_progress].
  destruct (ended (ffmpeg ext input format output (disk s))); cbn;
    apply (proj1 Hq); exact H.
Qed.

Lemma save_mp3_keeps (st : settings) (pluginDir filename tempMp3Path : string)
    (s : state) :
  NodeFs.is_file (disk s) q = true ->
  NodeFs.is_file (disk (fst (save_mp3 ext st pluginDir filename tempMp3Path s))) q = true.
Proof.
  intros H.
  unfold save_mp3, fs_step, lift_fs, existsSync, onProgressUpdate, onError, console_error.
  monad_unfold. cbv zeta.
  destruct (String.eqb (vaultBasePath ext pluginDir) ""); [cbn; exact H |].
  destruct (NodeFs.mkdir_p (cwd ext) (disk s) (absoluteAudioDir ext st pluginDir))
    as [d1 |] eqn:Emk; cbn; [| exact H].
  rewrite <- (mkdir_p_keeps _ _ _ q Emk) in H.
  destruct (NodeFs.existsSync (cwd ext) d1 tempMp3Path); cbn; [| exact H].
  destruct (NodeFs.copy_file (cwd ext) d1 tempMp3Path _) as [d2 |] eqn:Ecp; cbn;
    [| exact H].
  pose proof (copy_file_keeps _ _ _ _ q Ecp H) as H2.
  destruct (NodeFs.existsSync (cwd ext) d2 _); cbn; exact H2.
Qed.

Lemma on_close_keeps (audioPath : string) (code : option Z) (transcription : string)
    (s : state) :
  q <> NodeFs.canon (cwd ext) (outputPath this audioPath) ->
  NodeFs.is_file (disk s) q = true ->
  NodeFs.is_file (disk (fst (on_close ext this audioPath code transcription s))) q = true.
Proof.
  intros Hne H.
  unfold on_close, settle, read_result, existsSync, readFile, lift_fs,
    onProgressUpdate, unlinkSync, fs_step, lift_fs, console_error, NodeFs.unlink.
  monad_unfold.
  destruct (bool_decide (code = Some 0%Z)); [| cbn; exact H].
  destruct (NodeFs.existsSync (cwd ext) (disk s) (outputPath this audioPath));
    [| cbn; exact H].
  destruct (NodeFs.read_file (cwd ext) (disk s) (outputPath this audioPath));
    cbn; [| exact H].
  destruct (NodeFs.is_file (disk s) (NodeFs.canon (cwd ext) (outputPath this audioPath)));
    cbn; [| exact H].
  rewrite is_file_delete_other by (intros E; apply Hne; symmetry; exact E).
  exact H.
Qed.

Lemma runTranscription_keeps (audioPath : string) (st : settings) (s : state) :
  q <> NodeFs.canon (cwd ext) (outputPath this audioPath) ->
  NodeFs.is_file (disk s) q = true ->
  NodeFs.is_file (disk (fst (runTranscription ext this audioPath st s))) q = true.
Proof.
  intros Hne H.
  destruct (NodeFs.existsSync (cwd ext) (disk s) (mlxWhisperPath this)) eqn:E1.
  - destruct (NodeFs.existsSync (cwd ext) (disk s) (venvPython this)) eqn:E2.
    + pose proof (proj2 Hq (venvPython this) (command this audioPath st) (disk s) H)
        as Hr.
      destruct (closed_early (recognizer ext (venvPython this)
                                (command this audioPath st) (disk s))) eqn:Ec.
      * rewrite (runTranscription_closed_early ext this audioPath st s E1 E2 Ec).
        exact Hr.
      * destruct (runTranscription_reaches_close ext this audioPath st s E1 E2 Ec)
          as (s2 & transcription & D & E).
        rewrite E. apply on_close_keeps; [exact Hne |]. rewrite D. exact Hr.
    + rewrite (runTranscription_no_python ext this audioPath st s E1 E2). exact H.
  - rewrite (runTranscription_no_mlx ext this audioPath st s E1). exact H.
Qed.

End Kept.

Section KeptByTheRun.
Import World AudioProcessor.
Variable ext : externals.
Variable this : processor.

Lemma convert_both_keeps (q : string) (tempFilePath filename : string) (s : state) :
  Scratch.left_alone ext q ->
  NodeFs.is_file (disk s) q = true ->
  NodeFs.is_file (disk (fst (convert_both ext this tempFilePath filename s))) q = true.
Proof.
  intros Hq H. unfold convert_both, conversion_start. monad_unfold.
  match goal with
  | |- context [conversion_finish ext ?i ?f ?o ?s0] =>
      pose proof (conversion_finish_keeps ext q Hq i f o s0 H) as K1;
      destruct (conversion_finish ext i f o s0) as [s1 [[[] | e1] |]]
  end; cbn [fst snd] in K1 |- *; try exact K1.
  match goal with
  | |- context [conversion_finish ext ?i ?f ?o ?s0] =>
      pose proof (conversion_finish_keeps ext q Hq i f o s0 K1) as K2;
      destruct (conversion_finish ext i f o s0) as [s2 [[[] | e2] |]]
  end; cbn [fst snd] in K2 |- *; exact K2.
Qed.

Lemma conversion_finish_made (input format output : string) (s s' : state) :
  Scratch.produces ext input format output ->
  conversion_finish ext input format output s = (s', Settled (Resolved tt)) ->
  NodeFs.is_file (disk s') (NodeFs.canon (cwd ext) output) = true.
Proof.
  intros Hp. unfold conversion_finish, console_error. monad_unfold.
  cbn [disk set_disk add_progress].
  destruct (ended (ffmpeg ext input format output (disk s))) eqn:E; cbn;
    [| discriminate].
  intros [= <-]. cbn. apply Hp. exact E.
Qed.

(** A pair of conversions that both end leaves the two outputs they
    wrote, the mp3 when the wav conversion leaves it alone. *)
Lemma convert_both_made (tempFilePath filename : string) (s sc : state)
    (mp3 wav : string) :
  convert_both ext this tempFilePath filename s = (sc, Settled (Resolved (mp3, wav))) ->
  mp3 = mp3_path this filename /\ wav = wav_path tempFilePath /\
  (Scratch.produces ext tempFilePath "wav" wav ->
   NodeFs.is_file (disk sc) (NodeFs.canon (cwd ext) wav) = true) /\
  (Scratch.produces ext tempFilePath "mp3" mp3 ->
   Scratch.left_alone ext (NodeFs.canon (cwd ext) mp3) ->
   NodeFs.is_file (disk sc) (NodeFs.canon (cwd ext) mp3) = true).
Proof.
  unfold convert_both, conversion_start. monad_unfold.
  match goal with
  | |- context [conversion_finish ext ?i ?f ?o ?s0] =>
      pose proof (conversion_finish_made i f o s0) as M1;
      destruct (conversion_finish ext i f o s0) as [s1 [[[] | e1] |]]
  end; cbn [fst snd]; try discriminate.
  match goal with
  | |- context [conversion_finish ext ?i ?f ?o ?s0] =>
      pose proof (conversion_finish_made i f o s0) as M2;
      pose proof (fun q Hq => conversion_finish_keeps ext q Hq i f o s0) as K2;
      destruct (conversion_finish ext i f o s0) as [s2 [[[] | e2] |]]
  end; cbn [fst snd] in K2 |- *; try discriminate.
  intros [= <- <- <-]. split; [reflexivity |]. split; [reflexivity |]. split.
  - intros Hp. exact (M2 _ Hp eq_refl).
  - intros Hp Hq. apply (K2 _ Hq). exact (M1 _ Hp eq_refl).
Qed.

Lemma convert_both_errors (tempFilePath filename : string) (s sc : state) :
  match snd (convert_both ext this tempFilePath filename s) with
  | Settled (Resolved _) => True
  | Settled (Rejected e) => exists p, e = FfmpegError p
  | Pending => False
  end.
Proof.
  unfold convert_both, conversion_start, conversion_finish, console_error.
  monad_unfold. cbn.
  destruct (ended (ffmpeg ext tempFilePath "mp3" (mp3_path this filename) _)); cbn;
    [| eauto].
  destruct (ended (ffmpeg ext tempFilePath "wav" (wav_path tempFilePath) _)); cbn;
    [exact I | eauto].
Qed.

(** What [up_to_read_back] leaves of the three temporary files, however it
    ends: the recording once it was written, the wav and the mp3 once both
    conversions ended. *)
Lemma up_to_read_back_kept (audioBlob : string) (st : settings) (pluginDir : string)
    (s : state) :
  let tempFilePath := NodePath.join [tempDir this; recording_name ext +:+ ".webm"] in
  let wavPath := wav_path tempFilePath in
  let tempMp3Path := mp3_path this (recording_name ext) in
  let qa := NodeFs.canon (cwd ext) tempFilePath in
  let qb := NodeFs.canon (cwd ext) wavPath in
  let qc := NodeFs.canon (cwd ext) tempMp3Path in
  let qt := NodeFs.canon (cwd ext) (outputPath this wavPath) in
  let u := up_to_read_back ext this audioBlob st pluginDir s in
  (Scratch.left_alone ext qa -> qa <> qt ->
   (forall p, snd u <> Rejected (WriteStreamError p)) ->
   NodeFs.is_file (disk (fst u)) qa = true) /\
  (Scratch.left_alone ext qb -> qb <> qt ->
   Scratch.produces ext tempFilePath "wav" wavPath ->
   (forall p, snd u <> Rejected (WriteStreamError p)) ->
   (forall p, snd u <> Rejected (FfmpegError p)) ->
   NodeFs.is_file (disk (fst u)) qb = true) /\
  (Scratch.left_alone ext qc -> qc <> qt ->
   Scratch.produces ext tempFilePath "mp3" tempMp3Path ->
   (forall p, snd u <> Rejected (WriteStreamError p)) ->
   (forall p, snd u <> Rejected (FfmpegError p)) ->
   NodeFs.is_file (disk (fst u)) qc = true).
Proof.
  intros tempFilePath wavPath tempMp3Path qa qb qc qt u.
  assert (Main : forall q,
             Scratch.left_alone ext q -> q <> qt ->
             (forall p, snd u <> Rejected (WriteStreamError p)) ->
             (q = qa \/
              ((forall p, snd u <> Rejected (FfmpegError p)) /\
               ((q = qb /\ Scratch.produces ext tempFilePath "wav" wavPath) \/
                (q = qc /\ Scratch.produces ext tempFilePath "mp3" tempMp3Path)))) ->
             NodeFs.is_file (disk (fst u)) q = true).
  { intros q Hq Hne Hw Hcase. subst u. revert Hw Hcase.
    unfold up_to_read_back. fold tempFilePath. unfold fs_step, readFile, lift_fs.
    monad_unfold.
    destruct (NodeFs.write_file (cwd ext) (disk s) tempFilePath audioBlob)
      as [d0 |] eqn:Ew; cbn [mbind option_bind fst snd].
    2:{ intros Hw. exfalso. exact (Hw tempFilePath eq_refl). }
    destruct (write_file_keeps ext _ _ _ _ q Ew) as [Wa _]. fold qa in Wa.
    match goal with
    | |- context [convert_both ext this ?a ?b ?s0] =>
        pose proof (convert_both_keeps q a b s0 Hq) as CK;
        pose proof (convert_both_errors a b s0 s0) as CE;
        pose proof (convert_both_made a b s0) as CM;
        destruct (convert_both ext this a b s0) as [sc [[[mp3 wav] | ec] |]]
    end; cbn [fst snd disk set_disk] in CK, CE |- *; [| | destruct CE].
    2:{ intros _ [-> | [Hf _]]; [exact (CK Wa) |].
        destruct CE as [p ->]. exfalso. exact (Hf p eq_refl). }
    destruct (CM sc mp3 wav eq_refl) as (-> & -> & Mb & Mc).
    fold wavPath tempMp3Path qb qc in Mb, Mc.
    assert (Kc : (q = qa \/
                  (q = qb /\ Scratch.produces ext tempFilePath "wav" wavPath) \/
                  (q = qc /\ Scratch.produces ext tempFilePath "mp3" tempMp3Path)) ->
                 NodeFs.is_file (disk sc) q = true).
    { intros [-> | [[-> Hp] | [-> Hp]]]; [exact (CK Wa) | exact (Mb Hp) |
                                           exact (Mc Hp Hq)]. }
    fold wavPath tempMp3Path.
    match goal with
    | |- context [save_mp3 ext st pluginDir ?f ?m ?s0] =>
        pose proof (save_mp3_keeps ext q st pluginDir f m s0) as SK;
        destruct (save_mp3 ext st pluginDir f m s0) as [ss [[[] | es] |]]
    end; cbn [fst snd] in SK |- *.
    2,3: intros _ Hc; apply SK, Kc; tauto.
    pose proof (runTranscription_keeps ext this q Hq wavPath st ss Hne) as RK.
    destruct (runTranscription ext this wavPath st ss) as [sr [[text | er] |]];
      cbn [fst snd] in RK |- *.
    2,3: intros _ Hc; apply RK, SK, Kc; tauto.
    destruct (NodeFs.read_file (cwd ext) (disk sr) tempMp3Path); cbn [fst snd];
      intros _ Hc; apply RK, SK, Kc; tauto. }
  split; [| split].
  - intros Hq Hne Hw. apply (Main qa Hq Hne Hw). left. reflexivity.
  - intros Hq Hne Hp Hw Hf. apply (Main qb Hq Hne Hw). right. split; [exact Hf |].
    left. split; [reflexivity | exact Hp].
  - intros Hq Hne Hp Hw Hf. apply (Main qc Hq Hne Hw). right. split; [exact Hf |].
    right. split; [reflexivity | exact Hp].
Qed.

End KeptByTheRun.

Ltac relay H :=
  let p := fresh "p" in
  let E := fresh "E" in
  intros p E; first [discriminate E | apply (H p); congruence].

(** C8 (as amended).  When [processAudioBlob] gets as far as reading the mp3
    back (the recognizer has produced its result), it resolves with exactly
    that transcription and those mp3 bytes, whatever the deletion of the
    temporary files does: a failing deletion is logged and changes nothing in
    the result; and when the recording, the wav and the temporary mp3 are on
    disk under three different paths, all three are gone afterwards.  When a
    step up to the read-back fails, the operation rejects with that error,
    and when the recognizer is never heard of again it stays pending; either
    way no temporary file is deleted.  The disk stays as the last step left
    it, and of the files the external programs leave alone, the recording is
    still on disk once it was written, and the wav and the temporary mp3 are
    still on disk once both conversions ended. *)
Theorem temporary_files_cleanup
    (ext : World.externals) (this : AudioProcessor.processor)
    (audioBlob : string) (st : AudioProcessor.settings) (pluginDir : string)
    (s : World.state) :
  let r := AudioProcessor.processAudioBlob ext this audioBlob st pluginDir s in
  match AudioProcessor.up_to_read_back ext this audioBlob st pluginDir s with
  | (s1, World.Settled
           (World.Resolved (tempFilePath, wavPath, tempMp3Path, transcription, mp3Buffer))) =>
      let qa := NodeFs.canon (World.cwd ext) tempFilePath in
      let qb := NodeFs.canon (World.cwd ext) wavPath in
      let qc := NodeFs.canon (World.cwd ext) tempMp3Path in
      snd r = World.Resolved (transcription, mp3Buffer) /\
      (World.console (fst r) = World.console s1 \/
       exists p, World.console (fst r)
                 = (World.console s1
                    ++ [World.TempFileDeleteError (World.UnlinkError p)])%list) /\
      (qa <> qb -> qa <> qc -> qb <> qc ->
       NodeFs.is_file (World.disk s1) qa = true ->
       NodeFs.is_file (World.disk s1) qb = true ->
       NodeFs.is_file (World.disk s1) qc = true ->
       NodeFs.is_file (World.disk (fst r)) qa = false /\
       NodeFs.is_file (World.disk (fst r)) qb = false /\
       NodeFs.is_file (World.disk (fst r)) qc = false /\
       World.console (fst r) = World.console s1)
  | (s1, World.Settled (World.Rejected e)) =>
      snd r = World.Rejected e /\
      World.disk (fst r) = World.disk s1 /\
      World.console (fst r) = (World.console s1 ++ [World.AudioProcessingFailed e])%list
  | (s1, World.Pending) =>
      snd r = World.Pending /\ fst r = s1
  end /\
  let recording :=
    NodePath.join [AudioProcessor.tempDir this;
                   AudioProcessor.recording_name ext +:+ ".webm"] in
  let wav := AudioProcessor.wav_path recording in
  let mp3 := AudioProcessor.mp3_path this (AudioProcessor.recording_name ext) in
  let text := NodeFs.canon (World.cwd ext) (AudioProcessor.outputPath this wav) in
  let kept path :=
    Scratch.left_alone ext (NodeFs.canon (World.cwd ext) path) /\
    NodeFs.canon (World.cwd ext) path <> text /\
    forall p, snd r <> World.Rejected (World.WriteStreamError p) in
  let converted := forall p, snd r <> World.Rejected (World.FfmpegError p) in
  ((forall result, snd r <> World.Resolved result) ->
   (kept recording ->
    NodeFs.is_file (World.disk (fst r)) (NodeFs.canon (World.cwd ext) recording) = true) /\
   (kept wav -> converted -> Scratch.produces ext recording "wav" wav ->
    NodeFs.is_file (World.disk (fst r)) (NodeFs.canon (World.cwd ext) wav) = true) /\
   (kept mp3 -> converted -> Scratch.produces ext recording "mp3" mp3 ->
    NodeFs.is_file (World.disk (fst r)) (NodeFs.canon (World.cwd ext) mp3) = true)).
Proof.
  intros r.
  pose proof (up_to_read_back_kept ext this audioBlob st pluginDir s) as K.
  cbv zeta in K. subst r. unfold AudioProcessor.processAudioBlob.
  unfold AudioProcessor.console_error. monad_unfold.
  destruct (AudioProcessor.up_to_read_back ext this audioBlob st pluginDir s)
    as [s1 [[[[[[a b] c] t] m] | e] |]].
  - pose proof (cleanup_outcome ext a b c s1) as [E L].
    pose proof (cleanup_deletes_all ext a b c s1) as D. cbv zeta in D.
    destruct (AudioProcessor.cleanup ext a b c s1) as [s2 o].
    simpl in E, L, D. subst o. simpl.
    split; [split; [reflexivity | split; [exact L | exact D]] |].
    intros Hn. exfalso. exact (Hn (t, m) eq_refl).
  - cbn [fst snd] in K |- *. split; [repeat split |].
    destruct K as (Ka & Kb & Kc). intros _. cbn [World.disk World.add_console].
    split; [| split].
    + intros (Hq & Hne & Hw). apply (Ka Hq Hne); relay Hw.
    + intros (Hq & Hne & Hw) Hf Hp. apply (Kb Hq Hne Hp); [relay Hw | relay Hf].
    + intros (Hq & Hne & Hw) Hf Hp. apply (Kc Hq Hne Hp); [relay Hw | relay Hf].
  - cbn [fst snd] in K |- *. split; [repeat split |].
    destruct K as (Ka & Kb & Kc). intros _. split; [| split].
    + intros (Hq & Hne & Hw). apply (Ka Hq Hne); relay Hw.
    + intros (Hq & Hne & Hw) Hf Hp. apply (Kb Hq Hne Hp); [relay Hw | relay Hf].
    + intros (Hq & Hne & Hw) Hf Hp. apply (Kc Hq Hne Hp); [relay Hw | relay Hf].
Qed.

(** The example machine's ffmpeg leaves every file alone and writes its
    output; a recognizer that loses the temporary mp3 leaves the other files
    alone. *)
Lemma example_machine_leaves_alone (q : string) :
  q <> Example.mp3_file ->
  Scratch.left_alone (Example.machine Example.recognizer_mp3_lost) q.
Proof.
  intros Hne. split.
  - intros input format output d H.
    change (NodeFs.is_file
              (World.Fs (<[output := format]> (World.files d)) (World.dirs d)) q = true).
    apply is_file_insert. exact H.
  - intros python args d H.
    change (NodeFs.is_file
              (World.Fs (<[Example.txt_file := "  hello world  "]>
                           (delete Example.mp3_file (World.files d)))
                 (World.dirs d)) q = true).
    pose proof (is_file_insert
                  (World.Fs (delete Example.mp3_file (World.files d)) (World.dirs d))
                  Example.txt_file "  hello world  " q) as I.
    cbn [World.files World.dirs] in I. apply I.
    rewrite is_file_delete_other by (intros E; apply Hne; symmetry; exact E).
    exact H.
Qed.

Lemma temporary_files_cleanup_witness :
  (let r := AudioProcessor.processAudioBlob (Example.machine Example.recognizer_ok)
              Example.this "webm" Example.settings_en_small "/vault"
              (Example.start Example.installed) in
   snd r = World.Resolved ("hello world", "mp3") /\
   NodeFs.is_file (World.disk (fst r)) Example.raw_path = false /\
   NodeFs.is_file (World.disk (fst r)) Example.wav_file = false /\
   NodeFs.is_file (World.disk (fst r)) Example.mp3_file = false /\
   World.console (fst r) = []) /\
  (let r := AudioProcessor.processAudioBlob (Example.machine Example.recognizer_mp3_lost)
              Example.this "webm" Example.settings_en_small "/vault"
              (Example.start Example.installed) in
   snd r = World.Rejected (World.ReadFileError Example.mp3_file) /\
   NodeFs.is_file (World.disk (fst r)) Example.raw_path = true /\
   NodeFs.is_file (World.disk (fst r)) Example.wav_file = true).
Proof.
  split.
  - intros r.
    pose proof (temporary_files_cleanup (Example.machine Example.recognizer_ok)
                  Example.this "webm" Example.settings_en_small "/vault"
                  (Example.start Example.installed)) as H.
    cbv zeta in H. destruct H as [H _]. fold r in H.
    set (u := AudioProcessor.up_to_read_back (Example.machine Example.recognizer_ok)
                Example.this "webm" Example.settings_en_small "/vault"
                (Example.start Example.installed)) in H.
    assert (E : u = (fst u, World.Settled
                              (World.Resolved (Example.raw_path, Example.wav_file,
                                               Example.mp3_file, "hello world", "mp3"))))
      by (vm_compute; reflexivity).
    rewrite E in H. cbv beta iota in H.
    destruct H as (R & _ & D).
    assert (C : World.console (fst u) = []) by (vm_compute; reflexivity).
    destruct D as (Da & Db & Dc & L).
    1-3: vm_compute; discriminate.
    1-3: vm_compute; reflexivity.
    rewrite C in L.
    exact (conj R (conj Da (conj Db (conj Dc L)))).
  - intros r.
    assert (Hr : snd r = World.Rejected (World.ReadFileError Example.mp3_file))
      by (vm_compute; reflexivity).
    split; [exact Hr |].
    pose proof (temporary_files_cleanup
                  (Example.machine Example.recognizer_mp3_lost)
                  Example.this "webm" Example.settings_en_small "/vault"
                  (Example.start Example.installed)) as H.
    cbv zeta in H. destruct H as [_ H]. fold r in H.
    assert (Hn : forall result, snd r <> World.Resolved result)
      by (intros result; rewrite Hr; discriminate).
    assert (Hw : forall p, snd r <> World.Rejected (World.WriteStreamError p))
      by (intros p; rewrite Hr; discriminate).
    assert (Hf : forall p, snd r <> World.Rejected (World.FfmpegError p))
      by (intros p; rewrite Hr; discriminate).
    destruct (H Hn) as (Ka & Kb & _). split.
    + apply Ka. split; [| split; [| exact Hw]].
      * apply example_machine_leaves_alone. vm_compute. discriminate.
      * vm_compute. discriminate.
    + apply Kb; [split; [| split; [| exact Hw]] | exact Hf |].
      * apply example_machine_leaves_alone. vm_compute. discriminate.
      * vm_compute. discriminate.
      * intros d _.
        change (NodeFs.is_file
                  (World.Fs (<[Example.wav_file := "wav"]> (World.files d))
                     (World.dirs d)) Example.wav_file = true).
        apply is_file_inserted.
Defined.

(** C8 (as stated) fails on the failure path after the recognizer produced
    its result: when the mp3 cannot be read back, the operation rejects and
    the recording and the wav file stay on disk. *)
Lemma read_back_failure_leaves_temporary_files :
  let r := AudioProcessor.processAudioBlob (Example.machine Example.recognizer_mp3_lost)
             Example.this "webm" Example.settings_en_small "/vault"
             (Example.start Example.installed) in
  In World.TranscriptionComplete (World.progress (fst r)) /\
  snd r = World.Rejected (World.ReadFileError Example.mp3_file) /\
  NodeFs.is_file (World.disk (fst r)) Example.raw_path = true /\
  NodeFs.is_file (World.disk (fst r)) Example.wav_file = true.
Proof.
  vm_compute. repeat split. do 6 right. left. reflexivity.
Qed.

(** A run that succeeds while the first deletion fails: the failure is
    logged, the result is the transcription and the mp3 bytes, and the wav
    and the temporary mp3 stay on disk. *)
Example failed_deletion_keeps_result :
  let r := AudioProcessor.processAudioBlob (Example.machine Example.recognizer_raw_lost)
             Example.this "webm" Example.settings_en_small "/vault"
             (Example.start Example.installed) in
  snd r = World.Resolved ("hello world", "mp3") /\
  World.console (fst r)
  = [World.TempFileDeleteError (World.UnlinkError Example.raw_path)] /\
  NodeFs.is_file (World.disk (fst r)) Example.wav_file = true /\
  NodeFs.is_file (World.disk (fst r)) Example.mp3_file = true.
Proof.
  vm_compute. repeat split.
Qed.

(** ** Cancellation *)

Section Cancel.
Import World AudioProcessor.
Variable ext : externals.

(** [cancelProcessing] signals the one ffmpeg command stored in
    [currentFfmpegCommand], and no other. *)
Lemma cancelProcessing_signals_stored (p : process) (s : state) :
  currentFfmpegCommand s = Some p ->
  currentChildProcess s = None ->
  kill_throws ext p = false ->
  cancelProcessing ext s = (set_ffmpeg None (add_signalled p s), Settled (Resolved tt)).
Proof.
  intros Hf Hc Hk. unfold cancelProcessing, kill. monad_unfold.
  rewrite Hf, Hk. cbn. rewrite Hc. reflexivity.
Qed.

End Cancel.

(** C1 fails.  With both conversions started, as [Promise.all] starts them
    (mp3 first, then wav), [currentFfmpegCommand] holds the wav command
    alone; [cancelProcessing] then signals the wav conversion only, and the
    mp3 conversion keeps running, not signalled. *)
Theorem cancel_during_transcoding_signals_wav_only
    (ext : World.externals) (mp3 wav : string) (s : World.state) :
  World.currentChildProcess s = None ->
  World.kill_throws ext (World.Ffmpeg wav) = false ->
  mp3 <> wav ->
  let started := fst (AudioProcessor.conversion_start wav
                        (fst (AudioProcessor.conversion_start mp3 s))) in
  let cancelled := fst (AudioProcessor.cancelProcessing ext started) in
  World.signalled cancelled = (World.signalled s ++ [World.Ffmpeg wav])%list /\
  (In (World.Ffmpeg mp3) (World.signalled cancelled) ->
   In (World.Ffmpeg mp3) (World.signalled s)) /\
  World.currentFfmpegCommand cancelled = None.
Proof.
  intros Hc Hk Hne started cancelled.
  assert (E : AudioProcessor.cancelProcessing ext started
              = (World.set_ffmpeg None (World.add_signalled (World.Ffmpeg wav) started),
                 World.Settled (World.Resolved tt))).
  { apply cancelProcessing_signals_stored; [reflexivity | exact Hc | exact Hk]. }
  subst cancelled. rewrite E. cbn. split; [reflexivity |]. split; [| reflexivity].
  intros Hin. apply in_app_or in Hin as [Hin | [Hin | []]]; [exact Hin |].
  exfalso. apply Hne. injection Hin as ->. reflexivity.
Qed.

Lemma cancel_during_transcoding_signals_wav_only_witness :
  let s := Example.start Example.installed in
  let started := fst (AudioProcessor.conversion_start Example.wav_file
                        (fst (AudioProcessor.conversion_start Example.mp3_file s))) in
  let cancelled := fst (AudioProcessor.cancelProcessing
                          (Example.machine Example.recognizer_ok) started) in
  World.signalled cancelled = [World.Ffmpeg Example.wav_file] /\
  (In (World.Ffmpeg Example.mp3_file) (World.signalled cancelled) ->
   In (World.Ffmpeg Example.mp3_file) []) /\
  World.currentFfmpegCommand cancelled = None.
Proof.
  apply (cancel_during_transcoding_signals_wav_only
           (Example.machine Example.recognizer_ok) Example.mp3_file Example.wav_file
           (Example.start Example.installed)).
  - reflexivity.
  - reflexivity.
  - vm_compute. discriminate.
Defined.

Lemma cancel_with_nothing_stored (ext : World.externals) (s : World.state) :
  World.currentFfmpegCommand s = None ->
  World.currentChildProcess s = None ->
  AudioProcessor.cancelProcessing ext s = (s, World.Settled (World.Resolved tt)).
Proof.
  intros Hf Hc. unfold AudioProcessor.cancelProcessing. monad_unfold.
  rewrite Hf, Hc. reflexivity.
Qed.

(** Once the wav conversion has ended, nothing is stored any more, and a
    cancellation signals no process at all, although the mp3 conversion may
    still be running. *)
Example cancel_after_wav_end_signals_nothing :
  let s := Example.start Example.installed in
  let started := fst (AudioProcessor.conversion_start Example.wav_file
                        (fst (AudioProcessor.conversion_start Example.mp3_file s))) in
  let wav_ended := World.set_ffmpeg None started in
  World.signalled
    (fst (AudioProcessor.cancelProcessing (Example.machine Example.recognizer_ok)
            wav_ended)) = [].
Proof. reflexivity. Qed.

(** ** The audio directory *)

(** A relative audio directory is joined to the resolved parent of the
    directory the caller passes. *)
Lemma absoluteAudioDir_relative
    (ext : World.externals) (st : AudioProcessor.settings) (pluginDir : string) :
  NodePath.isAbsolute (AudioProcessor.audioDir st) = false ->
  AudioProcessor.absoluteAudioDir ext st pluginDir
  = NodePath.join [NodePath.resolve (World.cwd ext) (NodePath.dirname pluginDir);
                   AudioProcessor.audioDir st].
Proof.
  intros H. unfold AudioProcessor.absoluteAudioDir, AudioProcessor.vaultBasePath.
  rewrite H. reflexivity.
Qed.

(** When the archive copy succeeds, the directory was made first, on the
    disk as it was, and the copy ran on the disk with the directory: the
    parent directory of the copied file was there, and the copy holds the
    bytes of the temporary mp3. *)
Lemma save_mp3_makes_directory_first
    (ext : World.externals) (st : AudioProcessor.settings)
    (pluginDir filename tempMp3Path : string) (s s' : World.state) :
  AudioProcessor.save_mp3 ext st pluginDir filename tempMp3Path s
  = (s', World.Settled (World.Resolved tt)) ->
  let dir := AudioProcessor.absoluteAudioDir ext st pluginDir in
  let final := NodePath.join [dir; filename +:+ ".mp3"] in
  exists d1,
    NodeFs.mkdir_p (World.cwd ext) (World.disk s) dir = Some d1 /\
    NodeFs.copy_file (World.cwd ext) d1 tempMp3Path final = Some (World.disk s') /\
    NodeFs.is_dir d1 (NodePath.dirname (NodeFs.canon (World.cwd ext) final)) = true /\
    NodeFs.read_file (World.cwd ext) (World.disk s') final
    = NodeFs.read_file (World.cwd ext) (World.disk s) tempMp3Path.
Proof.
  intros H dir final.
  unfold AudioProcessor.save_mp3, AudioProcessor.fs_step, AudioProcessor.lift_fs,
    AudioProcessor.existsSync, AudioProcessor.onProgressUpdate,
    AudioProcessor.onError, AudioProcessor.console_error in H.
  monad_unfold. fold dir in H. fold final in H.
  destruct (String.eqb (AudioProcessor.vaultBasePath ext pluginDir) "");
    [discriminate H |].
  destruct (NodeFs.mkdir_p (World.cwd ext) (World.disk s) dir) as [d1 |] eqn:Emk;
    cbn in H; [| discriminate H].
  destruct (NodeFs.existsSync (World.cwd ext) d1 tempMp3Path); cbn in H;
    [| discriminate H].
  destruct (NodeFs.copy_file (World.cwd ext) d1 tempMp3Path final) as [d2 |] eqn:Ecp;
    cbn in H; [| discriminate H].
  destruct (NodeFs.existsSync (World.cwd ext) d2 final); cbn in H;
    [| discriminate H].
  injection H as <-. cbn. exists d1. split; [reflexivity |]. split; [exact Ecp |].
  unfold NodeFs.copy_file, NodeFs.write_file in Ecp.
  destruct (NodeFs.read_file (World.cwd ext) d1 tempMp3Path) as [data |] eqn:Erd;
    cbn in Ecp; [| discriminate Ecp].
  destruct (NodeFs.is_dir d1 (NodePath.dirname (NodeFs.canon (World.cwd ext) final)))
    eqn:Edir; cbn in Ecp; [| discriminate Ecp].
  destruct (negb (NodeFs.is_dir d1 (NodeFs.canon (World.cwd ext) final)));
    [| discriminate Ecp].
  injection Ecp as <-. split; [reflexivity |].
  unfold NodeFs.read_file. cbn. rewrite lookup_insert_eq.
  unfold NodeFs.read_file in Erd. rewrite <- Erd.
  unfold NodeFs.mkdir_p in Emk.
  destruct (existsb (NodeFs.is_file (World.disk s))
              (NodeFs.ancestors (NodeFs.canon (World.cwd ext) dir)));
    [discriminate Emk |].
  injection Emk as <-. reflexivity.
Qed.

(** C2 fails.  [processAudio] passes the base path of the vault as
    [pluginDir], and [processAudioBlob] resolves a relative audio directory
    against the parent of that path: with the vault at [/vault], the audio
    directory [04_assets/audio] becomes [/04_assets/audio], not
    [/vault/04_assets/audio]; with the vault at [/Users/me/vault] it becomes
    [/Users/me/04_assets/audio]. *)
Theorem archive_dir_resolved_against_parent
    (ext : World.externals) (language modelSize : string) :
  let st := AudioProcessor.Settings language modelSize "04_assets/audio" in
  WhisperPlugin.archive_dir ext "/vault" st = "/04_assets/audio" /\
  WhisperPlugin.archive_dir ext "/Users/me/vault" st = "/Users/me/04_assets/audio" /\
  NodePath.join ["/vault"; "04_assets/audio"] = "/vault/04_assets/audio".
Proof.
  repeat split; vm_compute; reflexivity.
Qed.

(** In a whole run with the vault at [/vault], the directory is created
    (it was missing) before the mp3 is copied into it; it is
    [/04_assets/audio], and nothing is created under the vault. *)
Example archive_copy_in_example_run :
  let s := Example.start Example.installed in
  let r := WhisperPlugin.processAudio (Example.machine Example.recognizer_ok)
             Example.this "/vault" Example.settings_en_small "webm" s in
  NodeFs.is_dir (World.disk s) "/04_assets/audio" = false /\
  NodeFs.is_dir (World.disk (fst r)) "/04_assets/audio" = true /\
  NodeFs.read_file "/" (World.disk (fst r))
    "/04_assets/audio/Recording 2025-01-02T0304.mp3" = Some "mp3" /\
  NodeFs.is_dir (World.disk (fst r)) "/vault/04_assets/audio" = false /\
  NodeFs.existsSync "/" (World.disk (fst r))
    "/vault/04_assets/audio/Recording 2025-01-02T0304.mp3" = false.
Proof.
  vm_compute. repeat split.
Qed.

(** ** The recognizer command line *)

Section Command.
Import JsString AudioProcessor.

Lemma startsWith_append (p s : string) : startsWith p (p +:+ s) = true.
Proof.
  induction p as [| c p IH]; [reflexivity |].
  cbn [String.app startsWith]. change (String c p +:+ s) with (String c (p +:+ s)).
  cbn [startsWith]. rewrite Ascii.eqb_refl. exact IH.
Qed.

Lemma includes_append_left (p a s : string) :
  includes p s = true -> includes p (a +:+ s) = true.
Proof.
  intros H. induction a as [| c a IH]; [exact H |].
  change (String c a +:+ s) with (String c (a +:+ s)).
  cbn [includes]. rewrite IH. apply orb_true_r.
Qed.

Lemma includes_infix (p a b : string) : includes p (a +:+ p +:+ b) = true.
Proof.
  apply includes_append_left.
  destruct (p +:+ b) eqn:E; cbn [includes];
    rewrite <- E, startsWith_append; reflexivity.
Qed.

(** Both versions pass [--language] followed by the language of the
    settings, in fifth and sixth place. *)
Lemma command_language (this : processor) (audioPath : string) (st : settings) :
  exists model rest legacy_model legacy_rest,
    command this audioPath st
    = mlxWhisperPath this :: audioPath :: "--model" :: model
        :: "--language" :: language st :: rest /\
    AudioProcessorLegacy.command this audioPath st
    = mlxWhisperPath this :: audioPath :: "--model" :: legacy_model
        :: "--language" :: language st :: legacy_rest.
Proof. repeat eexists. Qed.

(** The older version builds the model id from the model size. *)
Lemma legacy_command_model (this : processor) (audioPath : string) (st : settings) :
  exists model,
    nth_error (AudioProcessorLegacy.command this audioPath st) 3 = Some model /\
    includes (modelSize st) model = true.
Proof.
  eexists. split; [reflexivity |]. apply includes_infix.
Qed.

End Command.

(** C3 fails on the model id.  For the request with language [en] and model
    size [small], the command line of [runTranscription] names the model
    [mlx-community/whisper-large-v3-turbo], which does not contain [small];
    the flag [--language en] is there. *)
Theorem command_ignores_model_size
    (this : AudioProcessor.processor) (audioPath audioDir : string) :
  AudioProcessor.command this audioPath (AudioProcessor.Settings "en" "small" audioDir)
  = [ AudioProcessor.mlxWhisperPath this; audioPath;
      "--model"; "mlx-community/whisper-large-v3-turbo";
      "--language"; "en";
      "--output-format"; "txt";
      "--output-dir"; AudioProcessor.tempDir this;
      "--condition-on-previous-text"; "False" ] /\
  JsString.includes "small" "mlx-community/whisper-large-v3-turbo" = false.
Proof.
  split; reflexivity.
Qed.

(** * Further properties *)

(** ** Line assembly in the stdout handler *)

Section Lines.
Import JsString Progress.

Lemma append_nil_r (s : string) : s +:+ "" = s.
Proof.
induction s as [| c s IH]; [reflexivity |].
change (String c s +:+ "") with (String c (s +:+ "")). rewrite IH. reflexivity.
Qed.

Lemma append_assoc (a b c : string) : (a +:+ b) +:+ c = a +:+ b +:+ c.
Proof.
induction a as [| x a IH]; [reflexivity |].
change (String x (a +:+ b) +:+ c = String x (a +:+ b +:+ c)).
change (String x ((a +:+ b) +:+ c) = String x (a +:+ b +:+ c)).
rewrite IH. reflexivity.
Qed.

Lemma split_lines_cons (s : string) : exists l ls, split_lines s = l :: ls.
Proof.
induction s as [| c s (l & ls & E)]; [eexists _, _; reflexivity |].
cbn [split_lines]. rewrite E. destruct (Ascii.eqb c "010"); eexists _, _; reflexivity.
Qed.

(** Splitting a text that continues: the complete lines of the first part,
    then the lines of its unfinished last line followed by the rest. *)
Lemma split_lines_append (s t : string) :
  split_lines (s +:+ t)
  = (removelast (split_lines s) ++ split_lines (List.last (split_lines s) "" +:+ t))%list.
Proof.
induction s as [| c s IH]; [reflexivity |].
change (String c s +:+ t) with (String c (s +:+ t)).
cbn [split_lines]. rewrite IH.
destruct (split_lines_cons s) as (l & ls & E). rewrite E.
destruct (Ascii.eqb c "010") eqn:Ec.
- reflexivity.
- destruct ls as [| l2 ls2].
  + cbn [removelast List.last app].
    change (String c l +:+ t) with (String c (l +:+ t)).
    cbn [split_lines]. rewrite Ec. reflexivity.
  + reflexivity.
Qed.

End Lines.

Section Buffering.
Import JsString Progress Stream.

Lemma on_end_time_set_buffer (total : option Q) (c : closure) (b e : string) :
  on_end_time total (set_buffer b c) e
  = (set_buffer b (fst (on_end_time total c e)), snd (on_end_time total c e)).
Proof.
unfold on_end_time, set_buffer. cbn [transcription lastProgressUpdate buffer].
destruct (applies total (parseTimestamp e) (lastProgressUpdate c)); reflexivity.
Qed.

Lemma on_line_set_buffer (total : option Q) (c : closure) (b line : string) :
  on_line total (set_buffer b c) line
  = (set_buffer b (fst (on_line total c line)), snd (on_line total c line)).
Proof.
unfold on_line. cbn [set_buffer transcription lastProgressUpdate buffer].
destruct (Regex.range_match line) as [g |]; [| reflexivity].
apply (on_end_time_set_buffer total
         (Closure (transcription c +:+ line +:+ String "010" "")
                  (lastProgressUpdate c) (buffer c)) b).
Qed.

Lemma on_lines_set_buffer (total : option Q) (lines : list string) (c : closure) (b : string) :
  on_lines total (set_buffer b c) lines
  = (set_buffer b (fst (on_lines total c lines)), snd (on_lines total c lines)).
Proof.
revert c. induction lines as [| line rest IH]; intros c; [reflexivity |].
cbn [on_lines]. rewrite on_line_set_buffer.
destruct (on_line total c line) as [c1 out1]. cbn [fst snd].
rewrite IH. destruct (on_lines total c1 rest) as [c2 out2]. reflexivity.
Qed.

Lemma on_lines_buffer (total : option Q) (lines : list string) (c : closure) :
  buffer (fst (on_lines total c lines)) = buffer c.
Proof.
revert c. induction lines as [| line rest IH]; intros c; [reflexivity |].
cbn [on_lines].
assert (H : buffer (fst (on_line total c line)) = buffer c).
{ unfold on_line, on_end_time. destruct (Regex.range_match line); [| reflexivity].
  match goal with |- context [if ?b then _ else _] => destruct b end; reflexivity. }
destruct (on_line total c line) as [c1 out1]. cbn [fst] in H.
specialize (IH c1). destruct (on_lines total c1 rest) as [c2 out2].
cbn [fst] in IH |- *. congruence.
Qed.

Lemma on_lines_app (total : option Q) (l1 l2 : list string) (c : closure) :
  on_lines total c (l1 ++ l2)
  = (fst (on_lines total (fst (on_lines total c l1)) l2),
     (snd (on_lines total c l1) ++ snd (on_lines total (fst (on_lines total c l1)) l2))%list).
Proof.
revert c. induction l1 as [| line rest IH]; intros c.
- cbn. destruct (on_lines total c l2); reflexivity.
- cbn [app on_lines]. destruct (on_line total c line) as [c1 out1].
  rewrite IH. destruct (on_lines total c1 rest) as [c2 out2]. cbn [fst snd].
  destruct (on_lines total c2 l2) as [c3 out3]. cbn [fst snd].
  rewrite app_assoc. reflexivity.
Qed.

Lemma set_buffer_same (c : closure) : set_buffer (buffer c) c = c.
Proof. destruct c; reflexivity. Qed.

Lemma removelast_app_cons {A} (l1 : list A) (x : A) (l2 : list A) :
  removelast (l1 ++ x :: l2) = (l1 ++ removelast (x :: l2))%list.
Proof. apply removelast_app. discriminate. Qed.

Lemma last_app_cons {A} (l1 : list A) (x : A) (l2 : list A) (d : A) :
  List.last (l1 ++ x :: l2) d = List.last (x :: l2) d.
Proof.
induction l1 as [| y l1 IH]; [reflexivity |].
rewrite <- IH. change ((y :: l1) ++ x :: l2)%list with (y :: (l1 ++ x :: l2))%list.
destruct (l1 ++ x :: l2)%list eqn:E; [destruct l1; discriminate E | reflexivity].
Qed.

(** Two reads handled one after the other leave the handler where a single
    read of the two texts together leaves it, with the same progress
    messages. *)
Lemma on_stdout_data_merge (total : option Q) (c : closure) (a b : string) :
  on_stdout total c [a; b] = on_stdout total c [a +:+ b].
Proof.
cbn [on_stdout]. unfold on_stdout_data at 3.
rewrite <- append_assoc, split_lines_append.
set (lines1 := split_lines (buffer c +:+ a)).
unfold on_stdout_data at 1. fold lines1.
change (Closure (transcription c) (lastProgressUpdate c) (List.last lines1 ""))
  with (set_buffer (List.last lines1 "") c).
rewrite on_lines_set_buffer.
set (r1 := on_lines total c (removelast lines1)).
cbn [fst snd].
unfold on_stdout_data. cbn [set_buffer buffer transcription lastProgressUpdate].
set (lines2 := split_lines (List.last lines1 "" +:+ b)).
destruct (split_lines_cons (List.last lines1 "" +:+ b)) as (l & ls & E).
fold lines2 in E. rewrite E.
rewrite removelast_app_cons, last_app_cons.
change (Closure (transcription c) (lastProgressUpdate c) (List.last (l :: ls) ""))
  with (set_buffer (List.last (l :: ls) "") c).
rewrite on_lines_app, on_lines_set_buffer. fold r1. cbn [fst snd].
change (Closure (transcription r1.1) (lastProgressUpdate r1.1) (List.last (l :: ls) ""))
  with (set_buffer (List.last (l :: ls) "") r1.1).
destruct (on_lines total (set_buffer (List.last (l :: ls) "") r1.1) (removelast (l :: ls)))
  as [c2 out2].
cbn [fst snd]. rewrite !app_nil_r. reflexivity.
Qed.

End Buffering.

Section StreamFacts.
Import JsString Progress Stream.

Lemma on_stdout_app (total : option Q) (l1 l2 : list string) (c : closure) :
  on_stdout total c (l1 ++ l2)
  = (fst (on_stdout total (fst (on_stdout total c l1)) l2),
     (snd (on_stdout total c l1)
      ++ snd (on_stdout total (fst (on_stdout total c l1)) l2))%list).
Proof.
revert c. induction l1 as [| output rest IH]; intros c.
- cbn. destruct (on_stdout total c l2); reflexivity.
- cbn [app on_stdout]. destruct (on_stdout_data total c output) as [c1 out1].
  rewrite IH. destruct (on_stdout total c1 rest) as [c2 out2]. cbn [fst snd].
  destruct (on_stdout total c2 l2) as [c3 out3]. cbn [fst snd].
  rewrite app_assoc. reflexivity.
Qed.

Lemma on_line_transcription (total : option Q) (c : closure) (line : string) :
  transcription (fst (on_line total c line))
  = transcription c +:+ line +:+ String "010" "".
Proof.
unfold on_line, on_end_time. destruct (Regex.range_match line); [| reflexivity].
match goal with |- context [if ?b then _ else _] => destruct b end; reflexivity.
Qed.

Lemma on_lines_transcription (total : option Q) (lines : list string) (c : closure) :
  transcription (fst (on_lines total c lines)) = transcription c +:+ lines_text lines.
Proof.
revert c. induction lines as [| line rest IH]; intros c.
- cbn. rewrite append_nil_r. reflexivity.
- cbn [on_lines lines_text]. pose proof (on_line_transcription total c line) as H.
  destruct (on_line total c line) as [c1 out1]. cbn [fst] in H.
  specialize (IH c1). destruct (on_lines total c1 rest) as [c2 out2].
  cbn [fst] in IH |- *. rewrite IH, H, !append_assoc. reflexivity.
Qed.

(** The lines of a text, each with its line feed, and the unfinished last
    line make up the text. *)
Lemma lines_text_split (s : string) :
  lines_text (removelast (split_lines s)) +:+ List.last (split_lines s) "" = s.
Proof.
induction s as [| c s IH]; [reflexivity |].
cbn [split_lines]. destruct (split_lines_cons s) as (l & ls & E). rewrite E in IH |- *.
destruct (Ascii.eqb c "010") eqn:Ec.
- apply Ascii.eqb_eq in Ec. subst c.
  change (removelast ("" :: l :: ls)) with ("" :: removelast (l :: ls)).
  change (List.last ("" :: l :: ls) "") with (List.last (l :: ls) "").
  cbn [lines_text].
  change ("" +:+ String "010" "" +:+ lines_text (removelast (l :: ls)))
    with (String "010" (lines_text (removelast (l :: ls)))).
  change (String "010" (lines_text (removelast (l :: ls))) +:+ List.last (l :: ls) "")
    with (String "010" (lines_text (removelast (l :: ls)) +:+ List.last (l :: ls) "")).
  rewrite IH. reflexivity.
- destruct ls as [| l2 ls2].
  + change (l = s) in IH. subst s. reflexivity.
  + change (removelast (String c l :: l2 :: ls2))
      with (String c l :: removelast (l2 :: ls2)).
    change (List.last (String c l :: l2 :: ls2) "") with (List.last (l2 :: ls2) "").
    change (removelast (l :: l2 :: ls2)) with (l :: removelast (l2 :: ls2)) in IH.
    change (List.last (l :: l2 :: ls2) "") with (List.last (l2 :: ls2) "") in IH.
    rewrite <- IH. reflexivity.
Qed.

Lemma split_lines_no_line_feed (s : string) :
  Forall (fun l => includes (String "010" "") l = false) (split_lines s).
Proof.
induction s as [| c s IH]; [repeat constructor |].
cbn [split_lines]. destruct (split_lines_cons s) as (l & ls & E). rewrite E in IH |- *.
destruct (Ascii.eqb c "010") eqn:Ec.
- constructor; [reflexivity | exact IH].
- inversion IH as [| ? ? Hl Hls]; subst. constructor; [| exact Hls].
  cbn [includes startsWith]. rewrite Ascii.eqb_sym, Ec. exact Hl.
Qed.

Lemma on_stdout_data_text (total : option Q) (c : closure) (output : string) :
  let c1 := fst (on_stdout_data total c output) in
  transcription c1 +:+ buffer c1 = transcription c +:+ buffer c +:+ output /\
  includes (String "010" "") (buffer c1) = false.
Proof.
unfold on_stdout_data.
set (lines := split_lines (buffer c +:+ output)).
change (Closure (transcription c) (lastProgressUpdate c) (List.last lines ""))
  with (set_buffer (List.last lines "") c).
cbv zeta. rewrite on_lines_transcription, on_lines_buffer.
cbn [set_buffer transcription buffer]. split.
- rewrite append_assoc. subst lines. rewrite lines_text_split. reflexivity.
- pose proof (split_lines_no_line_feed (buffer c +:+ output)) as F. fold lines in F.
  destruct (split_lines_cons (buffer c +:+ output)) as (l & ls & E). fold lines in E.
  rewrite E in F |- *. clear E.
  revert l F. induction ls as [| l2 ls IH]; intros l F.
  + inversion F; assumption.
  + inversion F; subst. apply (IH l2). assumption.
Qed.

End StreamFacts.

Lemma on_stdout_one_read
    (total : option Q) (c : Progress.closure) (output : string) (rest : list string) :
  Progress.on_stdout total c (output :: rest)
  = Progress.on_stdout total c [output +:+ Stream.text_of rest].
Proof.
revert output. induction rest as [| next rest IH]; intros output.
- cbn [Stream.text_of]. rewrite append_nil_r. reflexivity.
- change (output :: next :: rest) with ([output; next] ++ rest)%list.
  rewrite on_stdout_app, on_stdout_data_merge.
  rewrite <- on_stdout_app. cbn [app Stream.text_of].
  rewrite IH, append_assoc. reflexivity.
Qed.

Section Decoding.
Import Buffer.

Lemma list_ascii_of_append (a b : string) :
  list_ascii_of_string (a +:+ b)
  = (list_ascii_of_string a ++ list_ascii_of_string b)%list.
Proof.
induction a as [| c a IH]; [reflexivity |].
change (String c a +:+ b) with (String c (a +:+ b)).
cbn [list_ascii_of_string]. rewrite IH. reflexivity.
Qed.

Lemma ascii_only_append (a b : string) :
  ascii_only (a +:+ b) = ascii_only a && ascii_only b.
Proof. unfold ascii_only. rewrite list_ascii_of_append. apply forallb_app. Qed.

Lemma toString_Some (data text : string) :
  toString data = Some text -> text = data /\ ascii_only data = true.
Proof.
unfold toString. destruct (ascii_only data); [| discriminate].
intros [= <-]. split; reflexivity.
Qed.

(** Reads that all decode are their own texts, and their bytes put
    together decode to the texts put together. *)
Lemma toStrings_Some (reads texts : list string) :
  toStrings reads = Some texts ->
  texts = reads /\ toString (Stream.text_of reads) = Some (Stream.text_of reads).
Proof.
revert texts. induction reads as [| data rest IH]; intros texts.
- intros [= <-]. split; reflexivity.
- unfold toStrings. cbn [mapM]. intros H.
  apply bind_Some in H. destruct H as (text & Hd & H).
  apply bind_Some in H. destruct H as (texts' & Hr & H).
  injection H as <-.
  destruct (toString_Some _ _ Hd) as [-> Ha].
  destruct (IH _ Hr) as [-> Hc]. split; [reflexivity |].
  cbn [Stream.text_of]. unfold toString in Hc |- *.
  rewrite ascii_only_append, Ha.
  destruct (ascii_only (Stream.text_of rest)); [reflexivity | discriminate Hc].
Qed.

End Decoding.

(** X1.  For output made of bytes below 128, the stdout handler does not
    depend on how the recognizer's output is cut into reads: when every read
    decodes, the bytes of all the reads put together decode too, and the
    stream handled read by read leaves the same transcript, the same
    buffered partial line, the same last applied time and the same progress
    messages as all of it handled in one read. *)
Theorem chunk_boundaries_do_not_matter
    (total : option Q) (c : Progress.closure) (data : string) (rest texts : list string) :
  Buffer.toStrings (data :: rest) = Some texts ->
  exists text,
    Buffer.toString (data +:+ Stream.text_of rest) = Some text /\
    Progress.on_stdout total c texts = Progress.on_stdout total c [text].
Proof.
intros H. destruct (toStrings_Some _ _ H) as [-> Hc].
exists (data +:+ Stream.text_of rest). split; [exact Hc |].
apply on_stdout_one_read.
Qed.

Lemma chunk_boundaries_do_not_matter_witness :
  exists text,
    Buffer.toString
      ("[00:01.500 --> 00:0" +:+ Stream.text_of ["4.200] a" +:+ String "010" "b"])
    = Some text /\
    Progress.on_stdout (Some 10%Q) Progress.initial
      ["[00:01.500 --> 00:0"; "4.200] a" +:+ String "010" "b"]
    = Progress.on_stdout (Some 10%Q) Progress.initial [text].
Proof.
apply (chunk_boundaries_do_not_matter (Some 10%Q) Progress.initial
         "[00:01.500 --> 00:0" ["4.200] a" +:+ String "010" "b"]).
reflexivity.
Defined.

(** X2.  For output made of bytes below 128, nothing the recognizer writes
    is lost or reordered: when every read decodes, then after the reads the
    transcript followed by the buffered partial line is what they were
    before followed by the bytes of all the reads; and after a read, whatever
    its text, the buffer holds no line feed (a complete line never waits in
    it). *)
Theorem transcript_and_buffer_hold_the_stream
    (total : option Q) (c : Progress.closure) (output : string) :
  (forall reads texts,
      Buffer.toStrings reads = Some texts ->
      let c' := fst (Progress.on_stdout total c texts) in
      Progress.transcription c' +:+ Progress.buffer c'
      = Progress.transcription c +:+ Progress.buffer c +:+ Stream.text_of reads) /\
  JsString.includes (String "010" "")
    (Progress.buffer (fst (Progress.on_stdout_data total c output))) = false.
Proof.
split; [| apply on_stdout_data_text].
intros reads texts H. destruct (toStrings_Some _ _ H) as [-> _]. clear H.
revert c. induction reads as [| out rest IH]; intros c; cbv zeta.
- cbn. rewrite append_nil_r. reflexivity.
- cbn [Progress.on_stdout Stream.text_of].
  pose proof (on_stdout_data_text total c out) as [H _].
  destruct (Progress.on_stdout_data total c out) as [c1 out1]. cbn [fst] in H.
  specialize (IH c1). cbv zeta in IH.
  destruct (Progress.on_stdout total c1 rest) as [c2 out2]. cbn [fst] in IH |- *.
  rewrite IH, <- (append_assoc (Progress.transcription c1)), H, !append_assoc.
  reflexivity.
Qed.

(** ** The percents of a run *)

Section PercentRun.
Import Progress.
Local Open Scope Q_scope.


Lemma applies_unknown_duration (total : option Q) (t last : Q) :
  (forall d, total = Some d -> d == 0) -> applies total t last = false.
Proof.
intros H. unfold applies. destruct total as [d |]; [| reflexivity].
unfold JsNumber.truthy. rewrite (proj2 (Qeq_bool_iff d 0) (H d eq_refl)). reflexivity.
Qed.

Lemma on_lines_unknown_duration (total : option Q) (lines : list string) (c : closure) :
  (forall d, total = Some d -> d == 0) ->
  applied (snd (on_lines total c lines)) = [] /\
  lastProgressUpdate (fst (on_lines total c lines)) = lastProgressUpdate c.
Proof.
intros H. revert c. induction lines as [| line rest IH]; intros c; [split; reflexivity |].
cbn [on_lines].
assert (E : applied (snd (on_line total c line)) = [] /\
            lastProgressUpdate (fst (on_line total c line)) = lastProgressUpdate c).
{ unfold on_line, on_end_time. destruct (Regex.range_match line); [| split; reflexivity].
  rewrite applies_unknown_duration by exact H. split; reflexivity. }
destruct (on_line total c line) as [c1 out1]. cbn [fst snd] in E. destruct E as [E1 E2].
destruct (IH c1) as [I1 I2]. destruct (on_lines total c1 rest) as [c2 out2].
cbn [fst snd] in I1, I2 |- *. rewrite applied_app, E1, I1, I2, E2. split; reflexivity.
Qed.

End PercentRun.



Lemma reported_percents_in_range_witness :
  (0 < 10)%Q /\
  Forall (fun p => (0 <= p <= 100)%Z)
    (Progress.percents
       (snd (Progress.on_stdout (Some 10%Q) Progress.initial
               ["[01:00:00.000 --> 02:00:00.000] long" +:+ String "010" ""]))).
Proof.
exact (conj eq_refl
         (reported_percents_in_range 10
            ["[01:00:00.000 --> 02:00:00.000] long" +:+ String "010" ""] eq_refl)).
Defined.

(** X4.  While the total duration is unknown (the probe failed, or gave 0),
    no percent is ever reported and no time is applied: every timestamped
    line only shows the fixed "transcribing" text. *)
Theorem unknown_duration_reports_no_percent
    (total : option Q) (chunks : list string) (c : Progress.closure) :
  (forall d, total = Some d -> (d == 0)%Q) ->
  Progress.applied (snd (Progress.on_stdout total c chunks)) = [] /\
  Progress.percents (snd (Progress.on_stdout total c chunks)) = [] /\
  Progress.lastProgressUpdate (fst (Progress.on_stdout total c chunks))
  = Progress.lastProgressUpdate c.
Proof.
intros H.
assert (P : forall out, Progress.applied out = [] -> Progress.percents out = []).
{ induction out as [| [t d p |] out IH]; cbn; [reflexivity | discriminate | exact IH]. }
enough (E : Progress.applied (snd (Progress.on_stdout total c chunks)) = [] /\
            Progress.lastProgressUpdate (fst (Progress.on_stdout total c chunks))
            = Progress.lastProgressUpdate c)
  by (destruct E as [E1 E2]; repeat split; [exact E1 | apply P, E1 | exact E2]).
revert c. induction chunks as [| output rest IH]; intros c; [split; reflexivity |].
cbn [Progress.on_stdout].
assert (E : Progress.applied (snd (Progress.on_stdout_data total c output)) = [] /\
            Progress.lastProgressUpdate (fst (Progress.on_stdout_data total c output))
            = Progress.lastProgressUpdate c).
{ unfold Progress.on_stdout_data.
  exact (on_lines_unknown_duration total _
           (Progress.Closure (Progress.transcription c) (Progress.lastProgressUpdate c) _)
           H). }
destruct (Progress.on_stdout_data total c output) as [c1 out1].
cbn [fst snd] in E. destruct E as [E1 E2].
destruct (IH c1) as [I1 I2]. destruct (Progress.on_stdout total c1 rest) as [c2 out2].
cbn [fst snd] in I1, I2 |- *. rewrite applied_app, E1, I1, I2, E2. split; reflexivity.
Qed.

Lemma unknown_duration_reports_no_percent_witness :
  Progress.applied
    (snd (Progress.on_stdout None Progress.initial
            ["[00:01.500 --> 00:04.200] hi" +:+ String "010" ""])) = [] /\
  Progress.percents
    (snd (Progress.on_stdout None Progress.initial
            ["[00:01.500 --> 00:04.200] hi" +:+ String "010" ""])) = [] /\
  Progress.lastProgressUpdate
    (fst (Progress.on_stdout None Progress.initial
            ["[00:01.500 --> 00:04.200] hi" +:+ String "010" ""]))
  = Progress.lastProgressUpdate Progress.initial.
Proof.
apply (unknown_duration_reports_no_percent None
         ["[00:01.500 --> 00:04.200] hi" +:+ String "010" ""] Progress.initial).
intros d H. discriminate H.
Defined.

(** ** The runner from spawn to close *)

Section RunnerTrace.
Import World AudioProcessor.
Variable ext : externals.
Variable this : processor.

(** What the ['close'] handler leaves behind, whatever the exit code: no
    stored child, the same processes spawned and signalled, and one of three
    kinds of rejection when it does not resolve. *)
Lemma on_close_effects (audioPath : string) (code : option Z) (transcription : string)
    (s : state) :
  let r := on_close ext this audioPath code transcription s in
  currentChildProcess (fst r) = None /\
  currentFfmpegCommand (fst r) = currentFfmpegCommand s /\
  spawned (fst r) = spawned s /\
  signalled (fst r) = signalled s /\
  errors (fst r) = errors s /\
  match snd r with
  | Settled (Resolved _) => code = Some 0%Z
  | Settled (Rejected e) =>
      e = ResultFileNotFound \/ e = ResultReadFailed (outputPath this audioPath) \/
      (code <> Some 0%Z /\ e = TranscriptionFailed (errorMsg transcription))
  | Pending => False
  end.
Proof.
unfold on_close, settle, read_result, existsSync, readFile, lift_fs,
  onProgressUpdate, unlinkSync, fs_step, lift_fs, console_error.
monad_unfold. cbv zeta.
destruct (bool_decide (code = Some 0%Z)) eqn:Ec.
- apply bool_decide_eq_true_1 in Ec.
  destruct (NodeFs.existsSync (cwd ext) (disk s) (outputPath this audioPath));
    [| cbn; repeat split; auto].
  destruct (NodeFs.read_file (cwd ext) (disk s) (outputPath this audioPath));
    cbn; [| repeat split; auto].
  destruct (NodeFs.unlink (cwd ext) (disk s) (outputPath this audioPath));
    cbn; repeat split; auto.
- apply bool_decide_eq_false_1 in Ec. cbn. repeat split; auto.
Qed.

Lemma on_stderr_fields (chunks : list string) (s : state) :
  let s' := fst (on_stderr chunks s) in
  disk s' = disk s /\ currentChildProcess s' = currentChildProcess s /\
  currentFfmpegCommand s' = currentFfmpegCommand s /\ spawned s' = spawned s /\
  signalled s' = signalled s /\ progress s' = progress s.
Proof.
revert s. induction chunks as [| output rest IH]; intros s; [repeat split |].
cbn [on_stderr]. unfold on_stderr_data, console_error, onError. monad_unfold.
destruct (JsString.includes "Error" output || JsString.includes "error" output);
  [exact (IH (add_errors [TranscriptionError output]
                (add_console [TranscriptionErrorOutput output] s)))
  | exact (IH s)].
Qed.

(** The transcript and the buffered partial line do not depend on the total
    duration nor on the last applied time. *)
Lemma on_stdout_text_only (total total' : option Q) (chunks : list string)
    (c c' : Progress.closure) :
  Progress.transcription c = Progress.transcription c' ->
  Progress.buffer c = Progress.buffer c' ->
  Progress.transcription (fst (Progress.on_stdout total c chunks))
  = Progress.transcription (fst (Progress.on_stdout total' c' chunks)) /\
  Progress.buffer (fst (Progress.on_stdout total c chunks))
  = Progress.buffer (fst (Progress.on_stdout total' c' chunks)).
Proof.
revert c c'. induction chunks as [| output rest IH]; intros c c' Ht Hb.
- split; assumption.
- cbn [Progress.on_stdout].
  assert (E : Progress.transcription (fst (Progress.on_stdout_data total c output))
              = Progress.transcription (fst (Progress.on_stdout_data total' c' output)) /\
              Progress.buffer (fst (Progress.on_stdout_data total c output))
              = Progress.buffer (fst (Progress.on_stdout_data total' c' output))).
  { unfold Progress.on_stdout_data.
    rewrite !on_lines_transcription, !on_lines_buffer. cbn. rewrite Ht, Hb.
    split; reflexivity. }
  destruct E as [E1 E2].
  destruct (Progress.on_stdout_data total c output) as [c1 out1].
  destruct (Progress.on_stdout_data total' c' output) as [c1' out1'].
  cbn [fst] in E1, E2. specialize (IH c1 c1' E1 E2).
  destruct (Progress.on_stdout total c1 rest) as [c2 out2].
  destruct (Progress.on_stdout total' c1' rest) as [c2' out2']. exact IH.
Qed.

(** With both dependencies on disk and a recognizer that is still there as
    the handlers are attached: the runner spawns one child, handles its
    output, and settles in the ['close'] handler. *)
Lemma runTranscription_trace (audioPath : string) (st : settings) (s : state) :
  NodeFs.existsSync (cwd ext) (disk s) (mlxWhisperPath this) = true ->
  NodeFs.existsSync (cwd ext) (disk s) (venvPython this) = true ->
  let run := recognizer ext (venvPython this) (command this audioPath st) (disk s) in
  closed_early run = false ->
  let transcription :=
    Progress.transcription (fst (Progress.on_stdout None Progress.initial (stdout run))) in
  exists s2 : state,
    runTranscription ext this audioPath st s
    = on_close ext this audioPath (exit_code run) transcription s2 /\
    disk s2 = disk_after run /\
    spawned s2 = (spawned s ++ [Child (venvPython this) (command this audioPath st)])%list /\
    signalled s2 = signalled s /\
    currentFfmpegCommand s2 = currentFfmpegCommand s.
Proof.
intros H1 H2 run Hc transcription. unfold runTranscription, existsSync. monad_unfold.
rewrite H1. cbn [negb]. rewrite H2. cbn [negb].
cbn [disk add_spawned set_child]. fold run. rewrite Hc.
set (total := match ffprobe ext audioPath (disk s) with
              | Some d => if JsNumber.truthy d then Some d else None
              | None => None
              end).
pose proof (on_stdout_text_only total None (stdout run) Progress.initial Progress.initial
              eq_refl eq_refl) as [Et _].
fold transcription in Et.
destruct (Progress.on_stdout total Progress.initial (stdout run)) as [c out].
cbn [fst] in Et. rewrite Et. clearbody total.
destruct (ffprobe ext audioPath (disk s)) as [d |];
  unfold console_error; monad_unfold;
  match goal with
  | |- context [on_stderr (stderr run) ?s1] =>
      pose proof (on_stderr_keeps_disk (stderr run) s1) as [E _];
      pose proof (on_stderr_fields (stderr run) s1) as (F1 & F2 & F3 & F4 & F5 & F6);
      destruct (on_stderr (stderr run) s1) as [s2 r]
  end;
  cbn in E, F1, F2, F3, F4, F5, F6; subst r;
  exists s2; repeat split; assumption.
Qed.

End RunnerTrace.

Section RunnerOutcomes.
Import JsString World AudioProcessor.

Lemma split_lines_single (s : string) :
  includes (String "010" "") s = false -> split_lines s = [s].
Proof.
induction s as [| c s IH]; [reflexivity |].
cbn [includes startsWith split_lines]. intros H.
apply orb_false_elim in H as [H1 H2].
rewrite andb_true_r in H1. rewrite Ascii.eqb_sym, H1, (IH H2). reflexivity.
Qed.

Lemma text_without_line_feed_has_no_transcript (chunks : list string) :
  includes (String "010" "") (Stream.text_of chunks) = false ->
  Progress.transcription (fst (Progress.on_stdout None Progress.initial chunks)) = "".
Proof.
intros H. destruct chunks as [| output rest]; [reflexivity |].
rewrite on_stdout_one_read. change (Stream.text_of (output :: rest))
  with (output +:+ Stream.text_of rest) in H.
cbn [Progress.on_stdout]. unfold Progress.on_stdout_data.
cbn [Progress.initial Progress.buffer Progress.transcription Progress.lastProgressUpdate].
change ("" +:+ output +:+ Stream.text_of rest) with (output +:+ Stream.text_of rest).
rewrite (split_lines_single _ H). reflexivity.
Qed.

Lemma until_line_end_one_line (c : ascii) (s : string) :
  c = "010"%char \/ c = "013"%char ->
  includes (String c "") (until_line_end s) = false.
Proof.
intros Hc. induction s as [| x s IH]; [reflexivity |].
cbn [until_line_end].
destruct (Ascii.eqb x "010" || Ascii.eqb x "013") eqn:E; [reflexivity |].
cbn [includes startsWith]. rewrite IH, andb_true_r, orb_false_r.
apply orb_false_elim in E as [E1 E2].
destruct Hc as [-> | ->]; rewrite Ascii.eqb_sym; assumption.
Qed.

End RunnerOutcomes.

(** X5.  With both dependencies installed, a run of [runTranscription]
    calls [spawn] exactly once, for the interpreter with the recognizer
    command line, and signals nothing, whatever the recognizer prints and
    however it exits ([ffprobe] is asked for the duration besides, through
    fluent-ffmpeg, which is no call of [spawn] by the runner).  The stored
    handle is dropped when the promise settles in the ['close'] handler;
    when the recognizer has closed before the handlers were attached, the
    promise stays pending and the handle stays stored. *)
Theorem runner_spawns_once_and_drops_handle
    (ext : World.externals) (this : AudioProcessor.processor)
    (audioPath : string) (st : AudioProcessor.settings) (s : World.state) :
  NodeFs.existsSync (World.cwd ext) (World.disk s) (AudioProcessor.mlxWhisperPath this) = true ->
  NodeFs.existsSync (World.cwd ext) (World.disk s) (AudioProcessor.venvPython this) = true ->
  let run := World.recognizer ext (AudioProcessor.venvPython this)
               (AudioProcessor.command this audioPath st) (World.disk s) in
  let child := World.Child (AudioProcessor.venvPython this)
                 (AudioProcessor.command this audioPath st) in
  let r := AudioProcessor.runTranscription ext this audioPath st s in
  World.spawned (fst r) = (World.spawned s ++ [child])%list /\
  World.signalled (fst r) = World.signalled s /\
  (World.closed_early run = false ->
   World.currentChildProcess (fst r) = None /\ snd r <> World.Pending) /\
  (World.closed_early run = true ->
   World.currentChildProcess (fst r) = Some child /\ snd r = World.Pending).
Proof.
intros H1 H2 run child r.
destruct (World.closed_early run) eqn:Hc.
- subst r. rewrite (runTranscription_closed_early ext this audioPath st s H1 H2 Hc).
  fold run child. cbn [fst snd].
  destruct (World.ffprobe ext audioPath (World.disk s)); cbn;
    (split; [reflexivity |]); (split; [reflexivity |]);
    (split; [discriminate | intros _; split; reflexivity]).
- destruct (runTranscription_trace ext this audioPath st s H1 H2 Hc)
    as (s2 & E & _ & Sp & Sg & _).
  subst r. rewrite E.
  destruct (on_close_effects ext this audioPath
              (World.exit_code run)
              (Progress.transcription
                 (fst (Progress.on_stdout None Progress.initial (World.stdout run)))) s2)
    as (C & _ & Sp' & Sg' & _ & O).
  fold run. rewrite Sp', Sg', Sp, Sg.
  split; [reflexivity |]. split; [reflexivity |].
  split; [| discriminate]. intros _. split; [exact C |].
  intros P. rewrite P in O. exact O.
Qed.

Lemma runner_spawns_once_and_drops_handle_witness :
  (let r := AudioProcessor.runTranscription (Example.machine Example.recognizer_silent)
              Example.this Example.wav_file Example.settings_en_small
              (Example.start Example.installed) in
   World.spawned (fst r)
   = [World.Child (AudioProcessor.venvPython Example.this)
        (AudioProcessor.command Example.this Example.wav_file
           Example.settings_en_small)] /\
   World.signalled (fst r) = [] /\
   World.currentChildProcess (fst r) = None /\ snd r <> World.Pending) /\
  (let r := AudioProcessor.runTranscription (Example.machine Failing.recognizer_early)
              Example.this Example.wav_file Example.settings_en_small
              (Example.start Example.installed) in
   World.currentChildProcess (fst r)
   = Some (World.Child (AudioProcessor.venvPython Example.this)
             (AudioProcessor.command Example.this Example.wav_file
                Example.settings_en_small)) /\
   snd r = World.Pending).
Proof.
split.
- intros r.
  destruct (runner_spawns_once_and_drops_handle
              (Example.machine Example.recognizer_silent)
              Example.this Example.wav_file Example.settings_en_small
              (Example.start Example.installed)
              ltac:(vm_compute; reflexivity) ltac:(vm_compute; reflexivity))
    as (Sp & Sg & L & _).
  destruct (L ltac:(vm_compute; reflexivity)) as (C & P).
  exact (conj Sp (conj Sg (conj C P))).
- intros r.
  destruct (runner_spawns_once_and_drops_handle
              (Example.machine Failing.recognizer_early)
              Example.this Example.wav_file Example.settings_en_small
              (Example.start Example.installed)
              ltac:(vm_compute; reflexivity) ltac:(vm_compute; reflexivity))
    as (_ & _ & _ & E).
  exact (E ltac:(vm_compute; reflexivity)).
Defined.

(** X6.  When the recognizer exits with any code other than 0 (or is killed
    and reports no code) while the runner listens, [runTranscription]
    rejects with "Transcription failed" and the message extracted from the
    complete lines of the standard output, and it leaves the disk as the
    recognizer left it: a result file that may be there is neither read nor
    removed.  When the recognizer has failed and closed before the handlers
    were attached, the failure is never reported: the promise stays
    pending, and neither [onError] nor [onProgressUpdate] is called. *)
Theorem nonzero_exit_rejects
    (ext : World.externals) (this : AudioProcessor.processor)
    (audioPath : string) (st : AudioProcessor.settings) (s : World.state) :
  NodeFs.existsSync (World.cwd ext) (World.disk s) (AudioProcessor.mlxWhisperPath this) = true ->
  NodeFs.existsSync (World.cwd ext) (World.disk s) (AudioProcessor.venvPython this) = true ->
  let run := World.recognizer ext (AudioProcessor.venvPython this)
               (AudioProcessor.command this audioPath st) (World.disk s) in
  World.exit_code run <> Some 0%Z ->
  let r := AudioProcessor.runTranscription ext this audioPath st s in
  (World.closed_early run = false ->
   snd r = World.Rejected
             (World.TranscriptionFailed
                (AudioProcessor.errorMsg
                   (Progress.transcription
                      (fst (Progress.on_stdout None Progress.initial
                              (World.stdout run)))))) /\
   World.disk (fst r) = World.disk_after run) /\
  (World.closed_early run = true ->
   snd r = World.Pending /\
   World.errors (fst r) = World.errors s /\
   World.progress (fst r) = World.progress s).
Proof.
intros H1 H2 run Hcode r. split; intros Hc.
- destruct (runTranscription_trace ext this audioPath st s H1 H2 Hc)
    as (s2 & E & D & _).
  fold run in E, D. subst r. rewrite E.
  unfold AudioProcessor.on_close, AudioProcessor.settle. monad_unfold.
  rewrite bool_decide_eq_false_2 by exact Hcode. cbn. split; [reflexivity | exact D].
- subst r. rewrite (runTranscription_closed_early ext this audioPath st s H1 H2 Hc).
  cbn [fst snd]. destruct (World.ffprobe ext audioPath (World.disk s)); repeat split.
Qed.

(** X7.  An error the recognizer prints without a final line feed is lost:
    when it exits with a code other than 0 while the runner listens and the
    reads of its standard output hold no line feed at all, the failure
    message is empty, whatever the output says. *)
Theorem error_without_line_feed_is_lost
    (ext : World.externals) (this : AudioProcessor.processor)
    (audioPath : string) (st : AudioProcessor.settings) (s : World.state) :
  NodeFs.existsSync (World.cwd ext) (World.disk s) (AudioProcessor.mlxWhisperPath this) = true ->
  NodeFs.existsSync (World.cwd ext) (World.disk s) (AudioProcessor.venvPython this) = true ->
  let run := World.recognizer ext (AudioProcessor.venvPython this)
               (AudioProcessor.command this audioPath st) (World.disk s) in
  World.closed_early run = false ->
  World.exit_code run <> Some 0%Z ->
  JsString.includes (String "010" "") (Stream.text_of (World.stdout run)) = false ->
  snd (AudioProcessor.runTranscription ext this audioPath st s)
  = World.Rejected (World.TranscriptionFailed "").
Proof.
intros H1 H2 run Hc Hcode Hlf.
destruct (runTranscription_trace ext this audioPath st s H1 H2 Hc)
  as (s2 & E & D & _).
fold run in E, D. rewrite E.
rewrite (text_without_line_feed_has_no_transcript _ Hlf).
unfold AudioProcessor.on_close, AudioProcessor.settle. monad_unfold.
rewrite bool_decide_eq_false_2 by exact Hcode. reflexivity.
Qed.

(** X8.  The failure message taken from the accumulated output: without the
    marker [Error:] it is the whole output; with the marker it is never
    empty and never spans lines (it holds neither a line feed nor a carriage
    return). *)
Theorem errorMsg_shape (transcription : string) :
  (JsString.includes "Error:" transcription = false ->
   AudioProcessor.errorMsg transcription = transcription) /\
  (JsString.includes "Error:" transcription = true ->
   AudioProcessor.errorMsg transcription <> "" /\
   JsString.includes (String "010" "") (AudioProcessor.errorMsg transcription) = false /\
   JsString.includes (String "013" "") (AudioProcessor.errorMsg transcription) = false).
Proof.
unfold AudioProcessor.errorMsg. split; intros H; rewrite H; [reflexivity |].
destruct (AudioProcessor.error_line transcription) as [m |] eqn:E.
- destruct (String.eqb m "") eqn:Em.
  + split; [discriminate | split; reflexivity].
  + apply String.eqb_neq in Em. split; [exact Em |].
    assert (Hm : exists rest, m = AudioProcessor.until_line_end rest).
    { clear H Em. revert E.
      induction transcription as [| c t IH]; cbn [AudioProcessor.error_line].
      - cbn. discriminate.
      - destruct (Regex.expect "Error: " (String c t)) as [rest |].
        + intros [= <-]. eexists; reflexivity.
        + exact IH. }
    destruct Hm as (rest & ->).
    split; apply until_line_end_one_line; [left | right]; reflexivity.
- split; [discriminate | split; reflexivity].
Qed.

Lemma nonzero_exit_rejects_witness :
  (let r := AudioProcessor.runTranscription (Example.machine Failing.recognizer_fails)
              Example.this Example.wav_file Example.settings_en_small
              (Example.start Example.installed) in
   snd r = World.Rejected (World.TranscriptionFailed "model not found") /\
   World.disk (fst r)
   = World.disk_after
       (Failing.recognizer_fails (AudioProcessor.venvPython Example.this)
          (AudioProcessor.command Example.this Example.wav_file Example.settings_en_small)
          Example.installed)) /\
  (let r := AudioProcessor.runTranscription
              (Example.machine Failing.recognizer_crash_early)
              Example.this Example.wav_file Example.settings_en_small
              (Example.start Example.installed) in
   snd r = World.Pending /\
   World.errors (fst r) = [] /\
   World.progress (fst r) = []).
Proof.
split.
- apply (nonzero_exit_rejects (Example.machine Failing.recognizer_fails)
           Example.this Example.wav_file Example.settings_en_small
           (Example.start Example.installed));
    [vm_compute; reflexivity | vm_compute; reflexivity | discriminate
    | vm_compute; reflexivity].
- apply (nonzero_exit_rejects (Example.machine Failing.recognizer_crash_early)
           Example.this Example.wav_file Example.settings_en_small
           (Example.start Example.installed));
    [vm_compute; reflexivity | vm_compute; reflexivity | discriminate
    | vm_compute; reflexivity].
Defined.

Lemma error_without_line_feed_is_lost_witness :
  snd (AudioProcessor.runTranscription (Example.machine Failing.recognizer_killed)
         Example.this Example.wav_file Example.settings_en_small
         (Example.start Example.installed))
  = World.Rejected (World.TranscriptionFailed "").
Proof.
apply (error_without_line_feed_is_lost (Example.machine Failing.recognizer_killed)
         Example.this Example.wav_file Example.settings_en_small
         (Example.start Example.installed));
  [vm_compute; reflexivity | vm_compute; reflexivity | reflexivity | discriminate
  | reflexivity].
Defined.

(** ** The standard error stream *)

Section Stderr.
Import World AudioProcessor.
Variable ext : externals.
Variable this : processor.

(** The ['close'] handler looks at the disk only. *)
Lemma on_close_reads_disk_only (audioPath : string) (code : option Z)
    (transcription : string) (s s' : state) :
  disk s = disk s' ->
  snd (on_close ext this audioPath code transcription s)
  = snd (on_close ext this audioPath code transcription s') /\
  disk (fst (on_close ext this audioPath code transcription s))
  = disk (fst (on_close ext this audioPath code transcription s')).
Proof.
intros D.
unfold on_close, settle, read_result, existsSync, readFile, lift_fs,
  onProgressUpdate, unlinkSync, fs_step, lift_fs, console_error.
monad_unfold.
destruct (bool_decide (code = Some 0%Z)); [| cbn; split; [reflexivity | exact D]].
cbv beta. rewrite D.
destruct (NodeFs.existsSync (cwd ext) (disk s') (outputPath this audioPath));
  [| cbn; split; [reflexivity | exact D]].
cbv beta. rewrite D.
destruct (NodeFs.read_file (cwd ext) (disk s') (outputPath this audioPath));
  cbn; [| split; [reflexivity | exact D]].
destruct (NodeFs.unlink (cwd ext) (disk s') (outputPath this audioPath));
  cbn; split; reflexivity.
Qed.

End Stderr.

(** X9.  What the recognizer prints on its standard error never decides a
    run: with any other text there, [runTranscription] settles the same way
    (same transcript or same error) and leaves the same files.  Error
    markers on that stream are only shown. *)
Theorem stderr_never_decides_the_run
    (ext : World.externals) (this : AudioProcessor.processor)
    (audioPath : string) (st : AudioProcessor.settings) (s : World.state)
    (chunks : list string) :
  NodeFs.existsSync (World.cwd ext) (World.disk s) (AudioProcessor.mlxWhisperPath this) = true ->
  NodeFs.existsSync (World.cwd ext) (World.disk s) (AudioProcessor.venvPython this) = true ->
  let r := AudioProcessor.runTranscription ext this audioPath st s in
  let r' := AudioProcessor.runTranscription (Variation.with_stderr chunks ext)
              this audioPath st s in
  snd r' = snd r /\ World.disk (fst r') = World.disk (fst r).
Proof.
intros H1 H2 r r'.
destruct (World.closed_early
            (World.recognizer ext (AudioProcessor.venvPython this)
               (AudioProcessor.command this audioPath st) (World.disk s))) eqn:Hc.
- subst r r'.
  rewrite (runTranscription_closed_early ext this audioPath st s H1 H2 Hc).
  rewrite (runTranscription_closed_early (Variation.with_stderr chunks ext)
             this audioPath st s H1 H2 Hc).
  cbn. destruct (World.ffprobe ext audioPath (World.disk s)); split; reflexivity.
- destruct (runTranscription_trace ext this audioPath st s H1 H2 Hc)
    as (s2 & E & D & _).
  destruct (runTranscription_trace (Variation.with_stderr chunks ext) this audioPath st s
              H1 H2 Hc) as (s2' & E' & D' & _).
  subst r r'. rewrite E, E'. cbn in D' |- *.
  apply (on_close_reads_disk_only ext this). congruence.
Qed.

Lemma stderr_never_decides_the_run_witness :
  let r := AudioProcessor.runTranscription (Example.machine Example.recognizer_ok)
             Example.this Example.wav_file Example.settings_en_small
             (Example.start Example.installed) in
  let r' := AudioProcessor.runTranscription
              (Variation.with_stderr ["Error: something"; "fatal error"]
                 (Example.machine Example.recognizer_ok))
              Example.this Example.wav_file Example.settings_en_small
              (Example.start Example.installed) in
  snd r' = snd r /\ World.disk (fst r') = World.disk (fst r).
Proof.
apply (stderr_never_decides_the_run (Example.machine Example.recognizer_ok)
         Example.this Example.wav_file Example.settings_en_small
         (Example.start Example.installed) ["Error: something"; "fatal error"]);
  vm_compute; reflexivity.
Defined.


(** ** Cancelling twice *)

Section CancelTwice.
Import World AudioProcessor.
Variable ext : externals.

Lemma cancel_never_throws (s : state) :
  snd (cancelProcessing ext s) = Resolved tt /\
  disk (fst (cancelProcessing ext s)) = disk s /\
  spawned (fst (cancelProcessing ext s)) = spawned s.
Proof.
unfold cancelProcessing, kill, console_error. monad_unfold.
destruct (currentFfmpegCommand s) as [p |] eqn:Ef.
- destruct (kill_throws ext p); cbn;
    (destruct (currentChildProcess s) as [q |]; cbn;
     [destruct (kill_throws ext q); cbn |]; repeat split).
- cbn. destruct (currentChildProcess s) as [q |]; cbn;
    [destruct (kill_throws ext q); cbn |]; repeat split.
Qed.

Lemma cancel_without_throw (s : state) :
  (forall p, kill_throws ext p = false) ->
  currentFfmpegCommand (fst (cancelProcessing ext s)) = None /\
  currentChildProcess (fst (cancelProcessing ext s)) = None /\
  signalled (fst (cancelProcessing ext s))
  = (signalled s ++ option_list (currentFfmpegCommand s)
       ++ option_list (currentChildProcess s))%list.
Proof.
intros K. unfold cancelProcessing, kill, console_error. monad_unfold.
destruct (currentFfmpegCommand s) as [p |] eqn:Ef;
  destruct (currentChildProcess s) as [q |] eqn:Ec;
  rewrite ?K; cbn; rewrite ?Ec; rewrite ?K; cbn; rewrite ?Ef, ?Ec;
  repeat split; rewrite <- ?app_assoc, ?app_nil_r; reflexivity.
Qed.

End CancelTwice.

(** X10.  [cancelProcessing] never throws and touches neither the disk nor
    the list of spawned processes, even when a kill throws; and when no kill
    throws, it signals exactly the stored ffmpeg command and the stored
    child (those there are), forgets both, and a second call does nothing at
    all. *)
Theorem cancel_is_safe_and_idempotent (ext : World.externals) (s : World.state) :
  let r := AudioProcessor.cancelProcessing ext s in
  snd r = World.Resolved tt /\
  World.disk (fst r) = World.disk s /\
  World.spawned (fst r) = World.spawned s /\
  ((forall p, World.kill_throws ext p = false) ->
   World.currentFfmpegCommand (fst r) = None /\
   World.currentChildProcess (fst r) = None /\
   World.signalled (fst r)
   = (World.signalled s ++ option_list (World.currentFfmpegCommand s)
        ++ option_list (World.currentChildProcess s))%list /\
   AudioProcessor.cancelProcessing ext (fst r) = (fst r, World.Settled (World.Resolved tt))).
Proof.
intros r. subst r.
destruct (cancel_never_throws ext s) as (A & B & C).
split; [exact A |]. split; [exact B |]. split; [exact C |].
intros K. destruct (cancel_without_throw ext s K) as (F & G & H).
split; [exact F |]. split; [exact G |]. split; [exact H |].
apply cancel_with_nothing_stored; assumption.
Qed.

Lemma cancel_is_safe_and_idempotent_witness :
  let s := World.set_child (Some (World.Child "python3" []))
             (World.set_ffmpeg (Some (World.Ffmpeg Example.wav_file))
                (Example.start Example.installed)) in
  let r := AudioProcessor.cancelProcessing (Example.machine Example.recognizer_ok) s in
  World.signalled (fst r) = [World.Ffmpeg Example.wav_file; World.Child "python3" []] /\
  AudioProcessor.cancelProcessing (Example.machine Example.recognizer_ok) (fst r)
  = (fst r, World.Settled (World.Resolved tt)).
Proof.
intros s r.
destruct (cancel_is_safe_and_idempotent (Example.machine Example.recognizer_ok) s)
  as (_ & _ & _ & H).
destruct (H (fun _ => eq_refl)) as (_ & _ & Sg & I).
exact (conj Sg I).
Defined.

(** ** Failures before the recognizer is started *)

Section BeforeRecognition.
Import World AudioProcessor Variation.
Variable ext : externals.
Variable this : processor.

Lemma convert_both_fields (tempFilePath filename : string) (s : state) :
  let r := convert_both ext this tempFilePath filename s in
  spawned (fst r) = spawned s /\ signalled (fst r) = signalled s /\
  currentChildProcess (fst r) = currentChildProcess s /\
  errors (fst r) = errors s /\
  match snd r with
  | Settled (Resolved _) => True
  | Settled (Rejected e) => before_recognition e = true /\ archive_error e = false
  | Pending => False
  end.
Proof.
unfold convert_both, conversion_start, conversion_finish, console_error.
monad_unfold. cbn.
destruct (ended (ffmpeg ext tempFilePath "mp3" (mp3_path this filename) _)); cbn;
  [| repeat split].
destruct (ended (ffmpeg ext tempFilePath "wav" (wav_path tempFilePath) _)); cbn;
  repeat split.
Qed.

Lemma save_mp3_fields (st : settings) (pluginDir filename tempMp3Path : string)
    (s : state) :
  let r := save_mp3 ext st pluginDir filename tempMp3Path s in
  spawned (fst r) = spawned s /\ signalled (fst r) = signalled s /\
  currentChildProcess (fst r) = currentChildProcess s /\
  match snd r with
  | Settled (Resolved _) => errors (fst r) = errors s
  | Settled (Rejected e) =>
      archive_error e = true /\ before_recognition e = true /\
      errors (fst r) = (errors s ++ [SaveFailed e])%list /\
      console (fst r) = (console s ++ [Mp3SaveError e])%list
  | Pending => False
  end.
Proof.
unfold save_mp3, fs_step, lift_fs, existsSync, onProgressUpdate, onError, console_error.
monad_unfold. cbv zeta.
destruct (String.eqb (vaultBasePath ext pluginDir) ""); [cbn; repeat split |].
destruct (NodeFs.mkdir_p (cwd ext) (disk s) (absoluteAudioDir ext st pluginDir))
  as [d1 |]; cbn; [| repeat split].
destruct (NodeFs.existsSync (cwd ext) d1 tempMp3Path); cbn; [| repeat split].
destruct (NodeFs.copy_file (cwd ext) d1 tempMp3Path _) as [d2 |]; cbn; [| repeat split].
destruct (NodeFs.existsSync (cwd ext) d2 _); cbn; repeat split.
Qed.

Lemma runTranscription_errors (audioPath : string) (st : settings) (s s' : state)
    (e : error) :
  runTranscription ext this audioPath st s = (s', Settled (Rejected e)) ->
  before_recognition e = false.
Proof.
intros H.
destruct (NodeFs.existsSync (cwd ext) (disk s) (mlxWhisperPath this)) eqn:E1.
- destruct (NodeFs.existsSync (cwd ext) (disk s) (venvPython this)) eqn:E2.
  + destruct (closed_early (recognizer ext (venvPython this)
                              (command this audioPath st) (disk s))) eqn:Ec;
      [rewrite (runTranscription_closed_early ext this audioPath st s E1 E2 Ec) in H;
       discriminate H |].
    destruct (runTranscription_trace ext this audioPath st s E1 E2 Ec) as (s2 & E & _).
    rewrite E in H.
    pose proof (on_close_effects ext this audioPath
                  (exit_code (recognizer ext (venvPython this)
                                (command this audioPath st) (disk s)))
                  (Progress.transcription
                     (fst (Progress.on_stdout None Progress.initial
                             (stdout (recognizer ext (venvPython this)
                                        (command this audioPath st) (disk s))))))
                  s2) as (_ & _ & _ & _ & _ & O).
    rewrite H in O. cbn in O. destruct O as [-> | [-> | [_ ->]]]; reflexivity.
  + rewrite (runTranscription_no_python ext this audioPath st s E1 E2) in H.
    injection H as _ <-. reflexivity.
- rewrite (runTranscription_no_mlx ext this audioPath st s E1) in H.
  injection H as _ <-. reflexivity.
Qed.

(** A run that stops before the read-back with an error of the early steps
    has spawned and signalled nothing, and has told [onError] exactly when
    the error is one of the archive copy. *)
Lemma up_to_read_back_early_failure (audioBlob : string) (st : settings)
    (pluginDir : string) (s s1 : state) (e : error) :
  up_to_read_back ext this audioBlob st pluginDir s = (s1, Settled (Rejected e)) ->
  before_recognition e = true ->
  spawned s1 = spawned s /\ signalled s1 = signalled s /\
  currentChildProcess s1 = currentChildProcess s /\
  errors s1 = (errors s ++ (if archive_error e then [SaveFailed e] else []))%list.
Proof.
intros H Hb. unfold up_to_read_back in H. unfold fs_step, readFile, lift_fs in H.
monad_unfold.
destruct (NodeFs.write_file (cwd ext) (disk s) _ audioBlob) as [d0 |]; cbn in H.
2:{ injection H as <- <-. cbn. rewrite app_nil_r. repeat split. }
match type of H with
| context [convert_both ext this ?a ?b ?s0] =>
    pose proof (convert_both_fields a b s0) as (C1 & C2 & C3 & C4 & C5);
    destruct (convert_both ext this a b s0) as [sc [[[mp3 wav] | ec] |]]
end; cbn in C1, C2, C3, C4, C5, H.
2:{ injection H as <- <-. destruct C5 as [_ ->].
    rewrite C1, C2, C3, C4, app_nil_r. repeat split. }
2: discriminate H.
match type of H with
| context [save_mp3 ext st pluginDir ?f ?m ?s0] =>
    pose proof (save_mp3_fields st pluginDir f m s0) as (S1 & S2 & S3 & S4);
    destruct (save_mp3 ext st pluginDir f m s0) as [ss [[[] | es] |]]
end; cbn in S1, S2, S3, S4, H.
2:{ injection H as <- <-. destruct S4 as (-> & _ & S4 & _).
    rewrite S1, S2, S3, S4, C1, C2, C3, C4. repeat split. }
2: discriminate H.
destruct (runTranscription ext this wav st ss) as [sr [[text | er] |]] eqn:R; cbn in H.
2:{ injection H as <- <-.
    rewrite (runTranscription_errors _ _ _ _ _ R) in Hb. discriminate Hb. }
2: discriminate H.
destruct (NodeFs.read_file (cwd ext) (disk sr) mp3); cbn in H; [discriminate H |].
injection H as <- <-. discriminate Hb.
Qed.

End BeforeRecognition.

(** X11.  When [processAudioBlob] fails in one of the steps before
    recognition (writing the recording, a conversion, the archive copy), the
    recognizer is never started: the run rejects with that error, having
    spawned no process, signalled none and stored no child handle. *)
Theorem early_failure_never_starts_recognizer
    (ext : World.externals) (this : AudioProcessor.processor)
    (audioBlob : string) (st : AudioProcessor.settings) (pluginDir : string)
    (s : World.state) (e : World.error) :
  let r := AudioProcessor.processAudioBlob ext this audioBlob st pluginDir s in
  snd r = World.Rejected e ->
  Variation.before_recognition e = true ->
  World.spawned (fst r) = World.spawned s /\
  World.signalled (fst r) = World.signalled s /\
  World.currentChildProcess (fst r) = World.currentChildProcess s.
Proof.
intros r Hr Hb. subst r. revert Hr.
unfold AudioProcessor.processAudioBlob, AudioProcessor.console_error. monad_unfold.
destruct (AudioProcessor.up_to_read_back ext this audioBlob st pluginDir s)
  as [s1 [[[[[[a b] c] t] m] | e1] |]] eqn:U; [| | cbn; discriminate].
- pose proof (cleanup_outcome ext a b c s1) as [E _].
  destruct (AudioProcessor.cleanup ext a b c s1) as [s2 o]. cbn in E. subst o.
  cbn. discriminate.
- cbn. intros [= ->].
  destruct (up_to_read_back_early_failure ext this _ _ _ _ _ _ U Hb) as (A & B & C & _).
  repeat split; assumption.
Qed.

Lemma early_failure_never_starts_recognizer_witness :
  let r := AudioProcessor.processAudioBlob Failing.machine_wav_fails
             Example.this "webm" Example.settings_en_small "/vault"
             (Example.start Example.installed) in
  snd r = World.Rejected (World.FfmpegError Example.wav_file) /\
  World.spawned (fst r) = [] /\
  World.signalled (fst r) = [] /\
  World.currentChildProcess (fst r) = None.
Proof.
intros r.
assert (Hr : snd r = World.Rejected (World.FfmpegError Example.wav_file))
  by (vm_compute; reflexivity).
exact (conj Hr
         (early_failure_never_starts_recognizer Failing.machine_wav_fails
            Example.this "webm" Example.settings_en_small "/vault"
            (Example.start Example.installed) (World.FfmpegError Example.wav_file)
            Hr eq_refl)).
Defined.

(** X12.  When the archive copy fails (the directory cannot be made, the
    temporary mp3 is missing, the copy fails or leaves no file), the run
    rejects with that very error after telling [onError] about it exactly
    once, and nothing else was reported as an error. *)
Theorem archive_failure_is_reported_once
    (ext : World.externals) (this : AudioProcessor.processor)
    (audioBlob : string) (st : AudioProcessor.settings) (pluginDir : string)
    (s : World.state) (e : World.error) :
  let r := AudioProcessor.processAudioBlob ext this audioBlob st pluginDir s in
  snd r = World.Rejected e ->
  Variation.archive_error e = true ->
  World.errors (fst r) = (World.errors s ++ [World.SaveFailed e])%list.
Proof.
intros r Hr Ha. subst r. revert Hr.
unfold AudioProcessor.processAudioBlob, AudioProcessor.console_error. monad_unfold.
destruct (AudioProcessor.up_to_read_back ext this audioBlob st pluginDir s)
  as [s1 [[[[[[a b] c] t] m] | e1] |]] eqn:U; [| | cbn; discriminate].
- pose proof (cleanup_outcome ext a b c s1) as [E _].
  destruct (AudioProcessor.cleanup ext a b c s1) as [s2 o]. cbn in E. subst o.
  cbn. discriminate.
- cbn. intros [= ->].
  assert (Hb : Variation.before_recognition e = true) by (destruct e; try discriminate Ha; reflexivity).
  destruct (up_to_read_back_early_failure ext this _ _ _ _ _ _ U Hb) as (_ & _ & _ & D).
  rewrite Ha in D. exact D.
Qed.

Lemma archive_failure_is_reported_once_witness :
  let r := AudioProcessor.processAudioBlob (Example.machine Example.recognizer_ok)
             Example.this "webm" Example.settings_en_small "/vault"
             (Example.start Failing.file_in_the_way) in
  snd r = World.Rejected (World.MkdirError "/04_assets/audio") /\
  World.errors (fst r) = [World.SaveFailed (World.MkdirError "/04_assets/audio")].
Proof.
intros r.
assert (Hr : snd r = World.Rejected (World.MkdirError "/04_assets/audio"))
  by (vm_compute; reflexivity).
exact (conj Hr
         (archive_failure_is_reported_once (Example.machine Example.recognizer_ok)
            Example.this "webm" Example.settings_en_small "/vault"
            (Example.start Failing.file_in_the_way)
            (World.MkdirError "/04_assets/audio") Hr eq_refl)).
Defined.

(** ** A deletion that fails *)

(** X13.  The three temporary files are deleted in one [try]: when the run
    has read the mp3 back and the recording is no longer a file, the first
    unlink fails, the failure is logged, the wav and the temporary mp3 are
    not deleted (the disk stays as it is), and the run still resolves with
    the transcription and the mp3 bytes. *)
Theorem failed_first_deletion_skips_the_rest
    (ext : World.externals) (this : AudioProcessor.processor)
    (audioBlob : string) (st : AudioProcessor.settings) (pluginDir : string)
    (s : World.state)
    (tempFilePath wavPath tempMp3Path transcription mp3Buffer : string) :
  let u := AudioProcessor.up_to_read_back ext this audioBlob st pluginDir s in
  snd u = World.Resolved (tempFilePath, wavPath, tempMp3Path, transcription, mp3Buffer) ->
  NodeFs.is_file (World.disk (fst u)) (NodeFs.canon (World.cwd ext) tempFilePath) = false ->
  AudioProcessor.processAudioBlob ext this audioBlob st pluginDir s
  = (World.add_console [World.TempFileDeleteError (World.UnlinkError tempFilePath)] (fst u),
     World.Settled (World.Resolved (transcription, mp3Buffer))).
Proof.
intros u Hu Hf. subst u.
unfold AudioProcessor.processAudioBlob, AudioProcessor.console_error. monad_unfold.
destruct (AudioProcessor.up_to_read_back ext this audioBlob st pluginDir s) as [s1 o].
cbn [fst snd] in Hu, Hf. subst o.
unfold AudioProcessor.cleanup, AudioProcessor.unlinkSync, AudioProcessor.fs_step,
  AudioProcessor.lift_fs, AudioProcessor.console_error, NodeFs.unlink.
monad_unfold. cbv beta. rewrite Hf. reflexivity.
Qed.

Lemma failed_first_deletion_skips_the_rest_witness :
  AudioProcessor.processAudioBlob (Example.machine Example.recognizer_raw_lost)
    Example.this "webm" Example.settings_en_small "/vault"
    (Example.start Example.installed)
  = (World.add_console
       [World.TempFileDeleteError (World.UnlinkError Example.raw_path)]
       (fst (AudioProcessor.up_to_read_back
               (Example.machine Example.recognizer_raw_lost)
               Example.this "webm" Example.settings_en_small "/vault"
               (Example.start Example.installed))),
     World.Settled (World.Resolved ("hello world", "mp3"))).
Proof.
apply (failed_first_deletion_skips_the_rest
         (Example.machine Example.recognizer_raw_lost)
         Example.this "webm" Example.settings_en_small "/vault"
         (Example.start Example.installed)
         Example.raw_path Example.wav_file Example.mp3_file "hello world" "mp3");
  vm_compute; reflexivity.
Defined.

(** ** The path of the wav file *)

Section WavPath.
Import JsString AudioProcessor.

Lemma expect_startsWith (p s : string) :
  Regex.expect p s = None <-> startsWith p s = false.
Proof.
revert s. induction p as [| a p IH]; intros s; cbn [Regex.expect startsWith].
- split; discriminate.
- destruct s as [| b s]; [split; reflexivity |].
  destruct (Ascii.eqb a b); cbn [andb]; [apply IH | split; reflexivity].
Qed.

Lemma expect_append (p rest : string) : Regex.expect p (p +:+ rest) = Some rest.
Proof.
induction p as [| a p IH]; [reflexivity |].
change (String a p +:+ rest) with (String a (p +:+ rest)).
cbn [Regex.expect]. rewrite Ascii.eqb_refl. exact IH.
Qed.

(** [.webm] cannot start inside a text that does not hold it and end in a
    [.webm] that follows the text. *)
Lemma webm_not_across (c : ascii) (x y : string) :
  startsWith ".webm" (String c x) = false ->
  startsWith ".webm" (String c (x +:+ ".webm" +:+ y)) = false.
Proof.
intros H.
destruct x as [| c2 [| c3 [| c4 [| c5 x]]]];
  revert H; cbv [String.append]; cbn [startsWith];
  repeat match goal with
         | |- context [Ascii.eqb ?a ?v] => is_var v; destruct (Ascii.eqb a v)
         end;
  cbn; intros H; try reflexivity; try discriminate H.
Qed.

Lemma replace_first_absent (pat by_ s : string) :
  includes pat s = false -> replace_first pat by_ s = s.
Proof.
induction s as [| c s IH]; cbn [includes replace_first]; intros H.
- apply orb_false_elim in H as [H _]. apply expect_startsWith in H. rewrite H. reflexivity.
- apply orb_false_elim in H as [H1 H2]. apply expect_startsWith in H1.
  rewrite H1, (IH H2). reflexivity.
Qed.

End WavPath.

(** X14.  [convertToWav] names its output by replacing the first [.webm] of
    the input path.  For an input path [x.webm...] whose part [x] holds no
    [.webm], the output is [x_converted.wav...]: only the first occurrence is
    replaced.  For an input path without [.webm] the output path is the
    input path itself. *)
Theorem wav_path_replaces_first_webm (x y : string) :
  JsString.includes ".webm" x = false ->
  AudioProcessor.wav_path (x +:+ ".webm" +:+ y) = x +:+ "_converted.wav" +:+ y /\
  AudioProcessor.wav_path x = x.
Proof.
intros H. split; [| apply replace_first_absent, H].
unfold AudioProcessor.wav_path. induction x as [| c x IH].
- change ("" +:+ ".webm" +:+ y) with (".webm" +:+ y).
  destruct y; reflexivity.
- cbn [JsString.includes] in H. apply orb_false_elim in H as [H1 H2].
  change (String c x +:+ ".webm" +:+ y) with (String c (x +:+ ".webm" +:+ y)).
  cbn [AudioProcessor.replace_first].
  rewrite (proj2 (expect_startsWith _ _) (webm_not_across c x y H1)).
  rewrite (IH H2). reflexivity.
Qed.

Lemma wav_path_replaces_first_webm_witness :
  AudioProcessor.wav_path ("/tmp/obsidian-whisper/Recording 1" +:+ ".webm" +:+ ".webm")
  = "/tmp/obsidian-whisper/Recording 1" +:+ "_converted.wav" +:+ ".webm" /\
  AudioProcessor.wav_path "/tmp/obsidian-whisper/Recording 1"
  = "/tmp/obsidian-whisper/Recording 1".
Proof.
exact (wav_path_replaces_first_webm "/tmp/obsidian-whisper/Recording 1" ".webm" eq_refl).
Defined.

(** ** [formatTime] on any time *)

Section FormatAny.
Local Open Scope Q_scope.

Lemma floor_bounds (t : Q) : inject_Z (Qfloor t) <= t /\ t < inject_Z (Qfloor t) + 1.
Proof.
split; [apply Qfloor_le |].
pose proof (Qlt_floor t) as H. rewrite inject_Z_plus in H. exact H.
Qed.

Lemma formatTime_fields_any (t : Q) :
  0 <= t ->
  let w := Qfloor t in
  JsNumber.floor (t / 3600) = (w / 3600)%Z /\
  JsNumber.floor (JsNumber.rem t 3600 / 60) = (w mod 3600 / 60)%Z /\
  JsNumber.floor (JsNumber.rem t 60) = (w mod 60)%Z.
Proof.
intros H0 w. destruct (floor_bounds t) as [Lo Hi]. fold w in Lo, Hi.
assert (Hw : (0 <= w)%Z).
{ subst w. change 0%Z with (Qfloor 0). apply Qfloor_resp_le, H0. }
set (h := (w / 3600)%Z). set (q := (w / 60)%Z).
pose proof (Z.div_mod w 3600 ltac:(lia)) as D1.
pose proof (Z.mod_pos_bound w 3600 ltac:(lia)) as P1.
pose proof (Z.div_mod w 60 ltac:(lia)) as D2.
pose proof (Z.mod_pos_bound w 60 ltac:(lia)) as P2.
pose proof (Z.div_mod (w mod 3600) 60 ltac:(lia)) as D3.
pose proof (Z.mod_pos_bound (w mod 3600) 60 ltac:(lia)) as P3.
set (m := (w mod 3600 / 60)%Z). set (sec := (w mod 60)%Z).
assert (Bm : (60 * m <= w - 3600 * h /\ w - 3600 * h + 1 <= 60 * m + 60)%Z)
  by (subst m h; lia).
assert (Bs : (sec = w - 60 * q)%Z) by (subst sec q; lia).
assert (Bh : (3600 * h <= w /\ w + 1 <= 3600 * h + 3600)%Z) by (subst h; lia).
assert (Bq : (60 * q <= w /\ w + 1 <= 60 * q + 60)%Z) by (subst q; lia).
destruct Bh as [Bh1 Bh2]. destruct Bq as [Bq1 Bq2].
clearbody h q.
rewrite Zle_Qle in Bh1, Bh2, Bq1, Bq2.
rewrite inject_Z_mult in Bh1. rewrite !inject_Z_plus, inject_Z_mult in Bh2.
rewrite inject_Z_mult in Bq1. rewrite !inject_Z_plus, inject_Z_mult in Bq2.
change (inject_Z 3600) with 3600 in *. change (inject_Z 60) with 60 in *.
change (inject_Z 1) with 1 in *.
assert (E1 : Qfloor (t / 3600) = h).
{ apply floor_unique; [| rewrite inject_Z_plus]; q_consts; lra. }
assert (E2 : Qfloor (t / 60) = q).
{ apply floor_unique; [| rewrite inject_Z_plus]; q_consts; lra. }
assert (N1 : 0 <= t / 3600) by (q_consts; lra).
assert (N2 : 0 <= t / 60) by (q_consts; lra).
unfold JsNumber.floor, JsNumber.rem.
rewrite (trunc_nonneg _ N1), (trunc_nonneg _ N2), E1, E2.
split; [reflexivity |].
destruct Bm as [Bm1 Bm2]. clearbody m sec.
rewrite Zle_Qle in Bm1, Bm2.
unfold Z.sub in Bm1, Bm2.
rewrite inject_Z_mult, inject_Z_plus, inject_Z_opp, inject_Z_mult in Bm1.
rewrite !inject_Z_plus, inject_Z_opp, !inject_Z_mult in Bm2.
change (inject_Z 3600) with 3600 in *. change (inject_Z 60) with 60 in *.
change (inject_Z 1) with 1 in *.
split.
- apply floor_unique; [| rewrite inject_Z_plus]; q_consts; lra.
- rewrite Bs. unfold Z.sub.
  apply floor_unique; rewrite ?inject_Z_plus, ?inject_Z_opp, ?inject_Z_mult;
    change (inject_Z 60) with 60; q_consts; lra.
Qed.

End FormatAny.

(** X15.  [formatTime] of a time from 0 up to [2^53] (not included) shows
    its whole seconds only, cut and never rounded up: with [w] the whole
    seconds, it is [H:MM:SS] for [w] of an hour or more and [M:SS] below,
    where [H] is [w / 3600], the minutes are [(w mod 3600) / 60] and the
    seconds are [w mod 60], so that minutes and seconds stay below 60.  The
    bound keeps to the times for which the numbers of the code, which are
    doubles, give these whole parts as exact arithmetic does: beyond it a
    double no longer holds every whole number, and the hours are printed
    rounded. *)
Theorem formatTime_shows_whole_seconds (t : Q) :
  (0 <= t)%Q ->
  (t < inject_Z (2 ^ 53))%Q ->
  let w := Qfloor t in
  Progress.formatTime t
  = (if (0 <? w / 3600)%Z
     then JsString.toString (w / 3600) +:+ ":"
            +:+ JsString.padStart 2 "0" (JsString.toString (w mod 3600 / 60))
            +:+ ":" +:+ JsString.padStart 2 "0" (JsString.toString (w mod 60))
     else JsString.toString (w mod 3600 / 60) +:+ ":"
            +:+ JsString.padStart 2 "0" (JsString.toString (w mod 60))) /\
  Progress.formatTime t = Progress.formatTime (inject_Z w).
Proof.
intros H0 _ w.
assert (F : forall u, (0 <= u)%Q ->
   Progress.formatTime u
   = (if (0 <? Qfloor u / 3600)%Z
      then JsString.toString (Qfloor u / 3600) +:+ ":"
             +:+ JsString.padStart 2 "0" (JsString.toString (Qfloor u mod 3600 / 60))
             +:+ ":" +:+ JsString.padStart 2 "0" (JsString.toString (Qfloor u mod 60))
      else JsString.toString (Qfloor u mod 3600 / 60) +:+ ":"
             +:+ JsString.padStart 2 "0" (JsString.toString (Qfloor u mod 60)))).
{ intros u Hu. destruct (formatTime_fields_any u Hu) as (E1 & E2 & E3).
  unfold Progress.formatTime. rewrite E1, E2, E3. reflexivity. }
split; [apply F, H0 |].
assert (Hw : (0 <= inject_Z w)%Q).
{ change 0%Q with (inject_Z 0). rewrite <- Zle_Qle.
  subst w. change 0%Z with (Qfloor 0). apply Qfloor_resp_le, H0. }
rewrite (F t H0), (F (inject_Z w) Hw), Qfloor_Z. reflexivity.
Qed.

Lemma formatTime_shows_whole_seconds_witness :
  Progress.formatTime (7319999 # 1000) = "2:01:59" /\
  Progress.formatTime (7319999 # 1000) = Progress.formatTime 7319.
Proof.
exact (formatTime_shows_whole_seconds (7319999 # 1000) ltac:(discriminate)
         ltac:(vm_compute; reflexivity)).
Defined.

(** ** Which texts are timestamps *)

Section Shape.
Import JsString TimestampText TimestampShape.

Lemma take_digits2_inv (s d rest : string) :
  Regex.take_digits 2 s = Some (d, rest) ->
  exists a b, is_digit a = true /\ is_digit b = true /\
              d = text2 a b /\ s = String a (String b rest).
Proof.
destruct s as [| a [| b r]]; cbn -[is_digit]; try discriminate.
- destruct (is_digit a); discriminate.
- destruct (is_digit a) eqn:Ha; [| discriminate].
  destruct (is_digit b) eqn:Hb; cbn -[is_digit]; [| discriminate].
  intros [= <- <-]. exists a, b. repeat split; assumption.
Qed.

Lemma take_digits3_inv (s d rest : string) :
  Regex.take_digits 3 s = Some (d, rest) ->
  exists a b c, is_digit a = true /\ is_digit b = true /\ is_digit c = true /\
                d = text3 a b c /\ s = String a (String b (String c rest)).
Proof.
destruct s as [| a [| b [| c r]]]; cbn -[is_digit]; try discriminate.
- destruct (is_digit a); discriminate.
- destruct (is_digit a); [| discriminate]. destruct (is_digit b); discriminate.
- destruct (is_digit a) eqn:Ha; [| discriminate].
  destruct (is_digit b) eqn:Hb; cbn -[is_digit]; [| discriminate].
  destruct (is_digit c) eqn:Hc; cbn -[is_digit]; [| discriminate].
  intros [= <- <-]. exists a, b, c. repeat split; assumption.
Qed.

Lemma expect_char_inv (c : ascii) (s rest : string) :
  Regex.expect (String c "") s = Some rest -> s = String c rest.
Proof.
destruct s as [| b s]; cbn [Regex.expect]; [discriminate |].
destruct (Ascii.eqb c b) eqn:E; [| discriminate].
apply Ascii.eqb_eq in E. intros [= <-]. subst b. reflexivity.
Qed.

(** [(\d{2}):(\d{2})\.(\d{3})$] matches the texts [MM:SS.mmm] only. *)
Lemma tail_match_inv (h : option string) (s : string) (g : Regex.ts_groups) :
  ('(m, r1) ← Regex.take_digits 2 s;
   r2 ← Regex.expect ":" r1;
   '(sec, r3) ← Regex.take_digits 2 r2;
   r4 ← Regex.expect "." r3;
   '(ms, r5) ← Regex.take_digits 3 r4;
   if String.eqb r5 "" then Some (Regex.TsGroups h m sec ms) else None) = Some g ->
  exists m1 m2 s1 s2 k1 k2 k3,
    forallb is_digit [m1; m2; s1; s2; k1; k2; k3] = true /\
    s = short_text m1 m2 s1 s2 k1 k2 k3.
Proof.
intros H.
apply bind_Some in H as ([m r1] & T1 & H).
apply bind_Some in H as (r2 & X1 & H).
apply bind_Some in H as ([sec r3] & T2 & H).
apply bind_Some in H as (r4 & X2 & H).
apply bind_Some in H as ([ms r5] & T3 & H).
destruct (String.eqb r5 "") eqn:E5; [| discriminate H].
apply String.eqb_eq in E5. subst r5.
apply take_digits2_inv in T1 as (m1 & m2 & D1 & D2 & -> & ->).
apply expect_char_inv in X1 as ->.
apply take_digits2_inv in T2 as (s1 & s2 & D3 & D4 & -> & ->).
apply expect_char_inv in X2 as ->.
apply take_digits3_inv in T3 as (k1 & k2 & k3 & D5 & D6 & D7 & -> & ->).
exists m1, m2, s1, s2, k1, k2, k3. split; [| reflexivity].
cbn [forallb]. rewrite D1, D2, D3, D4, D5, D6, D7. reflexivity.
Qed.

End Shape.

(** X16.  [parseTimestamp] recognizes exactly the texts [MM:SS.mmm] and
    [HH:MM:SS.mmm] made of decimal digits: its pattern matches a text if and
    only if the text has one of these two shapes, and on every other text
    (also a timestamp with a one-digit field, or with anything before or
    after it) the result is 0. *)
Theorem timestamp_pattern_matches_exactly (s : string) :
  (is_Some (Regex.timestamp_match s) <-> TimestampShape.timestamp_text s) /\
  (~ TimestampShape.timestamp_text s -> Progress.parseTimestamp s = 0%Q).
Proof.
assert (Iff : is_Some (Regex.timestamp_match s) <-> TimestampShape.timestamp_text s).
{ split.
  - intros [g H]. unfold Regex.timestamp_match, Regex.opt_hours in H.
    match type of H with
    | match ?w with Some _ => _ | None => _ end = _ => destruct w as [g' |] eqn:W
    end.
    + apply bind_Some in W as ([h r1] & T0 & W).
      apply bind_Some in W as (r2 & X0 & W).
      apply tail_match_inv in W as (m1 & m2 & s1 & s2 & k1 & k2 & k3 & D & ->).
      apply take_digits2_inv in T0 as (h1 & h2 & Dh1 & Dh2 & -> & ->).
      apply expect_char_inv in X0 as ->.
      apply (TimestampShape.long_timestamp h1 h2 m1 m2 s1 s2 k1 k2 k3).
      cbn [forallb] in D |- *. rewrite Dh1, Dh2. exact D.
    + apply tail_match_inv in H as (m1 & m2 & s1 & s2 & k1 & k2 & k3 & D & ->).
      apply TimestampShape.short_timestamp, D.
  - intros [m1 m2 s1 s2 k1 k2 k3 D | h1 h2 m1 m2 s1 s2 k1 k2 k3 D];
      cbn [forallb] in D; rewrite andb_true_r in D.
    + do 6 (apply andb_prop in D as [? D]).
      rewrite timestamp_match_short by assumption. eexists; reflexivity.
    + do 8 (apply andb_prop in D as [? D]).
      rewrite timestamp_match_long by assumption. eexists; reflexivity. }
split; [exact Iff |].
intros N. unfold Progress.parseTimestamp.
destruct (Regex.timestamp_match s) as [g |] eqn:E; [| reflexivity].
exfalso. apply N. apply (proj1 Iff). exists g. reflexivity.
Qed.

(** ** The time the handler takes from a range *)

Section RangeEnd.
Import JsString TimestampText TimestampShape.

Lemma all_digits_fields (a : stamp) :
  all_digits a = true ->
  is_digit (h1 a) = true /\ is_digit (h2 a) = true /\ is_digit (m1 a) = true /\
  is_digit (m2 a) = true /\ is_digit (s1 a) = true /\ is_digit (s2 a) = true /\
  is_digit (k1 a) = true /\ is_digit (k2 a) = true /\ is_digit (k3 a) = true.
Proof.
unfold all_digits. cbn [forallb]. rewrite andb_true_r. intros D.
do 8 (apply andb_prop in D as [? D]). repeat split; assumption.
Qed.

Lemma digit_not_space (c : ascii) : is_digit c = true -> is_space c = false.
Proof.
intros H. apply is_digit_cases in H. unfold digit_chars in H. simpl in H.
repeat (destruct H as [<- | H]; [reflexivity |]). destruct H.
Qed.

Lemma trimStart_space (s : string) : trimStart (String " " s) = trimStart s.
Proof. reflexivity. Qed.

Lemma trimStart_keeps (c : ascii) (s : string) :
  is_space c = false -> trimStart (String c s) = String c s.
Proof. intros H. cbn [trimStart]. rewrite H. reflexivity. Qed.

End RangeEnd.

Ltac range_eval :=
  unfold TimestampShape.range_line, TimestampShape.short_of, TimestampShape.long_of,
    TimestampText.long_text, TimestampText.short_text, TimestampText.text2,
    TimestampText.text3;
  cbv [String.append]; cbn [Regex.range_match];
  unfold Regex.range_at, Regex.opt_hours, Regex.min_sec, Regex.skip_spaces,
    Progress.endTimeStr;
  repeat (cbn -[JsString.is_digit JsString.trimStart];
          first
            [ match goal with
              | H : JsString.is_digit ?c = true |- context [JsString.is_digit ?c] =>
                  rewrite H
              end
            | rewrite trimStart_space
            | rewrite (trimStart_keeps "-") by reflexivity
            | rewrite trimStart_keeps by (apply digit_not_space; assumption) ]);
  cbn -[JsString.is_digit JsString.trimStart]; try reflexivity.

(** X17.  Which end of a range the handler reads as the current time, for a
    line that starts with [[start --> end]]: when the end timestamp is
    written with its hours the handler takes the end timestamp; when it is
    written without hours the handler takes the minutes and seconds of the
    start timestamp instead (whether the start has hours or not). *)
Theorem end_time_read_from_range (a b : TimestampShape.stamp) (rest : string) :
  TimestampShape.all_digits a = true ->
  TimestampShape.all_digits b = true ->
  let read start end_ :=
    option_map Progress.endTimeStr
      (Regex.range_match (TimestampShape.range_line start end_ rest)) in
  read (TimestampShape.short_of a) (TimestampShape.long_of b)
  = Some (TimestampShape.long_of b) /\
  read (TimestampShape.long_of a) (TimestampShape.long_of b)
  = Some (TimestampShape.long_of b) /\
  read (TimestampShape.short_of a) (TimestampShape.short_of b)
  = Some (TimestampShape.short_of a) /\
  read (TimestampShape.long_of a) (TimestampShape.short_of b)
  = Some (TimestampShape.short_of a).
Proof.
intros Da Db read. subst read.
apply all_digits_fields in Da as (A1 & A2 & A3 & A4 & A5 & A6 & A7 & A8 & A9).
apply all_digits_fields in Db as (B1 & B2 & B3 & B4 & B5 & B6 & B7 & B8 & B9).
destruct a as [ah1 ah2 am1 am2 as1 as2 ak1 ak2 ak3].
destruct b as [bh1 bh2 bm1 bm2 bs1 bs2 bk1 bk2 bk3].
cbn [TimestampShape.h1 TimestampShape.h2 TimestampShape.m1 TimestampShape.m2
     TimestampShape.s1 TimestampShape.s2 TimestampShape.k1 TimestampShape.k2
     TimestampShape.k3] in *.
repeat split; range_eval.
Qed.

Lemma end_time_read_from_range_witness :
  let a := TimestampShape.Stamp "0" "0" "0" "0" "0" "1" "5" "0" "0" in
  let b := TimestampShape.Stamp "0" "0" "0" "0" "0" "4" "2" "0" "0" in
  let read start end_ :=
    option_map Progress.endTimeStr
      (Regex.range_match (TimestampShape.range_line start end_ "  hello")) in
  read "00:01.500" "00:00:04.200" = Some "00:00:04.200" /\
  read "00:00:01.500" "00:00:04.200" = Some "00:00:04.200" /\
  read "00:01.500" "00:04.200" = Some "00:01.500" /\
  read "00:00:01.500" "00:04.200" = Some "00:01.500".
Proof.
exact (end_time_read_from_range
         (TimestampShape.Stamp "0" "0" "0" "0" "0" "1" "5" "0" "0")
         (TimestampShape.Stamp "0" "0" "0" "0" "0" "4" "2" "0" "0")
         "  hello" eq_refl eq_refl).
Defined.

(** ** The result file *)

(** X18.  A successful run consumes the recognizer's text file: when the
    recognizer exits with code 0 while the runner listens and its text file
    is there, then once the removal that the ['close'] handler starts after
    resolving (and does not wait for) has run, the file is gone, every other
    file stays as the recognizer left it, and the listener was told that the
    transcription is complete.  When the recognizer had closed before the
    handlers were attached, the file is left where it is and the listener is
    told nothing. *)
Theorem result_file_is_removed_after_reading
    (ext : World.externals) (this : AudioProcessor.processor)
    (audioPath : string) (st : AudioProcessor.settings) (s : World.state)
    (content : string) :
  NodeFs.existsSync (World.cwd ext) (World.disk s) (AudioProcessor.mlxWhisperPath this) = true ->
  NodeFs.existsSync (World.cwd ext) (World.disk s) (AudioProcessor.venvPython this) = true ->
  let run := World.recognizer ext (AudioProcessor.venvPython this)
               (AudioProcessor.command this audioPath st) (World.disk s) in
  let out := NodeFs.canon (World.cwd ext) (AudioProcessor.outputPath this audioPath) in
  World.exit_code run = Some 0%Z ->
  World.files (World.disk_after run) !! out = Some content ->
  let r := AudioProcessor.runTranscription ext this audioPath st s in
  (World.closed_early run = false ->
   World.files (World.disk (fst r)) = delete out (World.files (World.disk_after run)) /\
   World.dirs (World.disk (fst r)) = World.dirs (World.disk_after run) /\
   In World.TranscriptionComplete (World.progress (fst r))) /\
  (World.closed_early run = true ->
   World.disk (fst r) = World.disk_after run /\
   World.progress (fst r) = World.progress s).
Proof.
intros H1 H2 run out Hcode Hfile r. split; intros Hc.
- destruct (runTranscription_trace ext this audioPath st s H1 H2 Hc)
    as (s2 & E & D & _).
  fold run in E, D. subst r. rewrite E, Hcode.
  assert (Hread : NodeFs.read_file (World.cwd ext) (World.disk s2)
                    (AudioProcessor.outputPath this audioPath) = Some content)
    by (unfold NodeFs.read_file; rewrite D; exact Hfile).
  pose proof (read_file_exists ext _ _ _ Hread) as Hex.
  assert (Hisfile : NodeFs.is_file (World.disk s2) out = true).
  { unfold NodeFs.is_file. rewrite D, Hfile. apply bool_decide_eq_true_2. eauto. }
  unfold AudioProcessor.on_close, AudioProcessor.settle, AudioProcessor.read_result,
    AudioProcessor.existsSync, AudioProcessor.readFile, AudioProcessor.onProgressUpdate,
    AudioProcessor.unlinkSync, AudioProcessor.fs_step, AudioProcessor.lift_fs,
    AudioProcessor.console_error, NodeFs.unlink.
  monad_unfold. rewrite bool_decide_eq_true_2 by reflexivity.
  cbv beta. rewrite Hex. cbv beta. rewrite Hread.
  cbn [mbind option_bind World.disk World.set_disk World.add_progress].
  fold out. rewrite Hisfile. cbn. rewrite D.
  repeat split. apply in_or_app. right. left. reflexivity.
- subst r. rewrite (runTranscription_closed_early ext this audioPath st s H1 H2 Hc).
  cbn [fst snd]. destruct (World.ffprobe ext audioPath (World.disk s)); split; reflexivity.
Qed.

Lemma result_file_is_removed_after_reading_witness :
  (let r := AudioProcessor.runTranscription (Example.machine Example.recognizer_ok)
              Example.this Example.wav_file Example.settings_en_small
              (Example.start Example.installed) in
   World.files (World.disk (fst r))
   = delete Example.txt_file
       (World.files
          (World.disk_after
             (Example.recognizer_ok (AudioProcessor.venvPython Example.this)
                (AudioProcessor.command Example.this Example.wav_file
                   Example.settings_en_small) Example.installed))) /\
   World.dirs (World.disk (fst r)) = World.dirs Example.installed /\
   In World.TranscriptionComplete (World.progress (fst r))) /\
  (let r := AudioProcessor.runTranscription (Example.machine Failing.recognizer_early)
              Example.this Example.wav_file Example.settings_en_small
              (Example.start Example.installed) in
   World.disk (fst r)
   = World.disk_after
       (Failing.recognizer_early (AudioProcessor.venvPython Example.this)
          (AudioProcessor.command Example.this Example.wav_file
             Example.settings_en_small) Example.installed) /\
   World.progress (fst r) = []).
Proof.
split.
- apply (result_file_is_removed_after_reading (Example.machine Example.recognizer_ok)
           Example.this Example.wav_file Example.settings_en_small
           (Example.start Example.installed) "  hello world  ");
    vm_compute; reflexivity.
- apply (result_file_is_removed_after_reading (Example.machine Failing.recognizer_early)
           Example.this Example.wav_file Example.settings_en_small
           (Example.start Example.installed) "  hello world  ");
    vm_compute; reflexivity.
Defined.

(** ** A dependency found missing late *)

Section LateDependencyCheck.
Import World AudioProcessor Variation.
Variable ext : externals.
Variable this : processor.

Lemma save_mp3_resolved (st : settings) (pluginDir filename tempMp3Path : string)
    (s s' : state) :
  save_mp3 ext st pluginDir filename tempMp3Path s = (s', Settled (Resolved tt)) ->
  let final := NodePath.join [absoluteAudioDir ext st pluginDir; filename +:+ ".mp3"] in
  NodeFs.existsSync (cwd ext) (disk s') final = true /\
  progress s' = (progress s ++ [Mp3Saved final])%list /\
  spawned s' = spawned s.
Proof.
intros H final.
unfold save_mp3, fs_step, lift_fs, existsSync, onProgressUpdate, onError,
  console_error in H.
monad_unfold. fold final in H.
destruct (String.eqb (vaultBasePath ext pluginDir) ""); [discriminate H |].
destruct (NodeFs.mkdir_p (cwd ext) (disk s) _) as [d1 |]; cbn in H; [| discriminate H].
destruct (NodeFs.existsSync (cwd ext) d1 tempMp3Path); cbn in H; [| discriminate H].
destruct (NodeFs.copy_file (cwd ext) d1 tempMp3Path final) as [d2 |];
  cbn in H; [| discriminate H].
destruct (NodeFs.existsSync (cwd ext) d2 final) eqn:E; cbn in H; [| discriminate H].
injection H as <-. cbn. repeat split. exact E.
Qed.

Lemma runTranscription_missing_dependency (audioPath : string) (st : settings)
    (s s' : state) (e : error) :
  runTranscription ext this audioPath st s = (s', Settled (Rejected e)) ->
  missing_dependency e = true ->
  s' = s.
Proof.
intros H He.
destruct (NodeFs.existsSync (cwd ext) (disk s) (mlxWhisperPath this)) eqn:E1.
- destruct (NodeFs.existsSync (cwd ext) (disk s) (venvPython this)) eqn:E2.
  + destruct (closed_early (recognizer ext (venvPython this)
                              (command this audioPath st) (disk s))) eqn:Ec;
      [rewrite (runTranscription_closed_early ext this audioPath st s E1 E2 Ec) in H;
       discriminate H |].
    destruct (runTranscription_trace ext this audioPath st s E1 E2 Ec) as (s2 & E & _).
    rewrite E in H.
    pose proof (on_close_effects ext this audioPath
                  (exit_code (recognizer ext (venvPython this)
                                (command this audioPath st) (disk s)))
                  (Progress.transcription
                     (fst (Progress.on_stdout None Progress.initial
                             (stdout (recognizer ext (venvPython this)
                                        (command this audioPath st) (disk s))))))
                  s2) as (_ & _ & _ & _ & _ & O).
    rewrite H in O. cbn in O.
    destruct O as [-> | [-> | [_ ->]]]; discriminate He.
  + rewrite (runTranscription_no_python ext this audioPath st s E1 E2) in H.
    injection H as <- _. reflexivity.
- rewrite (runTranscription_no_mlx ext this audioPath st s E1) in H.
  injection H as <- _. reflexivity.
Qed.

Lemma up_to_read_back_missing_dependency (audioBlob : string) (st : settings)
    (pluginDir : string) (s s1 : state) (e : error) :
  up_to_read_back ext this audioBlob st pluginDir s = (s1, Settled (Rejected e)) ->
  missing_dependency e = true ->
  let final := NodePath.join [absoluteAudioDir ext st pluginDir;
                              recording_name ext +:+ ".mp3"] in
  NodeFs.existsSync (cwd ext) (disk s1) final = true /\
  In (Mp3Saved final) (progress s1) /\
  spawned s1 = spawned s.
Proof.
intros H He final. unfold up_to_read_back in H. unfold fs_step, readFile, lift_fs in H.
monad_unfold.
destruct (NodeFs.write_file (cwd ext) (disk s) _ audioBlob) as [d0 |]; cbn in H.
2:{ injection H as _ <-. discriminate He. }
match type of H with
| context [convert_both ext this ?a ?b ?s0] =>
    pose proof (convert_both_fields ext this a b s0) as (C1 & _ & _ & _ & C5);
    destruct (convert_both ext this a b s0) as [sc [[[mp3 wav] | ec] |]]
end; cbn in C1, C5, H.
2:{ injection H as _ <-. destruct C5 as [C5 _].
    destruct ec; discriminate C5 || discriminate He. }
2: discriminate H.
match type of H with
| context [save_mp3 ext st pluginDir ?f ?m ?s0] =>
    pose proof (save_mp3_fields ext st pluginDir f m s0) as (_ & _ & _ & S4);
    destruct (save_mp3 ext st pluginDir f m s0) as [ss [[[] | es] |]] eqn:Sv
end; cbn in S4, H.
2:{ injection H as _ <-. destruct S4 as (_ & S4 & _).
    destruct es; discriminate S4 || discriminate He. }
2: discriminate H.
apply save_mp3_resolved in Sv. cbv zeta in Sv. fold final in Sv.
destruct Sv as (V1 & V2 & V3).
destruct (runTranscription ext this wav st ss) as [sr [[text | er] |]] eqn:R; cbn in H.
2:{ injection H as <- <-.
    rewrite (runTranscription_missing_dependency _ _ _ _ _ R He).
    split; [exact V1 |]. split.
    - rewrite V2. apply in_or_app. right. left. reflexivity.
    - rewrite V3, C1. reflexivity. }
2: discriminate H.
destruct (NodeFs.read_file (cwd ext) (disk sr) mp3); cbn in H; [discriminate H |].
injection H as _ <-. discriminate He.
Qed.

End LateDependencyCheck.

(** X19.  The dependency check comes late in [processAudioBlob]: when the
    run fails because the recognizer or the interpreter is missing, the
    recording has already been converted and archived.  The archive copy is
    on the disk at the end, its notice was given to the listener, and no
    recognizer process was started. *)
Theorem missing_dependency_found_after_archive
    (ext : World.externals) (this : AudioProcessor.processor)
    (audioBlob : string) (st : AudioProcessor.settings) (pluginDir : string)
    (s : World.state) (e : World.error) :
  let r := AudioProcessor.processAudioBlob ext this audioBlob st pluginDir s in
  snd r = World.Rejected e ->
  Variation.missing_dependency e = true ->
  let final := NodePath.join [AudioProcessor.absoluteAudioDir ext st pluginDir;
                              AudioProcessor.recording_name ext +:+ ".mp3"] in
  NodeFs.existsSync (World.cwd ext) (World.disk (fst r)) final = true /\
  In (World.Mp3Saved final) (World.progress (fst r)) /\
  World.spawned (fst r) = World.spawned s.
Proof.
intros r Hr He final. subst r. revert Hr.
unfold AudioProcessor.processAudioBlob, AudioProcessor.console_error. monad_unfold.
destruct (AudioProcessor.up_to_read_back ext this audioBlob st pluginDir s)
  as [s1 [[[[[[a b] c] t] m] | e1] |]] eqn:U; [| | cbn; discriminate].
- pose proof (cleanup_outcome ext a b c s1) as [E _].
  destruct (AudioProcessor.cleanup ext a b c s1) as [s2 o]. cbn in E. subst o.
  cbn. discriminate.
- cbn. intros [= ->].
  exact (up_to_read_back_missing_dependency ext this _ _ _ _ _ _ U He).
Qed.

Lemma missing_dependency_found_after_archive_witness :
  let r := AudioProcessor.processAudioBlob (Example.machine Example.recognizer_ok)
             Example.this "webm" Example.settings_en_small "/vault"
             (Example.start Example.no_python) in
  snd r = World.Rejected (World.PythonNotFound (AudioProcessor.venvPython Example.this)) /\
  let final := NodePath.join
                 [AudioProcessor.absoluteAudioDir (Example.machine Example.recognizer_ok)
                    Example.settings_en_small "/vault";
                  AudioProcessor.recording_name (Example.machine Example.recognizer_ok)
                    +:+ ".mp3"] in
  NodeFs.existsSync (World.cwd (Example.machine Example.recognizer_ok))
     (World.disk (fst r)) final = true /\
  In (World.Mp3Saved final) (World.progress (fst r)) /\
  World.spawned (fst r) = [].
Proof.
intros r.
assert (Hr : snd r = World.Rejected
                       (World.PythonNotFound (AudioProcessor.venvPython Example.this)))
  by (vm_compute; reflexivity).
exact (conj Hr
         (missing_dependency_found_after_archive (Example.machine Example.recognizer_ok)
            Example.this "webm" Example.settings_en_small "/vault"
            (Example.start Example.no_python)
            (World.PythonNotFound (AudioProcessor.venvPython Example.this))
            Hr eq_refl)).
Defined.

(** ** The older runner's percentages *)

Section LegacyPatterns.
Import JsString LegacyHandlers.

Lemma span_digits_spec (s : string) :
  s = fst (span_digits s) +:+ snd (span_digits s) /\
  digits_only (fst (span_digits s)) = true /\
  match snd (span_digits s) with
  | String c _ => is_digit c = false
  | EmptyString => True
  end.
Proof.
induction s as [| c r IH]; [repeat split |].
cbn [span_digits]. destruct (is_digit c) eqn:D.
- destruct (span_digits r) as [d rest]. cbn [fst snd] in *.
  destruct IH as (E & F & G). repeat split.
  + change (String c d +:+ rest) with (String c (d +:+ rest)). rewrite <- E. reflexivity.
  + cbn [digits_only]. rewrite D, F. reflexivity.
  + exact G.
- cbn [fst snd]. repeat split. exact D.
Qed.

Lemma startsWith_percent (s : string) :
  startsWith "%" s = true -> exists post, s = "%" +:+ post.
Proof.
destruct s as [| c r]; [discriminate |]. cbn [startsWith].
destruct (Ascii.eqb_spec "%"%char c) as [<- | _]; [| discriminate].
intros _. exists r. reflexivity.
Qed.

Lemma percent_at_sound (s d : string) :
  percent_at s = Some d ->
  d <> "" /\ digits_only d = true /\ exists post, s = d +:+ "%" +:+ post.
Proof.
unfold percent_at. pose proof (span_digits_spec s) as (E & F & _).
destruct (span_digits s) as [d0 rest]. cbn [fst snd] in *.
destruct d0 as [| c d0]; [discriminate |].
destruct (startsWith "%" rest) eqn:P; [| discriminate].
intros [= <-]. split; [discriminate |]. split; [exact F |].
destruct (startsWith_percent _ P) as [post ->]. exists post. exact E.
Qed.

(** Where the pattern does not match at the start, the text does not start
    with a digit followed by the sign. *)
Lemma percent_at_none (c : ascii) (post : string) :
  is_digit c = true -> percent_at (String c ("%" +:+ post)) <> None.
Proof.
intros D. unfold percent_at.
change ("%" +:+ post) with (String "%" post).
cbn [span_digits]. rewrite D. cbn [span_digits].
replace (is_digit "%") with false by reflexivity.
cbn [startsWith]. rewrite Ascii.eqb_refl. discriminate.
Qed.

Lemma percent_match_sound (s d : string) :
  percent_match s = Some d ->
  d <> "" /\ digits_only d = true /\
  exists pre post, s = pre +:+ d +:+ "%" +:+ post.
Proof.
induction s as [| c r IH]; cbn [percent_match].
- destruct (percent_at "") eqn:P; [| discriminate].
  intros [= ->]. destruct (percent_at_sound _ _ P) as (A & B & post & E).
  repeat split; try assumption. exists "", post. exact E.
- destruct (percent_at (String c r)) eqn:P.
  + intros [= ->]. destruct (percent_at_sound _ _ P) as (A & B & post & E).
    repeat split; try assumption. exists "", post. exact E.
  + intros H. destruct (IH H) as (A & B & pre & post & E).
    repeat split; try assumption. exists (String c pre), post.
    change (String c pre +:+ d +:+ "%" +:+ post)
      with (String c (pre +:+ d +:+ "%" +:+ post)).
    rewrite <- E. reflexivity.
Qed.

Lemma percent_match_complete (s : string) :
  percent_match s = None ->
  forall pre c post, s = pre +:+ String c ("%" +:+ post) -> is_digit c = false.
Proof.
induction s as [| a r IH]; cbn [percent_match]; intros H pre c post E.
- destruct pre; discriminate E.
- destruct (percent_at (String a r)) eqn:P; [discriminate H |].
  destruct pre as [| b pre].
  + cbn in E. rewrite E in P.
    destruct (is_digit c) eqn:D; [| reflexivity].
    exfalso. exact (percent_at_none c post D P).
  + change (String b pre +:+ String c ("%" +:+ post))
      with (String b (pre +:+ String c ("%" +:+ post))) in E.
    injection E as _ E. exact (IH H pre c post E).
Qed.

Lemma progress_match_sound (s d : string) :
  progress_match s = Some d ->
  d <> "" /\ digits_only d = true /\
  exists pre post, s = pre +:+ "Progress: " +:+ d +:+ "%" +:+ post.
Proof.
assert (At : forall t, Regex.expect "Progress: " t ≫= percent_at = Some d ->
                       d <> "" /\ digits_only d = true /\
                       exists post, t = "Progress: " +:+ d +:+ "%" +:+ post).
{ intros t Ht. apply bind_Some in Ht. destruct Ht as (rest & Ex & P).
  destruct (percent_at_sound _ _ P) as (A & B & post & E).
  repeat split; try assumption. exists post. subst rest.
  revert Ex. generalize (d +:+ "%" +:+ post). intros u Ex.
  do 10 (destruct t as [| ? t]; [discriminate Ex |];
         cbn [Regex.expect] in Ex;
         match type of Ex with
         | (if Ascii.eqb ?x ?y then _ else _) = _ =>
             destruct (Ascii.eqb_spec x y) as [<- |]; [| discriminate Ex]
         end).
  cbn [Regex.expect] in Ex. injection Ex as ->. reflexivity. }
induction s as [| c r IH]; cbn [progress_match].
- destruct (Regex.expect "Progress: " "" ≫= percent_at) eqn:P; [| discriminate].
  intros [= ->]. destruct (At _ P) as (A & B & post & E).
  repeat split; try assumption. exists "", post. exact E.
- destruct (Regex.expect "Progress: " (String c r) ≫= percent_at) eqn:P.
  + intros [= ->]. destruct (At _ P) as (A & B & post & E).
    repeat split; try assumption. exists "", post. exact E.
  + intros H. destruct (IH H) as (A & B & pre & post & E).
    repeat split; try assumption. exists (String c pre), post.
    change (String c pre +:+ "Progress: " +:+ d +:+ "%" +:+ post)
      with (String c (pre +:+ "Progress: " +:+ d +:+ "%" +:+ post)).
    rewrite <- E. reflexivity.
Qed.

Lemma span_digits_run (d post : string) :
  digits_only d = true ->
  span_digits (d +:+ "%" +:+ post) = (d, "%" +:+ post).
Proof.
induction d as [| c d IH]; intros H.
- reflexivity.
- cbn [digits_only] in H. apply andb_prop in H as [Hc Hd].
  change (String c d +:+ "%" +:+ post) with (String c (d +:+ "%" +:+ post)).
  cbn [span_digits]. rewrite Hc, (IH Hd). reflexivity.
Qed.

Lemma percent_at_complete (d post : string) :
  d <> "" -> digits_only d = true ->
  percent_at (d +:+ "%" +:+ post) = Some d.
Proof.
intros Hne Hd. unfold percent_at. rewrite (span_digits_run d post Hd).
destruct d as [| c d]; [contradiction Hne; reflexivity |].
change ("%" +:+ post) with (String "%" post). cbn [startsWith].
rewrite Ascii.eqb_refl. reflexivity.
Qed.

(** Where the pattern finds nothing, the text holds no run of digits
    between [Progress: ] and the sign. *)
Lemma progress_match_complete (s : string) :
  progress_match s = None ->
  forall pre d post,
    s = pre +:+ "Progress: " +:+ d +:+ "%" +:+ post ->
    d = "" \/ digits_only d = false.
Proof.
intros H pre d post E.
destruct d as [| c d]; [left; reflexivity |]. right.
destruct (digits_only (String c d)) eqn:Hd; [exfalso | reflexivity].
revert s H E. induction pre as [| a pre IH]; intros s H E.
- assert (A : Regex.expect "Progress: " s ≫= percent_at = Some (String c d)).
  { rewrite E. change ("" +:+ "Progress: " +:+ String c d +:+ "%" +:+ post)
      with ("Progress: " +:+ String c d +:+ "%" +:+ post).
    rewrite expect_append. cbn [mbind option_bind].
    apply percent_at_complete; [discriminate | exact Hd]. }
  destruct s as [| x s]; cbn [progress_match] in H; rewrite A in H; discriminate H.
- change (String a pre +:+ "Progress: " +:+ String c d +:+ "%" +:+ post)
    with (String a (pre +:+ "Progress: " +:+ String c d +:+ "%" +:+ post)) in E.
  subst s. cbn [progress_match] in H.
  destruct (Regex.expect "Progress: " _ ≫= percent_at); [discriminate H |].
  exact (IH _ H eq_refl).
Qed.

Lemma progress_at_complete (d post : string) :
  d <> "" -> digits_only d = true ->
  Regex.expect "Progress: " ("Progress: " +:+ d +:+ "%" +:+ post) ≫= percent_at = Some d.
Proof.
intros N D. rewrite expect_append. cbn [mbind option_bind].
apply percent_at_complete; assumption.
Qed.

Lemma progress_at_sound (t d : string) :
  Regex.expect "Progress: " t ≫= percent_at = Some d ->
  exists post, t = "Progress: " +:+ d +:+ "%" +:+ post.
Proof.
intros Ht. apply bind_Some in Ht. destruct Ht as (rest & Ex & P).
destruct (percent_at_sound _ _ P) as (_ & _ & post & E).
exists post. subst rest.
revert Ex. generalize (d +:+ "%" +:+ post). intros u Ex.
do 10 (destruct t as [| ? t]; [discriminate Ex |];
       cbn [Regex.expect] in Ex;
       match type of Ex with
       | (if Ascii.eqb ?x ?y then _ else _) = _ =>
           destruct (Ascii.eqb_spec x y) as [<- |]; [| discriminate Ex]
       end).
cbn [Regex.expect] in Ex. injection Ex as ->. reflexivity.
Qed.

(** The run of digits found is the one of the first place in the text where
    the pattern matches. *)
Lemma progress_match_first (s d : string) :
  progress_match s = Some d ->
  exists pre post,
    s = pre +:+ "Progress: " +:+ d +:+ "%" +:+ post /\
    forall pre' d' post',
      s = pre' +:+ "Progress: " +:+ d' +:+ "%" +:+ post' ->
      d' <> "" -> digits_only d' = true ->
      (String.length pre <= String.length pre')%nat.
Proof.
revert d. induction s as [| c r IH]; intros d H.
- destruct (progress_match_sound _ _ H) as (_ & _ & pre & post & E).
  destruct pre; discriminate E.
- cbn [progress_match] in H.
  destruct (Regex.expect "Progress: " (String c r) ≫= percent_at) as [d0 |] eqn:P.
  + injection H as ->. destruct (progress_at_sound _ _ P) as [post E].
    exists "", post. split; [exact E | intros; cbn; lia].
  + destruct (IH _ H) as (pre & post & E & F).
    exists (String c pre), post. split.
    * change (String c pre +:+ "Progress: " +:+ d +:+ "%" +:+ post)
        with (String c (pre +:+ "Progress: " +:+ d +:+ "%" +:+ post)).
      rewrite <- E. reflexivity.
    * intros pre' d' post' E' N' D'. destruct pre' as [| a pre'].
      -- exfalso. rewrite E' in P.
         change ("" +:+ "Progress: " +:+ d' +:+ "%" +:+ post')
           with ("Progress: " +:+ d' +:+ "%" +:+ post') in P.
         rewrite (progress_at_complete d' post' N' D') in P. discriminate P.
      -- change (String a pre' +:+ "Progress: " +:+ d' +:+ "%" +:+ post')
           with (String a (pre' +:+ "Progress: " +:+ d' +:+ "%" +:+ post')) in E'.
         injection E' as _ E'. specialize (F pre' d' post' E' N' D').
         cbn [String.length]. lia.
Qed.

End LegacyPatterns.

(** X20.  What one read of the older runner's standard error leads to.  It
    is one of three things.  A percentage is shown: then the read holds a
    [%], and the text shown is a non-empty run of digits that stands right
    before a [%] in the read.  Or an error is logged and shown, both with
    the whole read: then the read holds no [%] and holds [Error] or
    [error].  Or nothing happens: then either the read holds a [%] with no
    digit right before any [%], or it holds neither [%] nor [Error] nor
    [error].  So a read with a [%] is never reported as an error. *)
Theorem legacy_stderr_reports (output : string) :
  match LegacyHandlers.on_stderr_data output with
  | [LegacyHandlers.ProgressUpdate d] =>
      JsString.includes "%" output = true /\
      d <> "" /\ LegacyHandlers.digits_only d = true /\
      exists pre post, output = pre +:+ d +:+ "%" +:+ post
  | [LegacyHandlers.ConsoleError logged; LegacyHandlers.OnError shown] =>
      logged = output /\ shown = output /\
      JsString.includes "%" output = false /\
      (JsString.includes "Error" output = true \/ JsString.includes "error" output = true)
  | [] =>
      (JsString.includes "%" output = true /\
       forall pre c post, output = pre +:+ String c ("%" +:+ post) ->
                          JsString.is_digit c = false) \/
      (JsString.includes "%" output = false /\
       JsString.includes "Error" output = false /\
       JsString.includes "error" output = false)
  | _ => False
  end.
Proof.
unfold LegacyHandlers.on_stderr_data.
destruct (JsString.includes "%" output) eqn:P.
- destruct (LegacyHandlers.percent_match output) as [d |] eqn:M.
  + destruct (percent_match_sound _ _ M) as (A & B & C). repeat split; assumption.
  + left. split; [reflexivity |]. exact (percent_match_complete _ M).
- destruct (JsString.includes "Error" output) eqn:E1; cbn [orb].
  + repeat split. left. reflexivity.
  + destruct (JsString.includes "error" output) eqn:E2.
    * repeat split. right. reflexivity.
    * right. repeat split.
Qed.

(** X21.  What one read of the older runner's standard output leads to.
    The read is always appended to the transcript.  Either one percentage
    is shown: then the text shown is a non-empty run of digits that stands
    between [Progress: ] and [%] in the read, shown as written, and it is
    the first one: no run of digits stands between [Progress: ] and [%]
    earlier in the read.  Or nothing is shown: then no run of digits (of one
    digit or more) stands between [Progress: ] and [%] anywhere in the
    read. *)
Theorem legacy_stdout_reports (transcription output : string) :
  snd (LegacyHandlers.on_stdout_data transcription output) = transcription +:+ output /\
  match fst (LegacyHandlers.on_stdout_data transcription output) with
  | [] =>
      forall pre d post,
        output = pre +:+ "Progress: " +:+ d +:+ "%" +:+ post ->
        d = "" \/ LegacyHandlers.digits_only d = false
  | [LegacyHandlers.ProgressUpdate d] =>
      d <> "" /\ LegacyHandlers.digits_only d = true /\
      exists pre post,
        output = pre +:+ "Progress: " +:+ d +:+ "%" +:+ post /\
        forall pre' d' post',
          output = pre' +:+ "Progress: " +:+ d' +:+ "%" +:+ post' ->
          d' <> "" -> LegacyHandlers.digits_only d' = true ->
          (String.length pre <= String.length pre')%nat
  | _ => False
  end.
Proof.
unfold LegacyHandlers.on_stdout_data. cbn [fst snd]. split; [reflexivity |].
destruct (LegacyHandlers.progress_match output) as [d |] eqn:M.
- destruct (progress_match_sound _ _ M) as (A & B & _).
  split; [exact A |]. split; [exact B |]. exact (progress_match_first _ _ M).
- exact (progress_match_complete _ M).
Qed.

(** ** The plugin's flags and what it shows *)

Section PluginSteps.
Import World Plugin.
Variable ext : externals.

Ltac plugin_unfold :=
  unfold step, startRecording, stopRecording, cancelTranscription,
    processAudio_settles, transcribe_begins, transcribe_settles, onunload,
    stopRecording, failed, finally, heard.

Ltac flags_done := cbn; repeat split; auto; try discriminate.

Lemma step_keeps_flags (h : host) (ev : event) (p : plugin) :
  cancelButtonShown p = isProcessing p ->
  ribbonRecording p = isRecording p ->
  (isRecording p = true -> mediaRecorder p = true) ->
  cancelButtonShown (step ext h ev p) = isProcessing (step ext h ev p) /\
  ribbonRecording (step ext h ev p) = isRecording (step ext h ev p) /\
  (isRecording (step ext h ev p) = true -> mediaRecorder (step ext h ev p) = true) /\
  audioProcessor (step ext h ev p) = audioProcessor p /\
  settings (step ext h ev p) = settings p.
Proof.
intros A B C. destruct ev; plugin_unfold.
- destruct (getUserMedia h && isTypeSupported h); flags_done.
- destruct (mediaRecorder p && isRecording p); flags_done.
- destruct (negb (isProcessing p)); [flags_done |].
  destruct (snd (AudioProcessor.cancelProcessing ext (processorState p)))
    as [[[] | e] |]; flags_done.
- destruct o as [[t m] | e]; [| flags_done].
  cbv zeta. destruct (createBinary h _ m); [destruct (activeMarkdownView h) |];
    flags_done.
- destruct (getAbstractFileByPath h filePath) as [[|] |]; flags_done.
- destruct o as [t | e]; [destruct (activeMarkdownView h) |]; flags_done.
- flags_done.
- destruct (isRecording p) eqn:R; [| flags_done; congruence].
  destruct (mediaRecorder p && true); flags_done; congruence.
Qed.

Lemma run_keeps_flags (evs : list (host * event)) (p : plugin) :
  cancelButtonShown p = isProcessing p ->
  ribbonRecording p = isRecording p ->
  (isRecording p = true -> mediaRecorder p = true) ->
  cancelButtonShown (run ext evs p) = isProcessing (run ext evs p) /\
  ribbonRecording (run ext evs p) = isRecording (run ext evs p) /\
  (isRecording (run ext evs p) = true -> mediaRecorder (run ext evs p) = true) /\
  audioProcessor (run ext evs p) = audioProcessor p /\
  settings (run ext evs p) = settings p.
Proof.
revert p. induction evs as [| [h ev] rest IH]; intros p A B C; cbn [run].
- auto.
- destruct (step_keeps_flags h ev p A B C) as (A1 & B1 & C1 & D1 & E1).
  destruct (IH _ A1 B1 C1) as (A2 & B2 & C2 & D2 & E2).
  rewrite D2, E2. auto.
Qed.

Lemma onload_state (h : host) (st : AudioProcessor.settings) (w : state) (p : plugin) :
  onload ext h st w = Some p ->
  isRecording p = false /\ isProcessing p = false /\ ribbonRecording p = false /\
  statusBarShown p = false /\ cancelButtonShown p = false /\
  settings p = st /\
  audioProcessor p
  = AudioProcessor.new (home ext) (NodePath.join [tmpdir h; "obsidian-whisper"]).
Proof.
unfold onload. intros H.
apply bind_Some in H. destruct H as (d1 & _ & H).
apply bind_Some in H. destruct H as (d2 & _ & H).
injection H as <-. cbn. repeat split.
Qed.

End PluginSteps.

(** X22.  Whatever happens to a loaded plugin, in whatever order
    (recordings started and stopped, cancellations, transcriptions of files
    begun, the processor settling with any outcome, unloading), after each
    event the cancel button is visible exactly when [isProcessing] is set,
    the ribbon icon is marked exactly when [isRecording] is set, a recorder
    exists whenever [isRecording] is set, and the processor and the settings
    are those of [onload]. *)
Theorem cancel_button_follows_isProcessing
    (ext : World.externals) (h : Plugin.host) (st : AudioProcessor.settings)
    (w : World.state) (p0 : Plugin.plugin) (evs : list (Plugin.host * Plugin.event)) :
  Plugin.onload ext h st w = Some p0 ->
  let p := Plugin.run ext evs p0 in
  Plugin.cancelButtonShown p = Plugin.isProcessing p /\
  Plugin.ribbonRecording p = Plugin.isRecording p /\
  (Plugin.isRecording p = true -> Plugin.mediaRecorder p = true) /\
  Plugin.audioProcessor p
  = AudioProcessor.new (World.home ext)
      (NodePath.join [Plugin.tmpdir h; "obsidian-whisper"]) /\
  Plugin.settings p = st.
Proof.
intros H p. subst p.
destruct (onload_state ext h st w p0 H) as (R & P & Rb & _ & Cb & S & Ap).
assert (A : Plugin.cancelButtonShown p0 = Plugin.isProcessing p0) by congruence.
assert (B : Plugin.ribbonRecording p0 = Plugin.isRecording p0) by congruence.
assert (C : Plugin.isRecording p0 = true -> Plugin.mediaRecorder p0 = true)
  by (rewrite R; discriminate).
destruct (run_keeps_flags ext evs p0 A B C) as (A1 & B1 & C1 & D1 & E1).
rewrite D1, E1. auto.
Qed.

Lemma cancel_button_follows_isProcessing_witness :
  let p := Plugin.run PluginExample.machine PluginExample.second_recording
             PluginExample.loaded_plugin in
  Plugin.cancelButtonShown p = Plugin.isProcessing p /\
  Plugin.ribbonRecording p = Plugin.isRecording p /\
  (Plugin.isRecording p = true -> Plugin.mediaRecorder p = true) /\
  Plugin.audioProcessor p
  = AudioProcessor.new (World.home PluginExample.machine)
      (NodePath.join [Plugin.tmpdir PluginExample.desk; "obsidian-whisper"]) /\
  Plugin.settings p = Example.settings_en_small.
Proof.
apply (cancel_button_follows_isProcessing PluginExample.machine PluginExample.desk
         Example.settings_en_small (Example.start Example.installed)).
vm_compute. reflexivity.
Defined.

(** X23.  The status bar can be lost.  When the processing of one recording
    settles (with any outcome) while a later recording is running, the
    status bar is hidden although the recording goes on; and when that
    recording is stopped, its processing starts with the cancel button shown
    and the status bar still hidden. *)
Theorem settling_hides_status_bar_of_running_recording
    (ext : World.externals) (h : Plugin.host) (w : World.state)
    (o : World.outcome (string * string)) (p : Plugin.plugin) :
  Plugin.isRecording p = true ->
  Plugin.mediaRecorder p = true ->
  let p1 := Plugin.step ext h (Plugin.ProcessAudioSettles w o) p in
  let p2 := Plugin.step ext h Plugin.StopRecording p1 in
  (Plugin.isRecording p1 = true /\ Plugin.statusBarShown p1 = false) /\
  (Plugin.isProcessing p2 = true /\ Plugin.cancelButtonShown p2 = true /\
   Plugin.statusBarShown p2 = false).
Proof.
intros R M p1 p2.
assert (R1 : Plugin.isRecording p1 = true /\ Plugin.mediaRecorder p1 = true /\
             Plugin.statusBarShown p1 = false).
{ subst p1. unfold Plugin.step, Plugin.processAudio_settles, Plugin.failed,
    Plugin.finally, Plugin.heard.
  destruct o as [[t m] | e]; [| cbn; auto].
  cbv zeta. destruct (Plugin.createBinary h _ m);
    [destruct (Plugin.activeMarkdownView h) |]; cbn; auto. }
destruct R1 as (R1 & M1 & S1). split; [auto |].
subst p2. unfold Plugin.step, Plugin.stopRecording. rewrite R1, M1. cbn. auto.
Qed.

Lemma settling_hides_status_bar_of_running_recording_witness :
  Plugin.statusBarShown PluginExample.recording_again = true /\
  let p1 := Plugin.step PluginExample.machine PluginExample.desk
              (Plugin.ProcessAudioSettles
                 (Plugin.processorState PluginExample.recording_again)
                 (World.Resolved ("hello world", "mp3")))
              PluginExample.recording_again in
  let p2 := Plugin.step PluginExample.machine PluginExample.desk
              Plugin.StopRecording p1 in
  (Plugin.isRecording p1 = true /\ Plugin.statusBarShown p1 = false) /\
  (Plugin.isProcessing p2 = true /\ Plugin.cancelButtonShown p2 = true /\
   Plugin.statusBarShown p2 = false).
Proof.
split; [vm_compute; reflexivity |].
apply settling_hides_status_bar_of_running_recording; vm_compute; reflexivity.
Defined.

(** X24.  [cancelTranscription] does nothing at all unless [isProcessing]
    is set: the processor is not even asked to cancel.  When it is set, the
    flag is cleared, both status bar items are hidden and one notice is
    shown, whether or not a kill throws in the processor; the disk is not
    touched; and a second cancellation right after changes nothing. *)
Theorem cancelTranscription_guarded_and_idempotent
    (ext : World.externals) (p : Plugin.plugin) :
  let p' := Plugin.cancelTranscription ext p in
  (Plugin.isProcessing p = false -> p' = p) /\
  (Plugin.isProcessing p = true ->
   Plugin.isProcessing p' = false /\
   Plugin.cancelButtonShown p' = false /\
   Plugin.statusBarShown p' = false /\
   Plugin.notices p' = (Plugin.notices p ++ [Plugin.TranscriptionCancelled])%list /\
   World.disk (Plugin.processorState p') = World.disk (Plugin.processorState p) /\
   Plugin.cancelTranscription ext p' = p').
Proof.
intros p'.
assert (E : Plugin.isProcessing p = true ->
            p' = Plugin.add_notices [Plugin.TranscriptionCancelled]
                   (Plugin.set_cancelButtonShown false
                      (Plugin.set_statusBarShown false
                         (Plugin.set_isProcessing false
                            (Plugin.set_processorState
                               (fst (AudioProcessor.cancelProcessing ext
                                       (Plugin.processorState p))) p))))).
{ intros H. subst p'. unfold Plugin.cancelTranscription. rewrite H. cbn [negb].
  destruct (cancel_never_throws ext (Plugin.processorState p)) as (A & _).
  rewrite A. reflexivity. }
split; intros H.
- subst p'. unfold Plugin.cancelTranscription. rewrite H. reflexivity.
- rewrite (E H). cbn.
  destruct (cancel_never_throws ext (Plugin.processorState p)) as (_ & B & _).
  rewrite B. repeat split.
Qed.

(** [cancelProcessing] makes no call of [onError]. *)
Lemma cancel_reports_nothing (ext : World.externals) (s : World.state) :
  World.errors (fst (AudioProcessor.cancelProcessing ext s)) = World.errors s.
Proof.
unfold AudioProcessor.cancelProcessing, AudioProcessor.kill,
  AudioProcessor.console_error. monad_unfold.
destruct (World.currentFfmpegCommand s) as [p |] eqn:Ef.
- destruct (World.kill_throws ext p); cbn;
    (destruct (World.currentChildProcess s) as [q |]; cbn;
     [destruct (World.kill_throws ext q); cbn |]; reflexivity).
- cbn. destruct (World.currentChildProcess s) as [q |]; cbn;
    [destruct (World.kill_throws ext q); cbn |]; reflexivity.
Qed.

(** X25.  A cancelled run is also reported as a failure.  After a
    cancellation, when the processor's promise is rejected (as it is once
    its process was stopped), [processAudio] shows its failure notice: the
    user is told of the cancellation, then of whatever the processor has
    reported through [onError] since, then of a failure, and nothing is
    stored or inserted. *)
Theorem cancelled_run_is_reported_as_failure
    (ext : World.externals) (h : Plugin.host) (w : World.state) (e : World.error)
    (p : Plugin.plugin) :
  Plugin.isProcessing p = true ->
  let p' := Plugin.step ext h (Plugin.ProcessAudioSettles w (World.Rejected e))
              (Plugin.step ext h Plugin.CancelTranscription p) in
  Plugin.notices p'
  = (Plugin.notices p ++ [Plugin.TranscriptionCancelled]
       ++ map Plugin.OnError (Plugin.reported (Plugin.processorState p) w)
       ++ [Plugin.AudioProcessingError])%list /\
  Plugin.created p' = Plugin.created p /\
  Plugin.inserted p' = Plugin.inserted p /\
  Plugin.isProcessing p' = false.
Proof.
intros H p'. subst p'.
unfold Plugin.step, Plugin.cancelTranscription, Plugin.processAudio_settles,
  Plugin.failed, Plugin.finally, Plugin.heard, Plugin.reported.
rewrite H. cbn [negb].
destruct (cancel_never_throws ext (Plugin.processorState p)) as (A & _).
rewrite A. cbn. rewrite cancel_reports_nothing, <- !app_assoc. repeat split.
Qed.

Lemma cancelled_run_is_reported_as_failure_witness :
  let w := World.add_errors [World.TranscriptionError "Error: stopped"]
             (Plugin.processorState PluginExample.processing) in
  let p' := Plugin.step PluginExample.machine PluginExample.desk
              (Plugin.ProcessAudioSettles w
                 (World.Rejected (World.TranscriptionFailed "")))
              (Plugin.step PluginExample.machine PluginExample.desk
                 Plugin.CancelTranscription PluginExample.processing) in
  Plugin.notices p'
  = (Plugin.notices PluginExample.processing
       ++ [Plugin.TranscriptionCancelled;
           Plugin.OnError (World.TranscriptionError "Error: stopped");
           Plugin.AudioProcessingError])%list /\
  Plugin.created p' = Plugin.created PluginExample.processing /\
  Plugin.inserted p' = Plugin.inserted PluginExample.processing /\
  Plugin.isProcessing p' = false.
Proof.
intros w.
apply (cancelled_run_is_reported_as_failure PluginExample.machine PluginExample.desk
         w (World.TranscriptionFailed "") PluginExample.processing).
vm_compute. reflexivity.
Defined.

(** ** Trimming twice *)

Section Trim.
Import JsString.











End Trim.

(** ** What the processor reports on the way *)

Section RunnerReports.
Import World AudioProcessor.
Variable ext : externals.
Variable this : processor.



End RunnerReports.

(** ** What reaches the note *)

Section PluginRuns.
Import World Plugin.
Variable ext : externals.

Lemma transcribe_begins_fields (h : host) (filePath : string) (p : plugin) :
  let b := transcribe_begins h filePath p in
  settings (fst b) = settings p /\ audioProcessor (fst b) = audioProcessor p /\
  processorState (fst b) = processorState p /\
  inserted (fst b) = inserted p /\ created (fst b) = created p /\
  notices (fst b) = (notices p ++ [TranscriptionStarted])%list /\
  snd b = match getAbstractFileByPath h filePath with
          | Some true => NodePath.join [getBasePath h; filePath]
          | _ => filePath
          end.
Proof.
unfold transcribe_begins.
destruct (getAbstractFileByPath h filePath) as [[|] |]; cbn; repeat split.
Qed.

Lemma heard_fields (w : state) (p : plugin) :
  settings (heard w p) = settings p /\ audioProcessor (heard w p) = audioProcessor p /\
  isProcessing (heard w p) = isProcessing p /\
  inserted (heard w p) = inserted p /\ created (heard w p) = created p /\
  logged (heard w p) = logged p /\
  notices (heard w p)
  = (notices p ++ map OnError (reported (processorState p) w))%list.
Proof.
unfold heard. cbn. repeat split.
Qed.

Lemma transcribe_settles_fields (h : host) (o : outcome string) (p : plugin) :
  let p' := transcribe_settles h o p in
  isProcessing p' = false /\ created p' = created p /\
  inserted p'
  = (inserted p ++ match o with
                   | Resolved result =>
                       if activeMarkdownView h then [JsString.trim result] else []
                   | Rejected _ => []
                   end)%list /\
  notices p'
  = (notices p ++ match o with
                  | Resolved _ => if activeMarkdownView h then [TranscriptionDone] else []
                  | Rejected _ => [AudioProcessingError]
                  end)%list.
Proof.
unfold transcribe_settles, failed, finally.
destruct o as [result | e]; [destruct (activeMarkdownView h) |]; cbn;
  rewrite ?app_nil_r; repeat split.
Qed.

Lemma processAudio_settles_fields (h : host) (o : outcome (string * string))
    (p : plugin) :
  let p' := processAudio_settles h o p in
  let stored :=
    match o with
    | Resolved (_, mp3Buffer) =>
        createBinary h (NodePath.join [AudioProcessor.audioDir (settings p); filename h])
          mp3Buffer
    | Rejected _ => false
    end in
  isProcessing p' = false /\
  created p'
  = (created p ++ match o with
                  | Resolved (_, mp3Buffer) =>
                      if stored
                      then [(NodePath.join [AudioProcessor.audioDir (settings p);
                                            filename h], mp3Buffer)]
                      else []
                  | Rejected _ => []
                  end)%list /\
  inserted p'
  = (inserted p ++ match o with
                   | Resolved (transcription, _) =>
                       if stored && activeMarkdownView h
                       then [embed (filename h) transcription] else []
                   | Rejected _ => []
                   end)%list /\
  notices p'
  = (notices p ++ if stored then
                    if activeMarkdownView h then [TranscriptionDone] else []
                  else [AudioProcessingError])%list.
Proof.
unfold processAudio_settles, failed, finally.
destruct o as [[t m] | e]; cbv zeta;
  [destruct (createBinary h _ m); [destruct (activeMarkdownView h) |] |]; cbn;
  rewrite ?app_nil_r; repeat split.
Qed.

End PluginRuns.



(** X27.  With no note open, nothing reaches a note and no completion is
    announced.  Neither [processAudio] nor [transcribeExternalFile] inserts
    anything.  Besides the notices of what the processor reported through
    [onError] on its way, the only notice [processAudio] may add is the
    failure notice, and [transcribeExternalFile] adds its start notice and
    at most the failure notice.  When the processor succeeded and the vault
    took the file, [processAudio] stores the mp3 and adds no notice of its
    own: the transcription is dropped without a word. *)
Theorem without_open_note_the_text_is_dropped
    (ext : World.externals) (h : Plugin.host) (audioBlob filePath : string)
    (p : Plugin.plugin) :
  Plugin.activeMarkdownView h = false ->
  let s := Plugin.processorState p in
  let r := WhisperPlugin.processAudio ext (Plugin.audioProcessor p)
             (Plugin.getBasePath h) (Plugin.settings p) audioBlob s in
  let realFilePath :=
    match Plugin.getAbstractFileByPath h filePath with
    | Some true => NodePath.join [Plugin.getBasePath h; filePath]
    | _ => filePath
    end in
  let r2 := AudioProcessor.transcribeExternalFile ext (Plugin.audioProcessor p)
              realFilePath (Plugin.settings p) s in
  let told1 := map Plugin.OnError (Plugin.reported s (fst r)) in
  let told2 := map Plugin.OnError (Plugin.reported s (fst r2)) in
  let p1 := Plugin.processAudio ext h audioBlob p in
  let p2 := Plugin.transcribeExternalFile ext h filePath p in
  Plugin.inserted p1 = Plugin.inserted p /\
  Plugin.inserted p2 = Plugin.inserted p /\
  (Plugin.notices p1 = (Plugin.notices p ++ told1)%list \/
   Plugin.notices p1
   = (Plugin.notices p ++ told1 ++ [Plugin.AudioProcessingError])%list) /\
  (Plugin.notices p2
   = (Plugin.notices p ++ [Plugin.TranscriptionStarted] ++ told2)%list \/
   Plugin.notices p2
   = (Plugin.notices p ++ [Plugin.TranscriptionStarted] ++ told2
        ++ [Plugin.AudioProcessingError])%list) /\
  (forall transcription mp3Buffer,
      snd r = World.Resolved (transcription, mp3Buffer) ->
      let normalizedPath :=
        NodePath.join [AudioProcessor.audioDir (Plugin.settings p); Plugin.filename h] in
      Plugin.createBinary h normalizedPath mp3Buffer = true ->
      Plugin.notices p1 = (Plugin.notices p ++ told1)%list /\
      Plugin.logged p1 = Plugin.logged p /\
      Plugin.created p1 = (Plugin.created p ++ [(normalizedPath, mp3Buffer)])%list).
Proof.
intros Hview s r realFilePath r2 told1 told2 p1 p2.
assert (I1 : Plugin.inserted p1 = Plugin.inserted p /\
             (Plugin.notices p1 = (Plugin.notices p ++ told1)%list \/
              Plugin.notices p1
              = (Plugin.notices p ++ told1 ++ [Plugin.AudioProcessingError])%list)).
{ subst p1. unfold Plugin.processAudio. fold s. fold r.
  destruct (heard_fields (fst r) p) as (G1 & _ & _ & G4 & _ & _ & G7).
  fold s in G7. fold told1 in G7.
  destruct (snd r) as [o |]; [| rewrite G4, G7; auto].
  destruct (processAudio_settles_fields h o (Plugin.heard (fst r) p))
    as (_ & _ & S3 & S4).
  cbv zeta in S3, S4. rewrite S3, S4, Hview, G1, G4, G7.
  rewrite andb_false_r.
  split.
  - destruct o as [[t m] | e]; apply app_nil_r.
  - destruct (match o with
              | World.Resolved (_, m) => Plugin.createBinary h _ m
              | World.Rejected _ => false
              end); [left; apply app_nil_r | right; symmetry; apply app_assoc]. }
assert (I2 : Plugin.inserted p2 = Plugin.inserted p /\
             (Plugin.notices p2
              = (Plugin.notices p ++ [Plugin.TranscriptionStarted] ++ told2)%list \/
              Plugin.notices p2
              = (Plugin.notices p ++ [Plugin.TranscriptionStarted] ++ told2
                   ++ [Plugin.AudioProcessingError])%list)).
{ subst p2. unfold Plugin.transcribeExternalFile.
  destruct (transcribe_begins_fields h filePath p)
    as (B1 & B2 & B3 & B4 & _ & B6 & B7).
  cbv zeta in B1, B2, B3, B4, B6, B7. fold realFilePath in B7.
  rewrite B1, B2, B3, B7. fold s. fold r2.
  destruct (heard_fields (fst r2) (fst (Plugin.transcribe_begins h filePath p)))
    as (_ & _ & _ & G4 & _ & _ & G7).
  rewrite B3, B4, B6 in *. fold s in G7. fold told2 in G7.
  destruct (snd r2) as [o |]; [| rewrite G4, G7, <- !app_assoc; auto].
  match goal with
  | |- context [Plugin.transcribe_settles h o ?q] =>
      destruct (transcribe_settles_fields h o q) as (_ & _ & S3 & S4);
      cbv zeta in S3, S4; rewrite S3, S4, G4, G7; destruct o as [t | e]
  end; rewrite ?Hview, ?app_nil_r, <- ?app_assoc; auto. }
destruct I1 as (I1 & N1). destruct I2 as (I2 & N2).
split; [exact I1 |]. split; [exact I2 |]. split; [exact N1 |]. split; [exact N2 |].
intros t m Hr normalizedPath Hc. subst p1. unfold Plugin.processAudio. fold s. fold r.
rewrite Hr.
destruct (heard_fields (fst r) p) as (G1 & _ & _ & _ & G5 & G6 & G7).
fold s in G7. fold told1 in G7.
unfold Plugin.processAudio_settles. cbv zeta. rewrite G1. fold normalizedPath.
rewrite Hc, Hview. unfold Plugin.finally. cbn [Plugin.notices Plugin.logged
  Plugin.created Plugin.set_isProcessing Plugin.set_cancelButtonShown
  Plugin.set_statusBarShown Plugin.add_created].
rewrite G5, G6, G7. repeat split.
Qed.

Lemma without_open_note_the_text_is_dropped_witness :
  let ext := Variation.with_stderr ["Error: low memory"] PluginExample.machine in
  let p := PluginExample.loaded_plugin in
  let p1 := Plugin.processAudio ext PluginExample.no_note "webm" p in
  let p2 := Plugin.transcribeExternalFile ext PluginExample.no_note
              Example.wav_file p in
  (Plugin.inserted p1 = Plugin.inserted p /\ Plugin.inserted p2 = Plugin.inserted p) /\
  let normalizedPath :=
    NodePath.join [AudioProcessor.audioDir (Plugin.settings p);
                   Plugin.filename PluginExample.no_note] in
  Plugin.notices p1
  = (Plugin.notices p
       ++ [Plugin.OnError (World.TranscriptionError "Error: low memory")])%list /\
  Plugin.logged p1 = Plugin.logged p /\
  Plugin.created p1 = (Plugin.created p ++ [(normalizedPath, "mp3")])%list.
Proof.
intros ext p p1 p2.
destruct (without_open_note_the_text_is_dropped ext
            PluginExample.no_note "webm" Example.wav_file p eq_refl)
  as (A & B & _ & _ & W).
split; [exact (conj A B) |].
destruct (W "hello world" "mp3") as (N & L & C); [vm_compute; reflexivity .. |].
split; [| exact (conj L C)].
etransitivity; [exact N |]. vm_compute. reflexivity.
Defined.

(** ** The archive copy on the example machine *)

Lemma save_mp3_makes_directory_first_witness :
  let ext := Example.machine Example.recognizer_ok in
  let s := Example.start
             (World.Fs (<[Example.mp3_file := "mp3"]> (World.files Example.installed))
                (World.dirs Example.installed)) in
  let s' := fst (AudioProcessor.save_mp3 ext Example.settings_en_small "/vault/plugin"
                   "Recording 2025-01-02T0304" Example.mp3_file s) in
  let dir := AudioProcessor.absoluteAudioDir ext Example.settings_en_small
               "/vault/plugin" in
  let final := NodePath.join [dir; "Recording 2025-01-02T0304" +:+ ".mp3"] in
  exists d1,
    NodeFs.mkdir_p (World.cwd ext) (World.disk s) dir = Some d1 /\
    NodeFs.copy_file (World.cwd ext) d1 Example.mp3_file final = Some (World.disk s') /\
    NodeFs.is_dir d1 (NodePath.dirname (NodeFs.canon (World.cwd ext) final)) = true /\
    NodeFs.read_file (World.cwd ext) (World.disk s') final
    = NodeFs.read_file (World.cwd ext) (World.disk s) Example.mp3_file.
Proof.
intros ext s s'.
apply (save_mp3_makes_directory_first ext Example.settings_en_small "/vault/plugin"
         "Recording 2025-01-02T0304" Example.mp3_file s s').
vm_compute. reflexivity.
Defined.
